(** * Winter-wheat phenology and ground-cover estimator

    A shallow embedding of [wheat_phenology_tool.py] (class
    [WheatPhenologyAnalyzer]) and the properties of its parameter
    estimator, index normalizer, trajectory reconstructor, uncertainty
    estimator and stage segmenter.

    Numbers.  The program computes on binary64 values inside numpy arrays.
    They are modelled by [npfloat]: an exact rational, or one of the three
    IEEE special values.  Rounding is not modelled and the two signed zeros
    are one zero (a zero divisor counts as [+0]); the special values follow
    IEEE 754, which is what numpy array arithmetic does (division by zero
    gives an infinity or NaN and no exception, since the module silences
    all warnings).

    Dates are day numbers ([Z]); both season boundaries are parsed with
    ['%d.%m.%Y'] and the daily range has frequency one day, so every date
    the segmenter compares is a whole number of days.  An observation time
    is kept as the day it falls on, which is all that [.dt.days] retains. *)

From Stdlib Require Import QArith Qminmax ZArith List String Bool Lia Lqa.
From Stdlib Require Import Sorted.
Import ListNotations.

Local Open Scope Q_scope.

(** ** Exceptions and results *)

Inductive exc : Type :=
  | ValueError      (* raised by the program itself and by numpy / scipy *)
  | NameError       (* a name that is bound in no enclosing scope *)
  | AttributeError. (* an attribute that was never assigned *)

Inductive result (A : Type) : Type :=
  | Ok (a : A)
  | Raise (e : exc).

Arguments Ok {A} a.
Arguments Raise {A} e.

Definition bind {A B : Type} (c : result A) (k : A -> result B) : result B :=
  match c with
  | Ok a => k a
  | Raise e => Raise e
  end.

Notation "x <- c ;; k" := (bind c (fun x => k))
  (at level 61, c at next level, right associativity).

Definition is_ok {A : Type} (c : result A) : bool :=
  match c with Ok _ => true | Raise _ => false end.

(** ** Numeric values *)

Module NP.

Inductive npfloat : Type :=
  | Fin (q : Q)
  | PInf
  | NInf
  | NaN.

Definition Qlt_bool (a b : Q) : bool := negb (Qle_bool b a).

Definition of_Z (z : Z) : npfloat := Fin (inject_Z z).

Definition fopp (x : npfloat) : npfloat :=
  match x with
  | Fin a => Fin (- a)
  | PInf => NInf
  | NInf => PInf
  | NaN => NaN
  end.

Definition fadd (x y : npfloat) : npfloat :=
  match x, y with
  | NaN, _ | _, NaN => NaN
  | Fin a, Fin b => Fin (a + b)
  | PInf, NInf | NInf, PInf => NaN
  | PInf, _ | _, PInf => PInf
  | NInf, _ | _, NInf => NInf
  end.

Definition fsub (x y : npfloat) : npfloat := fadd x (fopp y).

(** Sign of a finite value, the zero counted as positive. *)
Definition neg_sign (a : Q) : bool := Qlt_bool a 0.

Definition inf_of_sign (negative : bool) : npfloat :=
  if negative then NInf else PInf.

Definition is_zero (a : Q) : bool := Qeq_bool a 0.

Definition fmul (x y : npfloat) : npfloat :=
  match x, y with
  | NaN, _ | _, NaN => NaN
  | Fin a, Fin b => Fin (a * b)
  | Fin a, PInf | PInf, Fin a =>
      if is_zero a then NaN else inf_of_sign (neg_sign a)
  | Fin a, NInf | NInf, Fin a =>
      if is_zero a then NaN else inf_of_sign (negb (neg_sign a))
  | PInf, PInf | NInf, NInf => PInf
  | PInf, NInf | NInf, PInf => NInf
  end.

Definition fdiv (x y : npfloat) : npfloat :=
  match x, y with
  | NaN, _ | _, NaN => NaN
  | Fin a, Fin b =>
      if is_zero b
      then (if is_zero a then NaN else inf_of_sign (neg_sign a))
      else Fin (a / b)
  | Fin _, PInf | Fin _, NInf => Fin 0
  | PInf, Fin b => inf_of_sign (neg_sign b)
  | NInf, Fin b => inf_of_sign (negb (neg_sign b))
  | _, _ => NaN
  end.

(** Comparisons: every comparison with NaN is false. *)
Definition flt (x y : npfloat) : bool :=
  match x, y with
  | NaN, _ | _, NaN => false
  | Fin a, Fin b => Qlt_bool a b
  | NInf, NInf | PInf, _ | Fin _, NInf => false
  | NInf, _ | Fin _, PInf => true
  end.

Definition fle (x y : npfloat) : bool :=
  match x, y with
  | NaN, _ | _, NaN => false
  | Fin a, Fin b => Qle_bool a b
  | NInf, _ | _, PInf => true
  | _, _ => false
  end.

Definition is_nan (x : npfloat) : bool :=
  match x with NaN => true | _ => false end.

(** The same value (not the IEEE [==], which is false on NaN). *)
Definition feq (x y : npfloat) : Prop :=
  match x, y with
  | Fin a, Fin b => a == b
  | PInf, PInf | NInf, NInf | NaN, NaN => True
  | _, _ => False
  end.

(** [np.maximum] and [np.minimum] propagate NaN. *)
Definition np_maximum (x y : npfloat) : npfloat :=
  if is_nan x then NaN else if is_nan y then NaN
  else if flt x y then y else x.

Definition np_minimum (x y : npfloat) : npfloat :=
  if is_nan x then NaN else if is_nan y then NaN
  else if flt y x then y else x.

(** [np.clip(x, lo, hi)] is [np.minimum(np.maximum(x, lo), hi)]. *)
Definition clip1 (lo hi : Q) (x : npfloat) : npfloat :=
  np_minimum (np_maximum x (Fin lo)) (Fin hi).

Definition np_clip (xs : list npfloat) (lo hi : Q) : list npfloat :=
  map (clip1 lo hi) xs.

(** Python's builtin [max(a, b)] and [min(a, b)]: the first argument stays
    unless the second compares strictly beyond it. *)
Definition py_max (a b : npfloat) : npfloat := if flt a b then b else a.
Definition py_min (a b : npfloat) : npfloat := if flt b a then b else a.

(** A value of the closed unit interval. *)
Definition in_unit (x : npfloat) : Prop :=
  match x with
  | Fin a => 0 <= a <= 1
  | _ => False
  end.

End NP.

Export NP.

Declare Scope npfloat_scope.
Delimit Scope npfloat_scope with np.
Infix "+" := fadd : npfloat_scope.
Infix "-" := fsub : npfloat_scope.
Infix "*" := fmul : npfloat_scope.
Infix "/" := fdiv : npfloat_scope.
Coercion Fin : Q >-> npfloat.

(** ** Data model *)

(** One row of the observation table, after [load_data]. *)
Record observation : Type := mkObs {
  phenomenonTime : Z;
  NDVI : Q
}.

(** [self.fvc_params]: both entries are [None] until an estimation ran. *)
Record fvc_params_t : Type := mkParams {
  ndvi_soil : option npfloat;
  ndvi_vegetation : option npfloat
}.

Inductive stage : Type :=
  | Sowing | Emergence | Tillering | StemElongation | Booting
  | Heading | Flowering | GrainFilling | Maturity | Harvest.

(** A cell of the [Growth_Stage] column. *)
Inductive label : Type :=
  | Unknown
  | Lab (s : stage).

(** The FVC and ground-cover columns, present only when parameters exist. *)
Record fvc_columns : Type := mkFvc {
  FVC_Interpolated : list npfloat;
  FVC_Lower_CI : list npfloat;
  FVC_Upper_CI : list npfloat;
  Ground_Cover_Percentage : list npfloat;
  Ground_Cover_Lower_CI : list npfloat;
  Ground_Cover_Upper_CI : list npfloat
}.

(** [self.daily_ndvi], column by column. *)
Record frame : Type := mkFrame {
  Date : list Z;
  Days_After_Sowing : list Z;
  NDVI_Interpolated : list npfloat;
  NDVI_Lower_CI : list npfloat;
  NDVI_Upper_CI : list npfloat;
  fvc_cols : option fvc_columns;
  Growth_Stage : option (list label)
}.

Record analyzer : Type := mkAnalyzer {
  sowing_date : Z;
  harvest_date : Z;
  ndvi_data : list observation;
  fvc_params : fvc_params_t;
  daily_ndvi : option frame
}.

(** The session just after [__init__] and [load_data]. *)
Definition init (sowing harvest : Z) (obs : list observation) : analyzer :=
  {| sowing_date := sowing;
     harvest_date := harvest;
     ndvi_data := obs;
     fvc_params := {| ndvi_soil := None; ndvi_vegetation := None |};
     daily_ndvi := None |}.

Definition set_fvc_params (s : analyzer) (p : fvc_params_t) : analyzer :=
  {| sowing_date := sowing_date s;
     harvest_date := harvest_date s;
     ndvi_data := ndvi_data s;
     fvc_params := p;
     daily_ndvi := daily_ndvi s |}.

Definition set_daily_ndvi (s : analyzer) (df : frame) : analyzer :=
  {| sowing_date := sowing_date s;
     harvest_date := harvest_date s;
     ndvi_data := ndvi_data s;
     fvc_params := fvc_params s;
     daily_ndvi := Some df |}.

(** ** Column helpers *)

(** [Series.min()] and [Series.max()] of a column of finite values: NaN on
    an empty column. *)
Fixpoint series_min (l : list Q) : npfloat :=
  match l with
  | [] => NaN
  | a :: r =>
      match series_min r with
      | Fin m => Fin (if Qlt_bool m a then m else a)
      | _ => Fin a
      end
  end.

Fixpoint series_max (l : list Q) : npfloat :=
  match l with
  | [] => NaN
  | a :: r =>
      match series_max r with
      | Fin m => Fin (if Qlt_bool a m then m else a)
      | _ => Fin a
      end
  end.

(** [(ndvi_data['phenomenonTime'] - sowing_date).dt.days] *)
Definition days_after_sowing (s : analyzer) : list Z :=
  map (fun o => (phenomenonTime o - sowing_date s)%Z) (ndvi_data s).

Definition ndvi_values (s : analyzer) : list Q := map NDVI (ndvi_data s).

(** [ndvi_data.loc[mask, 'NDVI']] for a mask computed from the day offset. *)
Definition loc_ndvi (s : analyzer) (mask : Z -> bool) : list Q :=
  map NDVI
    (filter (fun o => mask (phenomenonTime o - sowing_date s)%Z) (ndvi_data s)).

(** ** Library functions

    What the program calls in pandas, numpy and scipy and what it draws
    from the random source, kept abstract: every property below holds for
    each implementation of them. *)
Record library : Type := mkLibrary {
  (** [Series.quantile(q)] of pandas *)
  quantile : Q -> list Q -> npfloat;
  (** [np.exp] on a finite argument *)
  np_exp : Q -> Q;
  (** [scipy.ndimage.gaussian_filter1d(y, sigma=1.5)] *)
  gaussian_filter1d : list npfloat -> list npfloat;
  (** [interp1d(x, y, kind=kind, bounds_error=False,
      fill_value='extrapolate')(x_new)]: building or calling it may raise *)
  interp1d : string -> list Z -> list Q -> list Z -> result (list npfloat);
  (** [np.polyfit(x, y, deg)] *)
  np_polyfit : list Z -> list Q -> Z -> result (list npfloat);
  (** [np.percentile(a, q, axis=0)] of the stacked trial predictions *)
  np_percentile : list (list npfloat) -> Q -> list npfloat;
  (** the raw draw behind position [j] of the index vector of trial [t] *)
  raw_draw : nat -> nat -> nat;
  (** the [k]-th draw of [np.random.random()] *)
  np_random_random : nat -> Q
}.

(** ** Parameter estimator and index normalizer *)

Section Estimator.

Variable L : library.

Definition estimate_fvc_parameters (method : string) (s : analyzer)
  : result (analyzer * fvc_params_t) :=
  if String.eqb method "literature" then
    let p := {| ndvi_soil := Some (Fin 0.15);
                ndvi_vegetation := Some (Fin 0.85) |} in
    Ok (set_fvc_params s p, p)
  else if String.eqb method "data_driven" then
    let ndvi_min := series_min (ndvi_values s) in
    let ndvi_max := series_max (ndvi_values s) in
    let p := {| ndvi_soil := Some (py_max (Fin 0.05) (ndvi_min - Fin 0.02)%np);
                ndvi_vegetation :=
                  Some (py_min (Fin 0.95) (ndvi_max + Fin 0.02)%np) |} in
    Ok (set_fvc_params s p, p)
  else if String.eqb method "seasonal" then
    let early := loc_ndvi s (fun d => (d <=? 30)%Z) in
    let soil :=
      if (0 <? List.length early)%nat then quantile L 0.25 early
      else Fin 0.15 in
    let mid := loc_ndvi s (fun d => (60 <=? d)%Z && (d <=? 120)%Z) in
    let vegetation :=
      if (0 <? List.length mid)%nat then quantile L 0.75 mid
      else Fin 0.85 in
    let p := {| ndvi_soil := Some (py_max (Fin 0.05) soil);
                ndvi_vegetation := Some (py_min (Fin 0.95) vegetation) |} in
    Ok (set_fvc_params s p, p)
  else Raise ValueError.

End Estimator.

(** [calculate_fvc]: the only check is that both parameters are set. *)
Definition calculate_fvc (s : analyzer) (ndvi_values : list npfloat)
  : result (list npfloat) :=
  match ndvi_soil (fvc_params s), ndvi_vegetation (fvc_params s) with
  | Some soil, Some vegetation =>
      let fvc :=
        map (fun v => ((v - soil) / (vegetation - soil))%np) ndvi_values in
      Ok (np_clip fvc 0 1)
  | _, _ => Raise ValueError
  end.

Definition calculate_ground_cover_percentage (fvc_values : list npfloat)
  : list npfloat :=
  map (fun f => (f * Fin 100)%np) fvc_values.

(** ** Array helpers *)

(** [pd.date_range(start, end, freq='D')]: both ends included, empty when
    the end precedes the start. *)
Definition date_range (first last : Z) : list Z :=
  map (fun i => (first + Z.of_nat i)%Z) (seq 0 (Z.to_nat (last - first + 1))).

(** [a[i] = v]; the arrays indexed below always have the index in range. *)
Fixpoint upd {A : Type} (i : nat) (v : A) (l : list A) : list A :=
  match l, i with
  | [], _ => []
  | _ :: r, O => v :: r
  | a :: r, S j => a :: upd j v r
  end.

(** [np.where(a == z)[0][0]], defined when [z in a]. *)
Fixpoint find_index (z : Z) (l : list Z) : option nat :=
  match l with
  | [] => None
  | a :: r =>
      if (a =? z)%Z then Some O
      else match find_index z r with
           | Some i => Some (S i)
           | None => None
           end
  end.

(** [for i, d in enumerate(xs): ys[i] = f d ys[i]] *)
Fixpoint zip_with {A B C : Type} (f : A -> B -> C) (xs : list A) (ys : list B)
  : list C :=
  match xs, ys with
  | x :: xr, y :: yr => f x y :: zip_with f xr yr
  | _, _ => []
  end.

(** Python's builtin [max] over a non-empty array of integers. *)
Definition max_Z (l : list Z) : Z :=
  match l with
  | [] => 0%Z
  | a :: r => fold_left Z.max r a
  end.

(** [np.max(a)]: raises on an empty array. *)
Definition np_max (l : list Q) : result Q :=
  match series_max l with
  | Fin m => Ok m
  | _ => Raise ValueError
  end.

(** [np.mean] of an integer column. *)
Definition np_mean (l : list Z) : npfloat :=
  (of_Z (fold_left Z.add l 0%Z) / of_Z (Z.of_nat (List.length l)))%np.

(** [np.polyval(p, x)]: Horner's rule, highest degree first. *)
Definition np_polyval (p : list npfloat) (xs : list Z) : list npfloat :=
  map (fun x => fold_left (fun acc c => (acc * of_Z x + c)%np) p (Fin 0)) xs.

(** [np.unique(a, return_index=True)[1]]: for each distinct value, in
    increasing order, the position of its first occurrence. *)
Fixpoint insert_unique (z : Z) (l : list Z) : list Z :=
  match l with
  | [] => [z]
  | a :: r =>
      if (z <? a)%Z then z :: l
      else if (z =? a)%Z then l
      else a :: insert_unique z r
  end.

Definition sorted_unique (l : list Z) : list Z := fold_right insert_unique [] l.

Fixpoint index_of (z : Z) (l : list Z) : nat :=
  match l with
  | [] => O
  | a :: r => if (a =? z)%Z then O else S (index_of z r)
  end.

Definition np_unique_index (l : list Z) : list nat :=
  map (fun v => index_of v l) (sorted_unique l).

(** [a[indices]] *)
Definition take {A : Type} (d : A) (l : list A) (indices : list nat) : list A :=
  map (fun i => nth i l d) indices.

(** ** Trajectory reconstructor, uncertainty estimator, pipeline *)

Section Pipeline.

Variable L : library.

Definition fexp (x : npfloat) : npfloat :=
  match x with
  | Fin a => Fin (np_exp L a)
  | PInf => PInf
  | NInf => Fin 0
  | NaN => NaN
  end.

(** [np.random.choice(n, n, replace=True)] in trial [t]. *)
Definition np_random_choice (t n : nat) : list nat :=
  map (fun j => (raw_draw L t j mod n)%nat) (seq 0 n).

Definition x_obs_of (s : analyzer) : list Z := days_after_sowing s.
Definition y_obs_of (s : analyzer) : list Q := ndvi_values s.

(** *** Guided ("balanced") reconstruction *)

Definition emergence_day : Z := 10.
Definition tillering_start : Z := 45.
Definition stem_elongation_start : Z := 120.
Definition booting_start : Z := 200.
Definition heading_start : Z := 220.
Definition flowering_start : Z := 230.
Definition grain_filling_start : Z := 245.
Definition maturity_start : Z := 270.

(** [(1 - weight) * y + weight * target] *)
Definition blend (weight target y : npfloat) : npfloat :=
  ((Fin 1 - weight) * y + weight * target)%np.

(** [(days - a) / (b - a)] on integers: true division. *)
Definition progress_of (days a b : Z) : npfloat :=
  (of_Z (days - a) / of_Z (b - a))%np.

(** The body of the per-day loop of [_balanced_interpolation]. *)
Definition balanced_phase (x_max : Z) (days : Z) (y : npfloat) : npfloat :=
  if (days <? emergence_day)%Z then
    let transition :=
      (Fin 1 - fexp (of_Z (- (emergence_day - days)) / Fin 5))%np in
    (Fin 0.05 * transition + y * (Fin 1 - transition))%np
  else if (days <? tillering_start)%Z then
    let progress := progress_of days emergence_day tillering_start in
    blend (Fin 0.4) (Fin 0.05 + Fin 0.25 * progress)%np y
  else if (days <? stem_elongation_start)%Z then
    let progress := progress_of days tillering_start stem_elongation_start in
    blend (Fin 0.5) (Fin 0.30 + Fin 0.35 * progress)%np y
  else if (days <? booting_start)%Z then
    let progress := progress_of days stem_elongation_start booting_start in
    blend (Fin 0.6) (Fin 0.65 + Fin 0.20 * progress)%np y
  else if (days <? flowering_start)%Z then
    let progress := progress_of days booting_start flowering_start in
    blend (Fin 0.7) (Fin 0.85 + Fin 0.10 * progress)%np y
  else if (days <? grain_filling_start)%Z then
    blend (Fin 0.8) (Fin 0.95) y
  else if (days <? maturity_start)%Z then
    let progress := progress_of days grain_filling_start maturity_start in
    blend (Fin 0.6) (Fin 0.95 - Fin 0.30 * progress)%np y
  else
    let progress := progress_of days maturity_start x_max in
    blend (Fin 0.7) (Fin 0.65 - Fin 0.50 * progress)%np y.

(** One turn of the inner loop of the observation pull, at position [i]. *)
Definition pull_near (x_interp : list Z) (idx : nat) (obs_day : Z)
    (obs_ndvi : Q) (y : list npfloat) (i : nat) : list npfloat :=
  if (i =? idx)%nat then y
  else
    let distance := Z.abs (nth i x_interp 0%Z - obs_day) in
    if (distance <? 50)%Z then
      let influence := fexp (of_Z (- distance) / Fin 15)%np in
      upd i ((Fin 1 - influence * Fin 0.5) * nth i y NaN
             + influence * Fin 0.5 * Fin obs_ndvi)%np y
    else y.

(** One turn of the outer loop: the pull of one observation. *)
Definition pull_observation (x_interp : list Z) (y : list npfloat)
    (ob : Z * Q) : list npfloat :=
  let '(obs_day, obs_ndvi) := ob in
  match find_index obs_day x_interp with
  | None => y
  | Some idx =>
      let y1 :=
        upd idx (Fin 0.9 * Fin obs_ndvi + Fin 0.1 * nth idx y NaN)%np y in
      fold_left (pull_near x_interp idx obs_day obs_ndvi)
                (seq 0 (List.length x_interp)) y1
  end.

(** The series just before the observation pull. *)
Definition balanced_constrained (peak_ndvi : Q) (peak_day : npfloat)
    (x_interp : list Z) : list npfloat :=
  let k := Fin 0.02 in
  let baseline := Fin 0.05 in
  let sigmoid_baseline :=
    map (fun x =>
           (baseline + (Fin peak_ndvi - baseline)
                       / (Fin 1 + fexp (fopp k * (of_Z x - peak_day))))%np)
        x_interp in
  zip_with (balanced_phase (max_Z x_interp)) x_interp sigmoid_baseline.

Definition _balanced_interpolation (s : analyzer) (x_interp : list Z)
  : result (list npfloat) :=
  let x_obs := x_obs_of s in
  let y_obs := y_obs_of s in
  peak_ndvi <- np_max y_obs ;;
  let peak_day := np_mean x_obs in
  let y_interp := balanced_constrained peak_ndvi peak_day x_interp in
  let y_interp :=
    fold_left (pull_observation x_interp) (combine x_obs y_obs) y_interp in
  Ok (gaussian_filter1d L y_interp).

(** *** Physiological reconstruction *)

Definition physiological_phase (x_max : Z) (i : nat) (days : Z) : npfloat :=
  if (days <? emergence_day)%Z then
    (Fin 0.05 + Fin 0.02 * Fin (np_random_random L i))%np
  else if (days <? tillering_start)%Z then
    (Fin 0.05 + Fin 0.15 * progress_of days emergence_day tillering_start)%np
  else if (days <? stem_elongation_start)%Z then
    (Fin 0.20
     + Fin 0.25 * progress_of days tillering_start stem_elongation_start)%np
  else if (days <? booting_start)%Z then
    (Fin 0.45
     + Fin 0.25 * progress_of days stem_elongation_start booting_start)%np
  else if (days <? heading_start)%Z then
    (Fin 0.70 + Fin 0.15 * progress_of days booting_start heading_start)%np
  else if (days <? flowering_start)%Z then
    (Fin 0.85 + Fin 0.05 * progress_of days heading_start flowering_start)%np
  else if (days <? grain_filling_start)%Z then
    (Fin 0.90 + Fin 0.02 * Fin (np_random_random L i))%np
  else if (days <? maturity_start)%Z then
    (Fin 0.90
     - Fin 0.30 * progress_of days grain_filling_start maturity_start)%np
  else
    (Fin 0.60 - Fin 0.50 * progress_of days maturity_start x_max)%np.

(** The adjustment loop shared in shape by the physiological and sigmoid
    reconstructions: [y[idx] = w * obs + (1 - w) * y[idx]], with the two
    weights as the source writes them. *)
Definition blend_observation (w_obs w_curve : Q) (x_interp : list Z)
    (y : list npfloat) (ob : Z * Q) : list npfloat :=
  let '(obs_day, obs_ndvi) := ob in
  match find_index obs_day x_interp with
  | None => y
  | Some idx =>
      upd idx (Fin w_obs * Fin obs_ndvi + Fin w_curve * nth idx y NaN)%np y
  end.

Definition _physiological_interpolation (s : analyzer) (x_interp : list Z)
  : list npfloat :=
  let y_interp :=
    zip_with (physiological_phase (max_Z x_interp))
             (seq 0 (List.length x_interp)) x_interp in
  fold_left (blend_observation 0.7 0.3 x_interp)
            (combine (x_obs_of s) (y_obs_of s)) y_interp.

(** *** Logistic ("sigmoid") reconstruction *)

Definition sigmoid_curve (peak_ndvi : npfloat) (x_interp : list Z)
  : list npfloat :=
  let peak_day := 240%Z in
  let k := Fin 0.02 in
  let x0 := peak_day in
  let y_interp :=
    map (fun x => (peak_ndvi / (Fin 1 + fexp (fopp k * of_Z (x - x0))))%np)
        x_interp in
  let baseline := Fin 0.05 in
  map (fun y => (baseline + (peak_ndvi - baseline) * y / peak_ndvi)%np)
      y_interp.

Definition _sigmoid_interpolation (s : analyzer) (x_interp : list Z)
  : list npfloat :=
  let peak_ndvi := series_max (ndvi_values s) in
  let y_interp := sigmoid_curve peak_ndvi x_interp in
  fold_left (blend_observation 0.8 0.2 x_interp)
            (combine (x_obs_of s) (y_obs_of s)) y_interp.

(** *** Uncertainty estimator *)

(** One bootstrap trial: [None] when the trial is skipped, either by the
    [continue] on fewer than two distinct days or by the bare [except]. *)
Definition bootstrap_trial (x_obs : list Z) (y_obs : list Q)
    (x_interp : list Z) (method : string) (t : nat) : option (list npfloat) :=
  let indices := np_random_choice t (List.length x_obs) in
  let x_boot := take 0%Z x_obs indices in
  let y_boot := take 0 y_obs indices in
  let unique_indices := np_unique_index x_boot in
  let x_boot_unique := take 0%Z x_boot unique_indices in
  let y_boot_unique := take 0 y_boot unique_indices in
  let n := List.length x_boot_unique in
  if (n <? 2)%nat then None
  else
    let y_boot_interp :=
      if String.eqb method "cubic" && (4 <=? n)%nat then
        interp1d L "cubic" x_boot_unique y_boot_unique x_interp
      else if String.eqb method "polynomial" && (3 <=? n)%nat then
        coeffs <- np_polyfit L x_boot_unique y_boot_unique
                    (Z.min 2 (Z.of_nat n - 1)) ;;
        Ok (np_polyval coeffs x_interp)
      else
        interp1d L "linear" x_boot_unique y_boot_unique x_interp in
    match y_boot_interp with
    | Ok y => Some y
    | Raise _ => None
    end.

(** The list [bootstrap_predictions] after the trial loop. *)
Definition bootstrap_predictions (x_obs : list Z) (y_obs : list Q)
    (x_interp : list Z) (method : string) (n_bootstrap : nat)
  : list (list npfloat) :=
  flat_map (fun t =>
              match bootstrap_trial x_obs y_obs x_interp method t with
              | Some y => [y]
              | None => []
              end)
           (seq 0 n_bootstrap).

(** The fallback reads [y_interp], which is neither a parameter nor a local
    of this method nor a module-level name: evaluating it raises
    [NameError]. *)
Definition _calculate_confidence_intervals (x_obs : list Z) (y_obs : list Q)
    (x_interp : list Z) (method : string) (n_bootstrap : nat)
  : result (list npfloat * list npfloat) :=
  match bootstrap_predictions x_obs y_obs x_interp method n_bootstrap with
  | [] => Raise NameError
  | preds => Ok (np_percentile L preds 2.5, np_percentile L preds 97.5)
  end.

(** *** The pipeline *)

(** The primary series of [interpolate_ndvi], before clipping. *)
Definition reconstruct (method : string) (s : analyzer) (x_interp : list Z)
  : result (list npfloat) :=
  if String.eqb method "balanced" then _balanced_interpolation s x_interp
  else if String.eqb method "physiological" then
    Ok (_physiological_interpolation s x_interp)
  else if String.eqb method "sigmoid" then
    Ok (_sigmoid_interpolation s x_interp)
  else
    let x_obs := x_obs_of s in
    let y_obs := y_obs_of s in
    if String.eqb method "cubic" then interp1d L "cubic" x_obs y_obs x_interp
    else if String.eqb method "polynomial" then
      coeffs <- np_polyfit L x_obs y_obs
                  (Z.min 3 (Z.of_nat (List.length x_obs) - 1)) ;;
      Ok (np_polyval coeffs x_interp)
    else interp1d L "linear" x_obs y_obs x_interp.

Definition n_bootstrap_default : nat := 1000.

Definition interpolate_ndvi (method : string) (s : analyzer)
  : result (analyzer * frame) :=
  let dates := date_range (sowing_date s) (harvest_date s) in
  let x_interp := map (fun d => (d - sowing_date s)%Z) dates in
  y_interp <- reconstruct method s x_interp ;;
  let y_interp := np_clip y_interp 0 1 in
  confidence_intervals <-
    _calculate_confidence_intervals (x_obs_of s) (y_obs_of s) x_interp method
      n_bootstrap_default ;;
  let lower := np_clip (fst confidence_intervals) 0 1 in
  let upper := np_clip (snd confidence_intervals) 0 1 in
  fvc <- match ndvi_soil (fvc_params s) with
         | Some _ =>
             fvc_interp <- calculate_fvc s y_interp ;;
             fvc_lower_ci <- calculate_fvc s lower ;;
             fvc_upper_ci <- calculate_fvc s upper ;;
             Ok (Some
                   {| FVC_Interpolated := fvc_interp;
                      FVC_Lower_CI := fvc_lower_ci;
                      FVC_Upper_CI := fvc_upper_ci;
                      Ground_Cover_Percentage :=
                        calculate_ground_cover_percentage fvc_interp;
                      Ground_Cover_Lower_CI :=
                        calculate_ground_cover_percentage fvc_lower_ci;
                      Ground_Cover_Upper_CI :=
                        calculate_ground_cover_percentage fvc_upper_ci |})
         | None => Ok None
         end ;;
  let df := {| Date := dates;
               Days_After_Sowing := x_interp;
               NDVI_Interpolated := y_interp;
               NDVI_Lower_CI := lower;
               NDVI_Upper_CI := upper;
               fvc_cols := fvc;
               Growth_Stage := None |} in
  Ok (set_daily_ndvi s df, df).

End Pipeline.

(** ** Stage segmenter *)

Definition is_harvest (st : stage) : bool :=
  match st with Harvest => true | _ => false end.

(** [Series.idxmax()]: the position of the first largest value, NaN cells
    skipped; [None] when there is no value to pick (pandas raises). *)
Fixpoint idxmax_from (i : nat) (best : option (nat * npfloat))
    (l : list npfloat) : option nat :=
  match l with
  | [] => option_map fst best
  | v :: r =>
      let best' :=
        if is_nan v then best
        else match best with
             | None => Some (i, v)
             | Some (_, b) => if flt b v then Some (i, v) else best
             end in
      idxmax_from (S i) best' r
  end.

Definition idxmax (l : list npfloat) : option nat := idxmax_from 0 None l.

(** The dictionary [growth_stage_dates], in insertion order. *)
Definition growth_stage_dates (sowing harvest peak_date : Z)
  : list (stage * Z) :=
  [ (Sowing, sowing);
    (Emergence, (sowing + 10)%Z);
    (Tillering, (sowing + 45)%Z);
    (StemElongation, (sowing + 120)%Z);
    (Booting, (peak_date - 20)%Z);
    (Heading, (peak_date - 10)%Z);
    (Flowering, peak_date);
    (GrainFilling, (peak_date + 15)%Z);
    (Maturity, (harvest - 25)%Z);
    (Harvest, harvest) ].

(** Python's builtin [min] over a non-empty sequence of dates. *)
Definition min_Z (l : list Z) : Z :=
  match l with
  | [] => 0%Z
  | a :: r => fold_left Z.min r a
  end.

(** The mask of one stage at one date of the [Date] column.  The entries
    of [next_stages] are kept with their dates, which is what looking each
    name up again in the dictionary gives. *)
Definition stage_mask (dates : list (stage * Z)) (harvest : Z)
    (st : stage) (date : Z) (d : Z) : bool :=
  let mask := (date <=? d)%Z in
  if negb (is_harvest st) then
    let next_stages := filter (fun e => (date <? snd e)%Z) dates in
    match next_stages with
    | _ :: _ =>
        let next_date := min_Z (map snd next_stages) in
        mask && (d <? next_date)%Z
    | [] => mask && (d <=? harvest)%Z
    end
  else (d =? date)%Z.

(** [daily_ndvi.loc[mask, 'Growth_Stage'] = stage] *)
Definition assign_stage (dates : list (stage * Z)) (harvest : Z)
    (column : list Z) (labels : list label) (e : stage * Z) : list label :=
  let mask := map (stage_mask dates harvest (fst e) (snd e)) column in
  zip_with (fun (m : bool) (old : label) => if m then Lab (fst e) else old)
           mask labels.

Definition set_growth_stage (df : frame) (labels : list label) : frame :=
  {| Date := Date df;
     Days_After_Sowing := Days_After_Sowing df;
     NDVI_Interpolated := NDVI_Interpolated df;
     NDVI_Lower_CI := NDVI_Lower_CI df;
     NDVI_Upper_CI := NDVI_Upper_CI df;
     fvc_cols := fvc_cols df;
     Growth_Stage := Some labels |}.

Definition estimate_growth_stages (s : analyzer)
  : result (analyzer * list (stage * Z)) :=
  match daily_ndvi s with
  | None => Raise AttributeError
  | Some df =>
      match idxmax (NDVI_Interpolated df) with
      | None => Raise ValueError
      | Some peak_idx =>
          let peak_date := nth peak_idx (Date df) 0%Z in
          let dates :=
            growth_stage_dates (sowing_date s) (harvest_date s) peak_date in
          let labels := map (fun _ => Unknown) (Date df) in
          let labels :=
            fold_left (assign_stage dates (harvest_date s) (Date df))
                      dates labels in
          Ok (set_daily_ndvi s (set_growth_stage df labels), dates)
      end
  end.

(** The anchor of a stage, as a function of the three dates. *)
Definition anchor_date (sowing harvest peak_date : Z) (st : stage) : Z :=
  match st with
  | Sowing => sowing
  | Emergence => sowing + 10
  | Tillering => sowing + 45
  | StemElongation => sowing + 120
  | Booting => peak_date - 20
  | Heading => peak_date - 10
  | Flowering => peak_date
  | GrainFilling => peak_date + 15
  | Maturity => harvest - 25
  | Harvest => harvest
  end%Z.

(** ** Saving the results *)

(** A column of a data frame, by the type of its cells. *)
Inductive column : Type :=
  | DateColumn (l : list Z)
  | IntColumn (l : list Z)
  | FloatColumn (l : list npfloat)
  | StageColumn (l : list label).

Definition table : Type := list (string * column).

(** The columns of [self.daily_ndvi] in the order they were created:
    [interpolate_ndvi] makes the first five, then the six cover columns
    when it has parameters, and [estimate_growth_stages] adds the last. *)
Definition frame_table (df : frame) : table :=
  [ ("Date"%string, DateColumn (Date df));
    ("Days_After_Sowing"%string, IntColumn (Days_After_Sowing df));
    ("NDVI_Interpolated"%string, FloatColumn (NDVI_Interpolated df));
    ("NDVI_Lower_CI"%string, FloatColumn (NDVI_Lower_CI df));
    ("NDVI_Upper_CI"%string, FloatColumn (NDVI_Upper_CI df)) ]
  ++ match fvc_cols df with
     | Some c =>
         [ ("FVC_Interpolated"%string, FloatColumn (FVC_Interpolated c));
           ("FVC_Lower_CI"%string, FloatColumn (FVC_Lower_CI c));
           ("FVC_Upper_CI"%string, FloatColumn (FVC_Upper_CI c));
           ("Ground_Cover_Percentage"%string,
            FloatColumn (Ground_Cover_Percentage c));
           ("Ground_Cover_Lower_CI"%string,
            FloatColumn (Ground_Cover_Lower_CI c));
           ("Ground_Cover_Upper_CI"%string,
            FloatColumn (Ground_Cover_Upper_CI c)) ]
     | None => []
     end
  ++ match Growth_Stage df with
     | Some l => [("Growth_Stage"%string, StageColumn l)]
     | None => []
     end.

Fixpoint lookup_column (name : string) (t : table) : option column :=
  match t with
  | [] => None
  | (n, c) :: r => if String.eqb n name then Some c else lookup_column name r
  end.

(** [name in df.columns] *)
Definition has_column (name : string) (t : table) : bool :=
  match lookup_column name t with Some _ => true | None => false end.

(** [df[names]]: the listed columns in the listed order, [None] (pandas
    raises [KeyError]) when one of them is missing. *)
Fixpoint select_columns (names : list string) (t : table) : option table :=
  match names with
  | [] => Some []
  | n :: r =>
      match lookup_column n t, select_columns r t with
      | Some c, Some q => Some ((n, c) :: q)
      | _, _ => None
      end
  end.

Inductive save_result : Type :=
  | Saved (result_df : table)
  | SaveAttributeError  (* [self.daily_ndvi] was never assigned *)
  | SaveKeyError.       (* a listed column is not in the frame *)

(** [save_results], up to the call of [to_csv]: the frame it writes and
    returns. *)
Definition save_results (s : analyzer) : save_result :=
  match daily_ndvi s with
  | None => SaveAttributeError
  | Some df =>
      let rows := List.length (Date df) in
      let result_df :=
        frame_table df
        ++ [ ("Sowing_Date"%string, DateColumn (repeat (sowing_date s) rows));
             ("Harvest_Date"%string,
              DateColumn (repeat (harvest_date s) rows)) ] in
      let columns_order :=
        [ "Date"; "Days_After_Sowing"; "NDVI_Interpolated";
          "NDVI_Lower_CI"; "NDVI_Upper_CI"; "Growth_Stage";
          "Sowing_Date"; "Harvest_Date" ]%string in
      let columns_order :=
        if has_column "FVC_Interpolated" result_df then
          let fvc_columns :=
            [ "FVC_Interpolated"; "FVC_Lower_CI"; "FVC_Upper_CI" ]%string in
          firstn 5 columns_order ++ fvc_columns ++ skipn 5 columns_order
        else columns_order in
      let columns_order :=
        if has_column "Ground_Cover_Percentage" result_df then
          let ground_cover_columns :=
            [ "Ground_Cover_Percentage"; "Ground_Cover_Lower_CI";
              "Ground_Cover_Upper_CI" ]%string in
          let insert_pos :=
            if has_column "FVC_Interpolated" result_df then 8%nat
            else 5%nat in
          firstn insert_pos columns_order ++ ground_cover_columns
          ++ skipn insert_pos columns_order
        else columns_order in
      match select_columns columns_order result_df with
      | Some t => Saved t
      | None => SaveKeyError
      end
  end.

(** ** Library instances and sample data *)

(** The least a library can be: no fit is available and every draw is
    zero.  It serves to run the model on inputs whose result does not
    depend on the library. *)
Definition trivial_library : library :=
  {| quantile := fun _ _ => NaN;
     np_exp := fun _ => 1;
     gaussian_filter1d := fun y => y;
     interp1d := fun _ _ _ _ => Raise ValueError;
     np_polyfit := fun _ _ _ => Raise ValueError;
     np_percentile := fun _ _ => [];
     raw_draw := fun _ _ => O;
     np_random_random := fun _ => 0 |}.

(** A library as numpy and scipy behave on a profile that is zero at every
    observation: the interpolant through points of ordinate zero is zero
    (two points at least are asked for), and a percentile of equal rows is
    that row.  The resample of every trial is the sample itself. *)
Definition zero_profile_library : library :=
  {| quantile := fun _ _ => NaN;
     np_exp := fun _ => 1;
     gaussian_filter1d := fun y => y;
     interp1d := fun _ xs _ x_new =>
       if (List.length xs <? 2)%nat then Raise ValueError
       else Ok (map (fun _ => Fin 0) x_new);
     np_polyfit := fun _ _ _ => Raise ValueError;
     np_percentile := fun preds _ => hd [] preds;
     raw_draw := fun _ j => j;
     np_random_random := fun _ => 0 |}.

(** A daily frame for a season of 300 days whose index peaks on day 240. *)
Definition sample_frame : frame :=
  let dates := date_range 0 300 in
  let column :=
    map (fun d => if (d =? 240)%Z then Fin 0.9 else Fin 0.5) dates in
  {| Date := dates;
     Days_After_Sowing := dates;
     NDVI_Interpolated := column;
     NDVI_Lower_CI := column;
     NDVI_Upper_CI := column;
     fvc_cols := None;
     Growth_Stage := None |}.

(** A session with two observations of index zero and the literature
    parameters, and a run of the pipeline on it that returns: the
    physiological reconstruction of its season of 300 days. *)
Definition sample_session : analyzer :=
  set_fvc_params (init 0 300 [mkObs 10 0; mkObs 100 0])
                 {| ndvi_soil := Some (Fin 0.15);
                    ndvi_vegetation := Some (Fin 0.85) |}.

Definition sample_run : analyzer * frame :=
  let s := sample_session in
  match interpolate_ndvi zero_profile_library "physiological" s with
  | Ok r => r
  | Raise _ => (s, sample_frame)
  end.

(** ** Vocabulary of the statements *)

(** A session's parameters, both set and finite. *)
Definition params_of (soil vegetation : Q) : fvc_params_t :=
  {| ndvi_soil := Some (Fin soil); ndvi_vegetation := Some (Fin vegetation) |}.

(** The value [calculate_fvc] computes for one cell. *)
Definition fvc_cell (soil vegetation : npfloat) (v : npfloat) : npfloat :=
  clip1 0 1 ((v - soil) / (vegetation - soil))%np.

(** [lo] is the least and [hi] the greatest value of a column. *)
Definition is_minimum (lo : Q) (l : list Q) : Prop :=
  (exists x, In x l /\ x == lo) /\ forall x, In x l -> lo <= x.

Definition is_maximum (hi : Q) (l : list Q) : Prop :=
  (exists x, In x l /\ x == hi) /\ forall x, In x l -> x <= hi.

(** The series of [_balanced_interpolation] once the first [k]
    observations have been pulled in. *)
Definition balanced_after (L : library) (peak_ndvi : Q) (peak_day : npfloat)
    (x_interp : list Z) (obs : list (Z * Q)) (k : nat) : list npfloat :=
  fold_left (pull_observation L x_interp) (firstn k obs)
            (balanced_constrained L peak_ndvi peak_day x_interp).

(** Columns that hold NaN in every cell, and cells that are NaN or in
    the unit interval. *)
Definition all_nan (l : list npfloat) : Prop := Forall (fun y => y = NaN) l.

Definition nan_or_unit (y : npfloat) : Prop := y = NaN \/ in_unit y.

(** The label one row ends with: the stages are visited in dictionary
    order and each overwrites the rows of its mask. *)
Definition row_label (dates : list (stage * Z)) (harvest d : Z)
    (items : list (stage * Z)) (start : label) : label :=
  fold_left
    (fun lab e =>
       if stage_mask dates harvest (fst e) (snd e) d then Lab (fst e) else lab)
    items start.

(** The [Growth_Stage] column after a run of the segmenter. *)
Definition stage_labels (s : analyzer) : list label :=
  match estimate_growth_stages s with
  | Ok (s', _) =>
      match daily_ndvi s' with
      | Some df => match Growth_Stage df with Some l => l | None => [] end
      | None => []
      end
  | Raise _ => []
  end.

(** A value of the interval from 0 to 100. *)
Definition in_percent (x : npfloat) : Prop :=
  match x with
  | Fin a => 0 <= a <= 100
  | _ => False
  end.

(** What the pull of an observation on day [obs_day] makes of a cell of
    day [x] other than the observation's own. *)
Definition near_value (L : library) (obs_day : Z) (obs_ndvi : Q) (x : Z)
    (y : npfloat) : npfloat :=
  let distance := Z.abs (x - obs_day) in
  if (distance <? 50)%Z then
    let influence := fexp L (of_Z (- distance) / Fin 15)%np in
    ((Fin 1 - influence * Fin 0.5) * y
     + influence * Fin 0.5 * Fin obs_ndvi)%np
  else y.

(** Every observed index value lies in the unit interval. *)
Definition unit_observations (s : analyzer) : Prop :=
  forall o, In o (ndvi_data s) -> 0 <= NDVI o <= 1.

(** The stage after a stage in the schedule, and the first date that no
    longer belongs to a stage when the anchors are in increasing order. *)
Definition next_stage (st : stage) : stage :=
  match st with
  | Sowing => Emergence
  | Emergence => Tillering
  | Tillering => StemElongation
  | StemElongation => Booting
  | Booting => Heading
  | Heading => Flowering
  | Flowering => GrainFilling
  | GrainFilling => Maturity
  | Maturity => Harvest
  | Harvest => Harvest
  end.

Definition stage_end (sowing harvest peak_date : Z) (st : stage) : Z :=
  match st with
  | Harvest => (harvest + 1)%Z
  | _ => anchor_date sowing harvest peak_date (next_stage st)
  end.

(** The column names of a saved frame, in three groups. *)
Definition base_names : list string :=
  [ "Date"; "Days_After_Sowing"; "NDVI_Interpolated"; "NDVI_Lower_CI";
    "NDVI_Upper_CI" ]%string.

Definition cover_names : list string :=
  [ "FVC_Interpolated"; "FVC_Lower_CI"; "FVC_Upper_CI";
    "Ground_Cover_Percentage"; "Ground_Cover_Lower_CI";
    "Ground_Cover_Upper_CI" ]%string.

Definition tail_names : list string :=
  [ "Growth_Stage"; "Sowing_Date"; "Harvest_Date" ]%string.

Definition nan_or_percent (y : npfloat) : Prop := y = NaN \/ in_percent y.

(** * Properties *)

(** ** Numeric lemmas *)

Lemma Qlt_bool_iff (a b : Q) : Qlt_bool a b = true <-> a < b.
Proof.
  unfold Qlt_bool. rewrite negb_true_iff.
  split; intro H.
  - apply Qnot_le_lt. intro Hle. apply Qle_bool_iff in Hle. congruence.
  - destruct (Qle_bool b a) eqn:E; [|reflexivity].
    apply Qle_bool_iff in E. lra.
Qed.

Lemma Qlt_bool_false_iff (a b : Q) : Qlt_bool a b = false <-> b <= a.
Proof.
  unfold Qlt_bool. rewrite negb_false_iff. apply Qle_bool_iff.
Qed.

Lemma is_zero_true_iff (a : Q) : is_zero a = true <-> a == 0.
Proof. unfold is_zero. apply Qeq_bool_iff. Qed.

Lemma is_zero_false_iff (a : Q) : is_zero a = false <-> ~ a == 0.
Proof.
  unfold is_zero. split; intro H.
  - intro E. apply Qeq_bool_iff in E. congruence.
  - destruct (Qeq_bool a 0) eqn:E; [|reflexivity].
    apply Qeq_bool_iff in E. contradiction.
Qed.

(** Case analysis on the boolean comparisons of rationals. *)
Ltac qcases :=
  repeat match goal with
  | |- context [Qlt_bool ?a ?b] =>
      let E := fresh "E" in
      destruct (Qlt_bool a b) eqn:E;
      [apply Qlt_bool_iff in E | apply Qlt_bool_false_iff in E]
  | |- context [Qle_bool ?a ?b] =>
      let E := fresh "E" in
      destruct (Qle_bool a b) eqn:E;
      [apply Qle_bool_iff in E
      | let N := fresh "N" in
        assert (N : ~ a <= b)
          by (let G := fresh in intro G; apply Qle_bool_iff in G; congruence);
        clear E]
  | |- context [is_zero ?a] =>
      let E := fresh "E" in
      destruct (is_zero a) eqn:E;
      [apply is_zero_true_iff in E | apply is_zero_false_iff in E]
  end.

(** A clipped value is NaN or lies in the unit interval. *)
Lemma clip1_unit (x : npfloat) : x <> NaN -> in_unit (clip1 0 1 x).
Proof.
  intro Hx. destruct x as [a| | |]; try congruence;
    unfold clip1, np_maximum, np_minimum; simpl.
  - destruct (Qlt_bool a 0) eqn:E1; simpl.
    + split; lra.
    + apply Qlt_bool_false_iff in E1.
      destruct (Qlt_bool 1 a) eqn:E2; simpl.
      * split; lra.
      * apply Qlt_bool_false_iff in E2. split; lra.
  - split; lra.
  - split; lra.
Qed.

Lemma clip1_nan : clip1 0 1 NaN = NaN.
Proof. reflexivity. Qed.

Lemma clip1_fin (a : Q) :
  exists c, clip1 0 1 (Fin a) = Fin c /\ c == Qmin 1 (Qmax 0 a).
Proof.
  unfold clip1, np_maximum, np_minimum; simpl.
  destruct (Qlt_bool a 0) eqn:E1; simpl.
  - apply Qlt_bool_iff in E1. exists 0. split; [reflexivity|].
    rewrite (Q.max_l 0 a) by lra. rewrite Q.min_r by lra. reflexivity.
  - apply Qlt_bool_false_iff in E1.
    destruct (Qlt_bool 1 a) eqn:E2; simpl.
    + apply Qlt_bool_iff in E2. exists 1. split; [reflexivity|].
      rewrite (Q.max_r 0 a) by lra. rewrite Q.min_l by lra. reflexivity.
    + apply Qlt_bool_false_iff in E2. exists a. split; [reflexivity|].
      rewrite (Q.max_r 0 a) by lra. rewrite Q.min_r by lra. reflexivity.
Qed.

(** Clipping is monotone for the order of non-NaN values. *)
Lemma clip1_mono (x y : npfloat) :
  fle x y = true -> fle (clip1 0 1 x) (clip1 0 1 y) = true.
Proof.
  destruct x as [a| | |], y as [b| | |]; simpl; try discriminate;
    intro H; unfold clip1, np_maximum, np_minimum; simpl;
    try (apply Qle_bool_iff in H);
    qcases; simpl; try reflexivity; try (apply Qle_bool_iff; lra);
    try lra.
Qed.

(** ** Index normalizer *)

Lemma calculate_fvc_set (s : analyzer) (soil vegetation : npfloat)
    (vs : list npfloat) :
  ndvi_soil (fvc_params s) = Some soil ->
  ndvi_vegetation (fvc_params s) = Some vegetation ->
  calculate_fvc s vs = Ok (map (fvc_cell soil vegetation) vs).
Proof.
  intros Hs Hv. unfold calculate_fvc, np_clip. rewrite Hs, Hv.
  now rewrite map_map.
Qed.

Lemma calculate_fvc_raises_iff (s : analyzer) (vs : list npfloat) :
  is_ok (calculate_fvc s vs) = false <->
  ndvi_soil (fvc_params s) = None \/ ndvi_vegetation (fvc_params s) = None.
Proof.
  unfold calculate_fvc.
  destruct (ndvi_soil (fvc_params s)), (ndvi_vegetation (fvc_params s));
    simpl; split; intro H; try discriminate; auto;
    destruct H; discriminate.
Qed.

Lemma fsub_fin (a b : Q) : (Fin a - Fin b)%np = Fin (a + - b).
Proof. reflexivity. Qed.

Lemma Qdiv_le_pos (a b d : Q) : 0 < d -> a <= b -> a / d <= b / d.
Proof.
  intros Hd Hab. unfold Qdiv.
  apply Qmult_le_compat_r; [exact Hab|].
  apply Qlt_le_weak, Qinv_lt_0_compat, Hd.
Qed.

(** The raw quotient is monotone when the denominator is positive. *)
Lemma fvc_raw_mono (soil d : Q) (v1 v2 : npfloat) :
  0 < d -> fle v1 v2 = true ->
  fle ((v1 - Fin soil) / Fin d)%np ((v2 - Fin soil) / Fin d)%np = true.
Proof.
  intros Hd H.
  assert (Z0 : is_zero d = false) by (apply is_zero_false_iff; lra).
  assert (N0 : neg_sign d = false)
    by (unfold neg_sign; apply Qlt_bool_false_iff; lra).
  destruct v1 as [a| | |], v2 as [b| | |]; simpl in *; try discriminate;
    rewrite ?Z0, ?N0; simpl; try reflexivity.
  apply Qle_bool_iff in H. apply Qle_bool_iff.
  apply Qdiv_le_pos; [exact Hd | lra].
Qed.

(** The literature parameters map the index 0.85 to full cover and the
    index 0.15 to none. *)
Example calculate_fvc_literature :
  match calculate_fvc (set_fvc_params (init 0 300 [mkObs 121 0.85])
                                      (params_of 0.15 0.85))
                      [Fin 0.85; Fin 0.15; Fin 0.5] with
  | Ok [a; b; c] => feq a (Fin 1) /\ feq b (Fin 0) /\ feq c (Fin 0.5)
  | _ => False
  end.
Proof. vm_compute. repeat split; reflexivity. Qed.

(** C10.  Invoked while both reference parameters are still unset (no
    estimation policy has run), [calculate_fvc] raises an error for every
    input array instead of computing a cover fraction. *)
Theorem calculate_fvc_before_estimation (s : analyzer) (vs : list npfloat) :
  ndvi_soil (fvc_params s) = None ->
  ndvi_vegetation (fvc_params s) = None ->
  calculate_fvc s vs = Raise ValueError.
Proof.
  intros Hs Hv. unfold calculate_fvc. now rewrite Hs.
Qed.

Lemma calculate_fvc_before_estimation_witness :
  let s := init 0 300 [mkObs 121 0.85] in
  ndvi_soil (fvc_params s) = None /\
  ndvi_vegetation (fvc_params s) = None /\
  calculate_fvc s [Fin 0.85] = Raise ValueError.
Proof.
  intro s. split; [reflexivity|]. split; [reflexivity|].
  apply (calculate_fvc_before_estimation s [Fin 0.85]); reflexivity.
Defined.

(** C8.  For fixed parameters with vegetation above soil, the cover
    fraction is monotone non-decreasing in the index value: [v1 <= v2]
    gives [calculate_fvc v1 <= calculate_fvc v2]. *)
Theorem calculate_fvc_monotone (s : analyzer) (soil vegetation : Q)
    (v1 v2 : npfloat) :
  fvc_params s = params_of soil vegetation ->
  soil < vegetation ->
  fle v1 v2 = true ->
  exists c1 c2,
    calculate_fvc s [v1] = Ok [c1] /\
    calculate_fvc s [v2] = Ok [c2] /\
    fle c1 c2 = true.
Proof.
  intros Hp Hlt Hle.
  exists (fvc_cell (Fin soil) (Fin vegetation) v1),
         (fvc_cell (Fin soil) (Fin vegetation) v2).
  split; [|split].
  - rewrite (calculate_fvc_set s (Fin soil) (Fin vegetation));
      [reflexivity | rewrite Hp; reflexivity ..].
  - rewrite (calculate_fvc_set s (Fin soil) (Fin vegetation));
      [reflexivity | rewrite Hp; reflexivity ..].
  - unfold fvc_cell. apply clip1_mono. rewrite fsub_fin.
    apply fvc_raw_mono; [lra | exact Hle].
Qed.

Lemma calculate_fvc_monotone_witness :
  let s := set_fvc_params (init 0 300 []) (params_of 0.15 0.85) in
  exists c1 c2,
    calculate_fvc s [Fin 0.3] = Ok [c1] /\
    calculate_fvc s [Fin 0.6] = Ok [c2] /\
    fle c1 c2 = true.
Proof.
  intro s.
  apply (calculate_fvc_monotone s 0.15 0.85 (Fin 0.3) (Fin 0.6));
    reflexivity.
Defined.




(** ** Parameter estimator *)

Lemma series_min_spec (l : list Q) :
  l <> [] ->
  exists m, series_min l = Fin m /\ In m l /\ forall x, In x l -> m <= x.
Proof.
  induction l as [|a r IH]; [congruence|]. intros _.
  destruct r as [|b r'].
  - exists a. simpl. split; [reflexivity|]. split; [now left|].
    intros x [->|[]]. lra.
  - destruct IH as (m & Hm & Hin & Hle); [discriminate|].
    cbn [series_min] in *. rewrite Hm.
    destruct (Qlt_bool m a) eqn:E.
    + apply Qlt_bool_iff in E. exists m. split; [reflexivity|].
      split; [now right|].
      intros x [->|Hx]; [lra | now apply Hle].
    + apply Qlt_bool_false_iff in E. exists a. split; [reflexivity|].
      split; [now left|].
      intros x [->|Hx]; [lra|]. specialize (Hle x Hx). lra.
Qed.

Lemma series_max_spec (l : list Q) :
  l <> [] ->
  exists m, series_max l = Fin m /\ In m l /\ forall x, In x l -> x <= m.
Proof.
  induction l as [|a r IH]; [congruence|]. intros _.
  destruct r as [|b r'].
  - exists a. simpl. split; [reflexivity|]. split; [now left|].
    intros x [->|[]]. lra.
  - destruct IH as (m & Hm & Hin & Hle); [discriminate|].
    cbn [series_max] in *. rewrite Hm.
    destruct (Qlt_bool a m) eqn:E.
    + apply Qlt_bool_iff in E. exists m. split; [reflexivity|].
      split; [now right|].
      intros x [->|Hx]; [lra | now apply Hle].
    + apply Qlt_bool_false_iff in E. exists a. split; [reflexivity|].
      split; [now left|].
      intros x [->|Hx]; [lra|]. specialize (Hle x Hx). lra.
Qed.

Lemma series_min_is_minimum (l : list Q) (lo : Q) :
  is_minimum lo l -> exists m, series_min l = Fin m /\ m == lo.
Proof.
  intros [(x & Hx & Hxlo) Hall].
  destruct (series_min_spec l) as (m & Hm & Hin & Hle).
  - intro E. rewrite E in Hx. contradiction.
  - exists m. split; [exact Hm|].
    specialize (Hle x Hx). specialize (Hall m Hin). lra.
Qed.

Lemma series_max_is_maximum (l : list Q) (hi : Q) :
  is_maximum hi l -> exists m, series_max l = Fin m /\ m == hi.
Proof.
  intros [(x & Hx & Hxhi) Hall].
  destruct (series_max_spec l) as (m & Hm & Hin & Hle).
  - intro E. rewrite E in Hx. contradiction.
  - exists m. split; [exact Hm|].
    specialize (Hle x Hx). specialize (Hall m Hin). lra.
Qed.

Lemma py_max_fin (a b : Q) :
  exists c, py_max (Fin a) (Fin b) = Fin c /\ c == Qmax a b.
Proof.
  unfold py_max. simpl. destruct (Qlt_bool a b) eqn:E.
  - apply Qlt_bool_iff in E. exists b. split; [reflexivity|].
    rewrite Q.max_r by lra. reflexivity.
  - apply Qlt_bool_false_iff in E. exists a. split; [reflexivity|].
    rewrite Q.max_l by lra. reflexivity.
Qed.

Lemma py_min_fin (a b : Q) :
  exists c, py_min (Fin a) (Fin b) = Fin c /\ c == Qmin a b.
Proof.
  unfold py_min. simpl. destruct (Qlt_bool b a) eqn:E.
  - apply Qlt_bool_iff in E. exists b. split; [reflexivity|].
    rewrite Q.min_r by lra. reflexivity.
  - apply Qlt_bool_false_iff in E. exists a. split; [reflexivity|].
    rewrite Q.min_l by lra. reflexivity.
Qed.

(** C7.  On a non-empty observation column with least value [lo] and
    greatest value [hi], the extremal policy (['data_driven']) returns
    soil [max(0.05, lo - 0.02)] and vegetation [min(0.95, hi + 0.02)]; with
    [lo = 0.10] and [hi = 0.90] these are 0.08 and 0.92. *)
Theorem estimate_data_driven (L : library) (s : analyzer) (lo hi : Q) :
  is_minimum lo (ndvi_values s) ->
  is_maximum hi (ndvi_values s) ->
  exists soil vegetation,
    estimate_fvc_parameters L "data_driven" s
      = Ok (set_fvc_params s (params_of soil vegetation),
            params_of soil vegetation) /\
    soil == Qmax 0.05 (lo - 0.02) /\
    vegetation == Qmin 0.95 (hi + 0.02) /\
    (lo == 0.10 -> hi == 0.90 -> soil == 0.08 /\ vegetation == 0.92).
Proof.
  intros Hlo Hhi.
  destruct (series_min_is_minimum _ _ Hlo) as (m & Hm & Hmlo).
  destruct (series_max_is_maximum _ _ Hhi) as (M & HM & HMhi).
  destruct (py_max_fin 0.05 (m + Qopp 0.02)) as (soil & Hsoil & Esoil).
  destruct (py_min_fin 0.95 (M + 0.02)) as (veg & Hveg & Eveg).
  exists soil, veg.
  assert (E1 : soil == Qmax 0.05 (lo - 0.02)).
  { rewrite Esoil. apply Q.max_compat; [reflexivity | lra]. }
  assert (E2 : veg == Qmin 0.95 (hi + 0.02)).
  { rewrite Eveg. apply Q.min_compat; [reflexivity | lra]. }
  split; [|split; [exact E1 | split; [exact E2|]]].
  - unfold estimate_fvc_parameters. simpl String.eqb. cbv iota.
    rewrite Hm, HM. rewrite fsub_fin. cbn [fadd].
    rewrite Hsoil, Hveg. reflexivity.
  - intros Hl Hh. split.
    + rewrite E1. rewrite Q.max_r by lra. lra.
    + rewrite E2. rewrite Q.min_r by lra. lra.
Qed.

Lemma estimate_data_driven_witness :
  let s := init 0 300 [mkObs 20 0.10; mkObs 90 0.5; mkObs 200 0.90] in
  exists soil vegetation,
    estimate_fvc_parameters trivial_library "data_driven" s
      = Ok (set_fvc_params s (params_of soil vegetation),
            params_of soil vegetation) /\
    soil == Qmax 0.05 (0.10 - 0.02) /\
    vegetation == Qmin 0.95 (0.90 + 0.02) /\
    (0.10 == 0.10 -> 0.90 == 0.90 -> soil == 0.08 /\ vegetation == 0.92).
Proof.
  intro s.
  apply (estimate_data_driven trivial_library s 0.10 0.90).
  - split.
    + exists 0.10. split; [simpl; auto | reflexivity].
    + intros x [<-|[<-|[<-|[]]]]; vm_compute; discriminate.
  - split.
    + exists 0.90. split; [simpl; auto | reflexivity].
    + intros x [<-|[<-|[<-|[]]]]; vm_compute; discriminate.
Defined.

Lemma estimate_updates_only_params (L : library) (method : string)
    (s s1 : analyzer) (p1 : fvc_params_t) :
  estimate_fvc_parameters L method s = Ok (s1, p1) ->
  s1 = set_fvc_params s p1.
Proof.
  unfold estimate_fvc_parameters.
  destruct (String.eqb method "literature");
    [|destruct (String.eqb method "data_driven");
      [|destruct (String.eqb method "seasonal")]];
    intro H; inversion H; reflexivity.
Qed.

(** The estimate does not read the parameters stored before the call. *)
Lemma estimate_ignores_stored_params (L : library) (method : string)
    (s : analyzer) (p0 : fvc_params_t) :
  estimate_fvc_parameters L method (set_fvc_params s p0)
  = match estimate_fvc_parameters L method s with
    | Ok (_, p) => Ok (set_fvc_params s p, p)
    | Raise e => Raise e
    end.
Proof.
  unfold estimate_fvc_parameters.
  destruct (String.eqb method "literature");
    [|destruct (String.eqb method "data_driven");
      [|destruct (String.eqb method "seasonal")]];
    reflexivity.
Qed.

(** C9.  Calling the parameter estimator a second time with the same
    policy, on the session left by the first call (observations
    unchanged), returns the same parameters and leaves the same session:
    the estimation is deterministic and idempotent. *)
Theorem estimate_fvc_parameters_idempotent (L : library) (method : string)
    (s s1 : analyzer) (p1 : fvc_params_t) :
  estimate_fvc_parameters L method s = Ok (s1, p1) ->
  ndvi_data s1 = ndvi_data s /\
  fvc_params s1 = p1 /\
  estimate_fvc_parameters L method s1 = Ok (s1, p1).
Proof.
  intro H.
  rewrite (estimate_updates_only_params _ _ _ _ _ H).
  split; [reflexivity|]. split; [reflexivity|].
  rewrite estimate_ignores_stored_params, H. reflexivity.
Qed.

Lemma estimate_fvc_parameters_idempotent_witness :
  let s := init 0 300 [mkObs 20 0.10; mkObs 90 0.5; mkObs 200 0.90] in
  let p := params_of 0.15 0.85 in
  ndvi_data (set_fvc_params s p) = ndvi_data s /\
  fvc_params (set_fvc_params s p) = p /\
  estimate_fvc_parameters trivial_library "literature" (set_fvc_params s p)
  = Ok (set_fvc_params s p, p).
Proof.
  intros s p.
  apply (estimate_fvc_parameters_idempotent trivial_library "literature" s).
  reflexivity.
Defined.

(** Two calls in a row come to what one call does, error included. *)
Lemma estimate_fvc_parameters_twice (L : library) (method : string)
    (s : analyzer) :
  (r <- estimate_fvc_parameters L method s ;;
   estimate_fvc_parameters L method (fst r))
  = estimate_fvc_parameters L method s.
Proof.
  destruct (estimate_fvc_parameters L method s) as [[s1 p1]|e] eqn:E;
    [|reflexivity].
  simpl. rewrite (estimate_updates_only_params _ _ _ _ _ E).
  rewrite estimate_ignores_stored_params, E. reflexivity.
Qed.

(** ** Array lemmas *)

Lemma upd_length {A : Type} (i : nat) (v : A) (l : list A) :
  List.length (upd i v l) = List.length l.
Proof.
  revert i. induction l as [|a r IH]; intros [|i]; simpl; auto.
Qed.

Lemma nth_upd_same {A : Type} (i : nat) (v d : A) (l : list A) :
  (i < List.length l)%nat -> nth i (upd i v l) d = v.
Proof.
  revert i. induction l as [|a r IH]; intros [|i] H; simpl in *;
    try lia; auto. apply IH. lia.
Qed.

Lemma nth_upd_other {A : Type} (i j : nat) (v d : A) (l : list A) :
  i <> j -> nth j (upd i v l) d = nth j l d.
Proof.
  revert i j. induction l as [|a r IH]; intros [|i] [|j] H; simpl;
    try reflexivity; try congruence.
  apply IH. congruence.
Qed.

Lemma find_index_bound (z : Z) (l : list Z) (i : nat) :
  find_index z l = Some i -> (i < List.length l)%nat /\ nth i l 0%Z = z.
Proof.
  revert i. induction l as [|a r IH]; intros i H; simpl in *;
    [discriminate|].
  destruct (a =? z)%Z eqn:E.
  - inversion H; subst. split; [lia|]. apply Z.eqb_eq in E. exact E.
  - destruct (find_index z r) as [j|]; [|discriminate].
    inversion H; subst. destruct (IH j eq_refl) as [Hl Hn].
    split; [lia | exact Hn].
Qed.

Lemma zip_with_length {A B C : Type} (f : A -> B -> C) (xs : list A)
    (ys : list B) :
  List.length (zip_with f xs ys) = Nat.min (List.length xs) (List.length ys).
Proof.
  revert ys. induction xs as [|x xr IH]; intros [|y yr]; simpl; auto.
Qed.

(** ** Guided reconstruction: the observation pull *)

Section Pull.

Variable L : library.
Variable x_interp : list Z.

Lemma pull_near_length idx obs_day obs_ndvi (y : list npfloat) (i : nat) :
  List.length (pull_near L x_interp idx obs_day obs_ndvi y i) = List.length y.
Proof.
  unfold pull_near.
  destruct (i =? idx)%nat; [reflexivity|].
  destruct (Z.abs (nth i x_interp 0%Z - obs_day) <? 50)%Z;
    [apply upd_length | reflexivity].
Qed.

(** The inner loop never writes the cell of the observation itself. *)
Lemma pull_near_keeps idx obs_day obs_ndvi (y : list npfloat) (i : nat) :
  nth idx (pull_near L x_interp idx obs_day obs_ndvi y i) NaN = nth idx y NaN.
Proof.
  unfold pull_near.
  destruct (i =? idx)%nat eqn:E; [reflexivity|].
  apply Nat.eqb_neq in E.
  destruct (Z.abs (nth i x_interp 0%Z - obs_day) <? 50)%Z; [|reflexivity].
  now apply nth_upd_other.
Qed.

Lemma pull_loop_keeps idx obs_day obs_ndvi (positions : list nat)
    (y : list npfloat) :
  nth idx (fold_left (pull_near L x_interp idx obs_day obs_ndvi) positions y)
      NaN
  = nth idx y NaN.
Proof.
  revert y. induction positions as [|i r IH]; intro y; simpl;
    [reflexivity|].
  rewrite IH. apply pull_near_keeps.
Qed.

Lemma pull_loop_length idx obs_day obs_ndvi (positions : list nat)
    (y : list npfloat) :
  List.length
    (fold_left (pull_near L x_interp idx obs_day obs_ndvi) positions y)
  = List.length y.
Proof.
  revert y. induction positions as [|i r IH]; intro y; simpl;
    [reflexivity|].
  rewrite IH. apply pull_near_length.
Qed.

Lemma pull_observation_length (y : list npfloat) (ob : Z * Q) :
  List.length (pull_observation L x_interp y ob) = List.length y.
Proof.
  destruct ob as [obs_day obs_ndvi]. unfold pull_observation.
  destruct (find_index obs_day x_interp) as [idx|]; [|reflexivity].
  rewrite pull_loop_length. apply upd_length.
Qed.

Lemma pull_fold_length (obs : list (Z * Q)) (y : list npfloat) :
  List.length (fold_left (pull_observation L x_interp) obs y) = List.length y.
Proof.
  revert y. induction obs as [|ob r IH]; intro y; simpl; [reflexivity|].
  rewrite IH. apply pull_observation_length.
Qed.

(** One observation on a reconstructed day: its own cell after the pull. *)
Lemma pull_observation_at (y : list npfloat) (obs_day : Z) (obs_ndvi : Q)
    (idx : nat) :
  List.length y = List.length x_interp ->
  find_index obs_day x_interp = Some idx ->
  nth idx (pull_observation L x_interp y (obs_day, obs_ndvi)) NaN
  = (Fin 0.9 * Fin obs_ndvi + Fin 0.1 * nth idx y NaN)%np.
Proof.
  intros Hlen Hfind. unfold pull_observation. rewrite Hfind.
  rewrite pull_loop_keeps. apply nth_upd_same.
  rewrite Hlen. apply (find_index_bound _ _ _ Hfind).
Qed.

Lemma balanced_constrained_length (peak_ndvi : Q) (peak_day : npfloat) :
  List.length (balanced_constrained L peak_ndvi peak_day x_interp)
  = List.length x_interp.
Proof.
  unfold balanced_constrained. rewrite zip_with_length, length_map.
  apply Nat.min_id.
Qed.

Lemma firstn_snoc {A : Type} (l : list A) (k : nat) (a : A) :
  nth_error l k = Some a -> firstn (S k) l = firstn k l ++ [a].
Proof.
  revert k. induction l as [|x r IH]; intros [|k] H; simpl in *;
    try discriminate.
  - now inversion H.
  - f_equal. now apply IH.
Qed.

End Pull.

(** The pull at the cells other than the observation's own. *)

Section PullCells.

Variable L : library.
Variable x_interp : list Z.

Lemma pull_near_cell idx obs_day obs_ndvi (y : list npfloat) (i j : nat) :
  (j < List.length y)%nat ->
  nth j (pull_near L x_interp idx obs_day obs_ndvi y i) NaN
  = if (i =? j)%nat && negb (j =? idx)%nat
    then near_value L obs_day obs_ndvi (nth j x_interp 0%Z) (nth j y NaN)
    else nth j y NaN.
Proof.
  intro Hj. unfold pull_near, near_value.
  destruct (Nat.eqb_spec i j) as [->|Hij]; simpl.
  - destruct (j =? idx)%nat; simpl; [reflexivity|].
    destruct (Z.abs (nth j x_interp 0%Z - obs_day) <? 50)%Z;
      [now apply nth_upd_same | reflexivity].
  - destruct (i =? idx)%nat; [reflexivity|].
    destruct (Z.abs (nth i x_interp 0%Z - obs_day) <? 50)%Z;
      [now apply nth_upd_other | reflexivity].
Qed.

Lemma pull_loop_cell idx obs_day obs_ndvi (positions : list nat) :
  NoDup positions ->
  forall (y : list npfloat) (j : nat),
    (j < List.length y)%nat ->
    nth j (fold_left (pull_near L x_interp idx obs_day obs_ndvi) positions y)
        NaN
    = if existsb (Nat.eqb j) positions && negb (j =? idx)%nat
      then near_value L obs_day obs_ndvi (nth j x_interp 0%Z) (nth j y NaN)
      else nth j y NaN.
Proof.
  induction 1 as [|i r Hi Hr IH]; intros y j Hj; [reflexivity|].
  cbn [fold_left existsb].
  rewrite IH by (now rewrite pull_near_length).
  rewrite pull_near_cell by exact Hj.
  rewrite (Nat.eqb_sym j i).
  destruct (Nat.eqb_spec i j) as [->|Hij]; simpl; [|reflexivity].
  assert (E : existsb (Nat.eqb j) r = false).
  { destruct (existsb (Nat.eqb j) r) eqn:E; [|reflexivity].
    apply existsb_exists in E. destruct E as (k & Hk & Ek).
    apply Nat.eqb_eq in Ek. subst k. contradiction. }
  rewrite E. simpl. now destruct (j =? idx)%nat.
Qed.

(** The pull of one observation on a reconstructed day, at a cell other
    than its own. *)
Lemma pull_observation_other (y : list npfloat) (obs_day : Z) (obs_ndvi : Q)
    (idx j : nat) :
  List.length y = List.length x_interp ->
  find_index obs_day x_interp = Some idx ->
  (j < List.length x_interp)%nat -> j <> idx ->
  nth j (pull_observation L x_interp y (obs_day, obs_ndvi)) NaN
  = near_value L obs_day obs_ndvi (nth j x_interp 0%Z) (nth j y NaN).
Proof.
  intros Hlen Hf Hj Hne. unfold pull_observation. rewrite Hf.
  rewrite pull_loop_cell by (try apply seq_NoDup; rewrite upd_length; lia).
  assert (E : existsb (Nat.eqb j) (seq 0 (List.length x_interp)) = true).
  { apply existsb_exists. exists j. split; [apply in_seq; lia|].
    apply Nat.eqb_refl. }
  rewrite E. apply Nat.eqb_neq in Hne. rewrite Hne. simpl.
  apply Nat.eqb_neq in Hne. rewrite nth_upd_other by congruence. reflexivity.
Qed.

(** An observation that is off the reconstructed days, or 50 days or more
    from the day of a cell, leaves that cell as it is. *)
Lemma pull_observation_far (y : list npfloat) (d' : Z) (v' : Q) (d : Z)
    (idx : nat) :
  List.length y = List.length x_interp ->
  (idx < List.length x_interp)%nat -> nth idx x_interp 0%Z = d ->
  (50 <= Z.abs (d' - d))%Z \/ find_index d' x_interp = None ->
  nth idx (pull_observation L x_interp y (d', v')) NaN = nth idx y NaN.
Proof.
  intros Hlen Hidx Hd Hfar.
  destruct (find_index d' x_interp) as [idx'|] eqn:Hf.
  - destruct Hfar as [Hfar|Hfar]; [|discriminate].
    pose proof (find_index_bound _ _ _ Hf) as [_ Hd'].
    destruct (Nat.eq_dec idx idx') as [->|Hne]; [lia|].
    rewrite (pull_observation_other y d' v' idx' idx Hlen Hf Hidx Hne).
    unfold near_value. rewrite Hd.
    destruct (Z.ltb_spec (Z.abs (d - d')) 50); [lia | reflexivity].
  - unfold pull_observation. now rewrite Hf.
Qed.

Lemma pull_fold_far (obs : list (Z * Q)) (d : Z) (idx : nat) :
  (idx < List.length x_interp)%nat -> nth idx x_interp 0%Z = d ->
  (forall d' v', In (d', v') obs ->
     (50 <= Z.abs (d' - d))%Z \/ find_index d' x_interp = None) ->
  forall y, List.length y = List.length x_interp ->
    nth idx (fold_left (pull_observation L x_interp) obs y) NaN
    = nth idx y NaN.
Proof.
  intros Hidx Hd. induction obs as [|[d' v'] r IH]; intros Hfar y Hlen;
    [reflexivity|].
  cbn [fold_left]. rewrite IH.
  - apply (pull_observation_far _ d' v' d); try assumption.
    apply (Hfar d' v'). now left.
  - intros d2 v2 H2. apply (Hfar d2 v2). now right.
  - now rewrite pull_observation_length.
Qed.

End PullCells.

(** A list around its [k]-th element: every other element has another
    position. *)
Lemma nth_error_around {A : Type} (l : list A) (k : nat) (a : A) :
  nth_error l k = Some a ->
  exists l1 l2,
    l = l1 ++ a :: l2 /\
    forall x, In x l1 \/ In x l2 ->
      exists k', k' <> k /\ nth_error l k' = Some x.
Proof.
  intro Hk. destruct (nth_error_split l k Hk) as (l1 & l2 & -> & Hlen).
  exists l1, l2. split; [reflexivity|]. intros x [Hx|Hx].
  - destruct (In_nth_error _ _ Hx) as (i & Hi).
    assert (i < List.length l1)%nat
      by (apply nth_error_Some; rewrite Hi; discriminate).
    exists i. split; [lia|]. now rewrite nth_error_app1.
  - destruct (In_nth_error _ _ Hx) as (i & Hi).
    exists (List.length l1 + S i)%nat. split; [lia|].
    rewrite nth_error_app2 by lia.
    replace (List.length l1 + S i - List.length l1)%nat with (S i) by lia.
    exact Hi.
Qed.

Lemma _balanced_interpolation_steps (L : library) (s : analyzer)
    (x_interp : list Z) (peak_ndvi : Q) :
  np_max (y_obs_of s) = Ok peak_ndvi ->
  let obs := combine (x_obs_of s) (y_obs_of s) in
  _balanced_interpolation L s x_interp
  = Ok (gaussian_filter1d L
          (balanced_after L peak_ndvi (np_mean (x_obs_of s)) x_interp obs
                          (List.length obs))).
Proof.
  intros Hp obs. unfold _balanced_interpolation, balanced_after.
  rewrite Hp. simpl. now rewrite firstn_all.
Qed.

(** One turn of the pull loop: when the [k]-th observation falls on a
    reconstructed day, the value of that day right after the pull of this
    observation is [0.9 * observed + 0.1 * (value of that day just before
    this pull)]. *)
Lemma balanced_after_step (L : library) (s : analyzer)
    (x_interp : list Z) (peak_ndvi : Q) (peak_day : npfloat)
    (k : nat) (obs_day : Z) (obs_ndvi : Q) (idx : nat) :
  let obs := combine (x_obs_of s) (y_obs_of s) in
  nth_error obs k = Some (obs_day, obs_ndvi) ->
  find_index obs_day x_interp = Some idx ->
  nth idx (balanced_after L peak_ndvi peak_day x_interp obs (S k)) NaN
  = (Fin 0.9 * Fin obs_ndvi
     + Fin 0.1
       * nth idx (balanced_after L peak_ndvi peak_day x_interp obs k) NaN)%np.
Proof.
  intros obs Hk Hfind. unfold balanced_after.
  rewrite (firstn_snoc _ _ _ Hk), fold_left_app. simpl.
  apply pull_observation_at; [|exact Hfind].
  rewrite pull_fold_length. apply balanced_constrained_length.
Qed.

(** C4, the claim as stated fails.  Two observations ten days apart, on
    days 100 and 110 of a season of 300 days: the pull of the second moves
    the cell of the first again.  In the series that
    [_balanced_interpolation] hands to the smoothing filter, the cell of
    day 100 is not [0.9 * 0.5 + 0.1 * (its value before the observation
    pull)]. *)
Lemma balanced_pull_overlap_counterexample :
  let s := init 0 300 [mkObs 100 0.5; mkObs 110 0.9] in
  let x_interp := map (fun d => (d - 0)%Z) (date_range 0 300) in
  find_index 100 x_interp = Some 100%nat /\
  match _balanced_interpolation trivial_library s x_interp,
        nth_error (balanced_constrained trivial_library 0.9
                     (np_mean (x_obs_of s)) x_interp) 100
  with
  | Ok ys, Some pre =>
      exists after,
        nth_error ys 100 = Some after /\
        ~ feq after (Fin 0.9 * Fin 0.5 + Fin 0.1 * pre)%np
  | _, _ => False
  end.
Proof.
  split; [vm_compute; reflexivity|].
  vm_compute. eexists. split; [reflexivity|].
  intro H. vm_compute in H. discriminate.
Qed.

(** C4, amended.  Guided reconstruction, for an observation on a
    reconstructed day from which every other observation is 50 days away or
    more, or off the reconstructed days: in the series that
    [_balanced_interpolation] hands to the smoothing filter, that is right
    after the observation pull, the cell of that day exists and is
    [0.9 * observed + 0.1 * (value of that cell before the pull)], where
    the value before the pull is the one the phase loop left. *)
Theorem balanced_pull_isolated (L : library) (s : analyzer)
    (x_interp : list Z) (k : nat) (obs_day : Z) (obs_ndvi : Q) (idx : nat) :
  let obs := combine (x_obs_of s) (y_obs_of s) in
  nth_error obs k = Some (obs_day, obs_ndvi) ->
  find_index obs_day x_interp = Some idx ->
  (forall k' d' v', k' <> k -> nth_error obs k' = Some (d', v') ->
     (50 <= Z.abs (d' - obs_day))%Z \/ find_index d' x_interp = None) ->
  exists peak_ndvi pre ys,
    np_max (y_obs_of s) = Ok peak_ndvi /\
    nth_error (balanced_constrained L peak_ndvi (np_mean (x_obs_of s))
                 x_interp) idx = Some pre /\
    _balanced_interpolation L s x_interp = Ok (gaussian_filter1d L ys) /\
    List.length ys = List.length x_interp /\
    nth_error ys idx = Some (Fin 0.9 * Fin obs_ndvi + Fin 0.1 * pre)%np.
Proof.
  intros obs Hk Hfind Hfar.
  destruct (series_max_spec (y_obs_of s)) as (m & Hm & _).
  { intro E. unfold obs in Hk. rewrite E in Hk.
    rewrite combine_nil in Hk. destruct k; discriminate. }
  pose proof (find_index_bound _ _ _ Hfind) as [Hidx Hday].
  set (y0 := balanced_constrained L m (np_mean (x_obs_of s)) x_interp).
  assert (Hlen0 : List.length y0 = List.length x_interp)
    by apply balanced_constrained_length.
  exists m, (nth idx y0 NaN), (fold_left (pull_observation L x_interp) obs y0).
  split; [unfold np_max; now rewrite Hm|].
  split; [apply nth_error_nth'; lia|].
  split; [unfold _balanced_interpolation, np_max; now rewrite Hm|].
  split; [now rewrite pull_fold_length|].
  rewrite (nth_error_nth' _ NaN) by (rewrite pull_fold_length; lia).
  f_equal.
  destruct (nth_error_around obs k _ Hk) as (l1 & l2 & Hsplit & Hothers).
  assert (Hfar' : forall l, (forall x, In x l -> In x l1 \/ In x l2) ->
            forall d' v', In (d', v') l ->
              (50 <= Z.abs (d' - obs_day))%Z \/ find_index d' x_interp = None).
  { intros l Hl d' v' Hin.
    destruct (Hothers _ (Hl _ Hin)) as (k' & Hne & Hk').
    exact (Hfar k' d' v' Hne Hk'). }
  rewrite Hsplit, fold_left_app. cbn [fold_left].
  rewrite (pull_fold_far L x_interp l2 obs_day idx Hidx Hday).
  - rewrite pull_observation_at;
      [|rewrite pull_fold_length; exact Hlen0 | exact Hfind].
    rewrite (pull_fold_far L x_interp l1 obs_day idx Hidx Hday);
      [reflexivity | | exact Hlen0].
    apply Hfar'. intros x Hx. now left.
  - apply Hfar'. intros x Hx. now right.
  - rewrite pull_observation_length, pull_fold_length. exact Hlen0.
Qed.

Lemma balanced_pull_isolated_witness :
  let s := init 0 300 [mkObs 50 0.3; mkObs 121 0.85; mkObs 400 0.5] in
  let x_interp := map (fun d => (d - 0)%Z) (date_range 0 300) in
  exists peak_ndvi pre ys,
    np_max (y_obs_of s) = Ok peak_ndvi /\
    nth_error (balanced_constrained trivial_library peak_ndvi
                 (np_mean (x_obs_of s)) x_interp) 121 = Some pre /\
    _balanced_interpolation trivial_library s x_interp
    = Ok (gaussian_filter1d trivial_library ys) /\
    List.length ys = List.length x_interp /\
    nth_error ys 121 = Some (Fin 0.9 * Fin 0.85 + Fin 0.1 * pre)%np.
Proof.
  intros s x_interp.
  apply (balanced_pull_isolated trivial_library s x_interp 1%nat 121%Z 0.85
           121%nat).
  - reflexivity.
  - vm_compute. reflexivity.
  - intros k' d' v' Hne Hk'.
    destruct k' as [|[|[|k']]]; simpl in Hk'.
    + inversion Hk'. left. vm_compute. discriminate.
    + contradiction.
    + inversion Hk'. right. vm_compute. reflexivity.
    + destruct k'; discriminate.
Defined.

(** ** Uncertainty estimator *)

Lemma insert_unique_length (z : Z) (l : list Z) :
  (List.length (insert_unique z l) <= S (List.length l))%nat.
Proof.
  induction l as [|a r IH]; simpl; [lia|].
  destruct (z <? a)%Z; simpl; [lia|].
  destruct (z =? a)%Z; simpl; lia.
Qed.

Lemma sorted_unique_length (l : list Z) :
  (List.length (sorted_unique l) <= List.length l)%nat.
Proof.
  induction l as [|a r IH]; simpl; [lia|].
  pose proof (insert_unique_length a (sorted_unique r)). lia.
Qed.

Section Bootstrap.

Variable L : library.

Lemma np_random_choice_length (t n : nat) :
  List.length (np_random_choice L t n) = n.
Proof.
  unfold np_random_choice. now rewrite length_map, length_seq.
Qed.

(** The distinct days of a resample are no more than the observations. *)
Lemma x_boot_unique_length (x_obs : list Z) (t : nat) :
  let x_boot := take 0%Z x_obs (np_random_choice L t (List.length x_obs)) in
  (List.length (take 0%Z x_boot (np_unique_index x_boot))
   <= List.length x_obs)%nat.
Proof.
  intro x_boot.
  assert (Hb : List.length x_boot = List.length x_obs).
  { unfold x_boot, take. now rewrite length_map, np_random_choice_length. }
  unfold take, np_unique_index. rewrite !length_map.
  pose proof (sorted_unique_length x_boot) as H. lia.
Qed.

(** With fewer than two observations every trial is skipped. *)
Lemma bootstrap_trial_sparse (x_obs : list Z) (y_obs : list Q)
    (x_interp : list Z) (method : string) (t : nat) :
  (List.length x_obs <= 1)%nat ->
  bootstrap_trial L x_obs y_obs x_interp method t = None.
Proof.
  intro Hn. unfold bootstrap_trial.
  pose proof (x_boot_unique_length x_obs t) as H. cbv zeta in H.
  destruct (Nat.ltb_spec
              (List.length
                 (take 0%Z
                    (take 0%Z x_obs
                       (np_random_choice L t (List.length x_obs)))
                    (np_unique_index
                       (take 0%Z x_obs
                          (np_random_choice L t (List.length x_obs))))))
              2) as [_|Hge]; [reflexivity | lia].
Qed.

Lemma bootstrap_predictions_sparse (x_obs : list Z) (y_obs : list Q)
    (x_interp : list Z) (method : string) (n_bootstrap : nat) :
  (List.length x_obs <= 1)%nat ->
  bootstrap_predictions L x_obs y_obs x_interp method n_bootstrap = [].
Proof.
  intro Hn. unfold bootstrap_predictions.
  induction (seq 0 n_bootstrap) as [|t r IH]; simpl; [reflexivity|].
  rewrite bootstrap_trial_sparse by exact Hn. exact IH.
Qed.

Lemma confidence_intervals_fallback (x_obs : list Z) (y_obs : list Q)
    (x_interp : list Z) (method : string) (n_bootstrap : nat) :
  bootstrap_predictions L x_obs y_obs x_interp method n_bootstrap = [] ->
  _calculate_confidence_intervals L x_obs y_obs x_interp method n_bootstrap
  = Raise NameError.
Proof.
  intro H. unfold _calculate_confidence_intervals. now rewrite H.
Qed.

Lemma x_obs_of_length (s : analyzer) :
  List.length (x_obs_of s) = List.length (ndvi_data s).
Proof. unfold x_obs_of, days_after_sowing. apply length_map. Qed.

Lemma y_obs_of_length (s : analyzer) :
  List.length (y_obs_of s) = List.length (ndvi_data s).
Proof. unfold y_obs_of, ndvi_values. apply length_map. Qed.

(** The pipeline stops at the fallback whenever the reconstruction itself
    went through. *)
Lemma interpolate_ndvi_fallback (method : string) (s : analyzer) :
  let x_interp :=
    map (fun d => (d - sowing_date s)%Z)
        (date_range (sowing_date s) (harvest_date s)) in
  bootstrap_predictions L (x_obs_of s) (y_obs_of s) x_interp method
                        n_bootstrap_default = [] ->
  interpolate_ndvi L method s
  = match reconstruct L method s x_interp with
    | Ok _ => Raise NameError
    | Raise e => Raise e
    end.
Proof.
  intros x_interp H. unfold interpolate_ndvi. fold x_interp.
  destruct (reconstruct L method s x_interp); simpl; [|reflexivity].
  rewrite confidence_intervals_fallback by exact H. reflexivity.
Qed.

End Bootstrap.

(** C2, on the code.  When no bootstrap trial succeeds,
    [_calculate_confidence_intervals] does not return the primary series
    scaled by 0.95 and 1.05: its fallback reads a name that is not in
    scope and the call raises [NameError], and so does the pipeline. *)
Theorem confidence_intervals_no_trial (L : library) (method : string)
    (s : analyzer) :
  let x_interp :=
    map (fun d => (d - sowing_date s)%Z)
        (date_range (sowing_date s) (harvest_date s)) in
  bootstrap_predictions L (x_obs_of s) (y_obs_of s) x_interp method
                        n_bootstrap_default = [] ->
  _calculate_confidence_intervals L (x_obs_of s) (y_obs_of s) x_interp method
                                  n_bootstrap_default
  = Raise NameError /\
  is_ok (interpolate_ndvi L method s) = false.
Proof.
  intros x_interp H. split.
  - now apply confidence_intervals_fallback.
  - rewrite interpolate_ndvi_fallback by exact H. fold x_interp.
    now destruct (reconstruct L method s x_interp).
Qed.

Lemma confidence_intervals_no_trial_witness :
  let s := init 0 300 [mkObs 121 0.85] in
  let x_interp := map (fun d => (d - 0)%Z) (date_range 0 300) in
  _calculate_confidence_intervals trivial_library (x_obs_of s) (y_obs_of s)
                                  x_interp "balanced" n_bootstrap_default
  = Raise NameError /\
  is_ok (interpolate_ndvi trivial_library "balanced" s) = false.
Proof.
  intros s x_interp.
  apply (confidence_intervals_no_trial trivial_library "balanced" s).
  vm_compute. reflexivity.
Defined.

(** C6, on the code.  With a single observation the guided and the
    logistic reconstruction do not return a degraded series: the
    reconstruction goes through, every bootstrap trial is skipped, and
    [interpolate_ndvi] raises [NameError] from the fallback.  With at most
    one observation no algorithm at all returns a series, and without any
    observation the guided reconstruction itself raises ([np.max] of an
    empty array). *)
Theorem interpolate_ndvi_sparse (L : library) (method : string)
    (s : analyzer) :
  (List.length (ndvi_data s) <= 1)%nat ->
  is_ok (interpolate_ndvi L method s) = false /\
  (List.length (ndvi_data s) = 1%nat ->
   method = "balanced"%string \/ method = "sigmoid"%string ->
   interpolate_ndvi L method s = Raise NameError) /\
  (ndvi_data s = [] ->
   forall x_interp, reconstruct L "balanced" s x_interp = Raise ValueError).
Proof.
  intro Hn.
  assert (Hb : bootstrap_predictions L (x_obs_of s) (y_obs_of s)
                 (map (fun d => (d - sowing_date s)%Z)
                      (date_range (sowing_date s) (harvest_date s)))
                 method n_bootstrap_default = []).
  { apply bootstrap_predictions_sparse. now rewrite x_obs_of_length. }
  pose proof (interpolate_ndvi_fallback L method s Hb) as E.
  cbv zeta in E. split; [|split].
  - rewrite E. now destruct (reconstruct L method s _).
  - intros H1 [-> | ->]; rewrite E; unfold reconstruct; simpl String.eqb;
      cbv iota; [|reflexivity].
    unfold _balanced_interpolation.
    destruct (series_max_spec (y_obs_of s)) as (m & Hm & _).
    + intro E0. pose proof (y_obs_of_length s) as Hl.
      rewrite E0 in Hl. simpl in Hl. lia.
    + unfold np_max. rewrite Hm. reflexivity.
  - intros H0 x_interp. unfold reconstruct. simpl String.eqb. cbv iota.
    unfold _balanced_interpolation, y_obs_of, ndvi_values.
    rewrite H0. reflexivity.
Qed.

Lemma interpolate_ndvi_sparse_witness :
  let s := init 0 300 [mkObs 121 0.85] in
  is_ok (interpolate_ndvi trivial_library "balanced" s) = false /\
  (List.length (ndvi_data s) = 1%nat ->
   "balanced"%string = "balanced"%string \/
   "balanced"%string = "sigmoid"%string ->
   interpolate_ndvi trivial_library "balanced" s = Raise NameError) /\
  (ndvi_data s = [] ->
   forall x_interp,
     reconstruct trivial_library "balanced" s x_interp = Raise ValueError).
Proof.
  intro s.
  apply (interpolate_ndvi_sparse trivial_library "balanced" s).
  simpl. lia.
Defined.

(** ** Range of the pipeline's outputs *)

Lemma all_nan_repeat (l : list npfloat) :
  all_nan l <-> l = repeat NaN (List.length l).
Proof.
  unfold all_nan. split.
  - induction 1 as [|y r Hy _ IH]; simpl; [reflexivity|].
    now rewrite Hy, <- IH.
  - intros ->. apply Forall_forall. intros y Hy.
    now apply repeat_spec in Hy.
Qed.

Lemma all_nan_nth (l : list npfloat) (i : nat) :
  all_nan l -> nth i l NaN = NaN.
Proof.
  intro H. revert i. induction H as [|y r Hy _ IH]; intros [|i]; simpl; auto.
Qed.

Lemma all_nan_upd (l : list npfloat) (i : nat) :
  all_nan l -> all_nan (upd i NaN l).
Proof.
  unfold all_nan. intro H. revert i.
  induction H as [|y r Hy Hr IH]; intros [|i]; simpl; constructor; auto.
Qed.

Lemma all_nan_map (f : npfloat -> npfloat) (l : list npfloat) :
  f NaN = NaN -> all_nan l -> all_nan (map f l).
Proof.
  unfold all_nan. intros Hf H.
  induction H as [|y r Hy _ IH]; simpl; constructor; auto.
  now rewrite Hy.
Qed.

Lemma fmul_nan_r (x : npfloat) : (x * NaN)%np = NaN.
Proof. now destruct x. Qed.

Lemma fadd_nan_r (x : npfloat) : (x + NaN)%np = NaN.
Proof. now destruct x. Qed.

Lemma fvc_cell_nan (soil vegetation : npfloat) :
  fvc_cell soil vegetation NaN = NaN.
Proof. reflexivity. Qed.

Section ZeroPeak.

Variable L : library.

(** With a peak of exactly zero the rescaling step divides zero by zero. *)
Lemma sigmoid_curve_zero_peak (m : Q) (x_interp : list Z) :
  m == 0 -> all_nan (sigmoid_curve L (Fin m) x_interp).
Proof.
  intro Hm. unfold sigmoid_curve, all_nan.
  rewrite map_map. apply Forall_forall. intros y Hy.
  apply in_map_iff in Hy. destruct Hy as (x & <- & _).
  assert (Zm : is_zero m = true) by (now apply is_zero_true_iff).
  cbn [fopp fmul of_Z fexp fadd fsub].
  cbn [fdiv]. rewrite Zm.
  destruct (is_zero (1 + np_exp L (- (0.02) * inject_Z (x - 240)))) eqn:E.
  - reflexivity.
  - cbn [fmul fdiv fadd]. rewrite Zm.
    assert (Zn : is_zero
                   ((m + - (0.05))
                    * (m / (1 + np_exp L (- (0.02) * inject_Z (x - 240)))))
                 = true).
    { apply is_zero_true_iff. unfold Qdiv. rewrite Hm. ring. }
    now rewrite Zn.
Qed.

Lemma blend_observation_nan (w_obs w_curve : Q) (x_interp : list Z)
    (y : list npfloat) (ob : Z * Q) :
  all_nan y -> all_nan (blend_observation w_obs w_curve x_interp y ob).
Proof.
  intro H. destruct ob as [obs_day obs_ndvi]. unfold blend_observation.
  destruct (find_index obs_day x_interp) as [idx|]; [|exact H].
  rewrite (all_nan_nth _ idx H). rewrite fmul_nan_r, fadd_nan_r.
  now apply all_nan_upd.
Qed.

Lemma blend_fold_nan (w_obs w_curve : Q) (x_interp : list Z)
    (obs : list (Z * Q)) (y : list npfloat) :
  all_nan y ->
  all_nan (fold_left (blend_observation w_obs w_curve x_interp) obs y).
Proof.
  revert y. induction obs as [|ob r IH]; intros y H; simpl; [exact H|].
  apply IH. now apply blend_observation_nan.
Qed.

Lemma blend_fold_length (w_obs w_curve : Q) (x_interp : list Z)
    (obs : list (Z * Q)) (y : list npfloat) :
  List.length (fold_left (blend_observation w_obs w_curve x_interp) obs y)
  = List.length y.
Proof.
  revert y. induction obs as [|[d v] r IH]; intro y; simpl; [reflexivity|].
  rewrite IH. unfold blend_observation.
  destruct (find_index d x_interp); [apply upd_length | reflexivity].
Qed.

Lemma _sigmoid_interpolation_zero_peak (s : analyzer) (x_interp : list Z) :
  is_maximum 0 (ndvi_values s) ->
  all_nan (np_clip (_sigmoid_interpolation L s x_interp) 0 1).
Proof.
  intro Hmax.
  destruct (series_max_is_maximum _ _ Hmax) as (m & Hm & Hm0).
  unfold np_clip. apply all_nan_map; [reflexivity|].
  unfold _sigmoid_interpolation. rewrite Hm.
  apply blend_fold_nan. now apply sigmoid_curve_zero_peak.
Qed.

Lemma calculate_fvc_nan (s : analyzer) (vs out : list npfloat) :
  all_nan vs -> calculate_fvc s vs = Ok out -> all_nan out.
Proof.
  intros Hvs. unfold calculate_fvc.
  destruct (ndvi_soil (fvc_params s)) as [soil|]; [|discriminate].
  destruct (ndvi_vegetation (fvc_params s)) as [veg|]; [|discriminate].
  intro H. inversion H; subst. unfold np_clip.
  apply all_nan_map; [reflexivity|].
  apply all_nan_map; [reflexivity | exact Hvs].
Qed.

End ZeroPeak.

(** What a run of the pipeline that returns has stored in the frame. *)
Lemma interpolate_ndvi_inv (L : library) (method : string)
    (s s' : analyzer) (df : frame) :
  interpolate_ndvi L method s = Ok (s', df) ->
  let x_interp :=
    map (fun d => (d - sowing_date s)%Z)
        (date_range (sowing_date s) (harvest_date s)) in
  exists ys ci,
    reconstruct L method s x_interp = Ok ys /\
    _calculate_confidence_intervals L (x_obs_of s) (y_obs_of s) x_interp
      method n_bootstrap_default = Ok ci /\
    s' = set_daily_ndvi s df /\
    Days_After_Sowing df = x_interp /\
    NDVI_Interpolated df = np_clip ys 0 1 /\
    NDVI_Lower_CI df = np_clip (fst ci) 0 1 /\
    NDVI_Upper_CI df = np_clip (snd ci) 0 1 /\
    match ndvi_soil (fvc_params s) with
    | Some _ =>
        exists c,
          fvc_cols df = Some c /\
          calculate_fvc s (NDVI_Interpolated df) = Ok (FVC_Interpolated c) /\
          calculate_fvc s (NDVI_Lower_CI df) = Ok (FVC_Lower_CI c) /\
          calculate_fvc s (NDVI_Upper_CI df) = Ok (FVC_Upper_CI c)
    | None => fvc_cols df = None
    end.
Proof.
  unfold interpolate_ndvi.
  set (x_interp := map _ (date_range _ _)).
  destruct (reconstruct L method s x_interp) as [ys|e] eqn:Er;
    [|discriminate]. simpl.
  destruct (_calculate_confidence_intervals L _ _ _ _ _) as [ci|e];
    [|discriminate]. simpl.
  destruct (ndvi_soil (fvc_params s)) as [soil|].
  - destruct (calculate_fvc s (np_clip ys 0 1)) as [f1|e] eqn:E1;
      [|discriminate]. simpl.
    destruct (calculate_fvc s (np_clip (fst ci) 0 1)) as [f2|e] eqn:E2;
      [|discriminate]. simpl.
    destruct (calculate_fvc s (np_clip (snd ci) 0 1)) as [f3|e] eqn:E3;
      [|discriminate]. simpl.
    intro H. inversion H; subst. simpl. exists ys, ci.
    repeat (split; [reflexivity|]). eexists. split; [reflexivity|].
    simpl. repeat split; assumption.
  - simpl. intro H. inversion H; subst. simpl. exists ys, ci.
    repeat (split; [reflexivity|]). reflexivity.
Qed.

(** The frame a run stores covers the season day by day. *)
Lemma interpolate_ndvi_dates (L : library) (method : string)
    (s s' : analyzer) (df : frame) :
  interpolate_ndvi L method s = Ok (s', df) ->
  daily_ndvi s' = Some df /\
  Date df = date_range (sowing_date s') (harvest_date s').
Proof.
  unfold interpolate_ndvi.
  destruct (reconstruct L method s _); [|discriminate]. simpl.
  destruct (_calculate_confidence_intervals L _ _ _ _ _); [|discriminate].
  simpl.
  destruct (ndvi_soil (fvc_params s)).
  - destruct (calculate_fvc s _); [|discriminate]. simpl.
    destruct (calculate_fvc s _); [|discriminate]. simpl.
    destruct (calculate_fvc s _); [|discriminate]. simpl.
    intro H. inversion H; subst. split; reflexivity.
  - simpl. intro H. inversion H; subst. split; reflexivity.
Qed.

Lemma np_clip_range (ys : list npfloat) : Forall nan_or_unit (np_clip ys 0 1).
Proof.
  unfold np_clip. apply Forall_forall. intros y Hy.
  apply in_map_iff in Hy. destruct Hy as (x & <- & _).
  destruct x as [a| | |]; [right|right|right|left; reflexivity];
    apply clip1_unit; discriminate.
Qed.

Lemma calculate_fvc_range (s : analyzer) (vs out : list npfloat) :
  calculate_fvc s vs = Ok out -> Forall nan_or_unit out.
Proof.
  unfold calculate_fvc.
  destruct (ndvi_soil (fvc_params s)); [|discriminate].
  destruct (ndvi_vegetation (fvc_params s)); [|discriminate].
  intro H. inversion H. apply np_clip_range.
Qed.

(** Every cell the pipeline returns was clipped last: it lies in [0,1]
    unless it is NaN. *)
Lemma interpolate_ndvi_range (L : library) (method : string)
    (s s' : analyzer) (df : frame) :
  interpolate_ndvi L method s = Ok (s', df) ->
  Forall nan_or_unit (NDVI_Interpolated df) /\
  Forall nan_or_unit (NDVI_Lower_CI df) /\
  Forall nan_or_unit (NDVI_Upper_CI df) /\
  match fvc_cols df with
  | Some c =>
      Forall nan_or_unit (FVC_Interpolated c) /\
      Forall nan_or_unit (FVC_Lower_CI c) /\
      Forall nan_or_unit (FVC_Upper_CI c)
  | None => True
  end.
Proof.
  intro H. destruct (interpolate_ndvi_inv _ _ _ _ _ H)
    as (ys & ci & _ & _ & _ & _ & Hy & Hl & Hu & Hf).
  rewrite Hy, Hl, Hu.
  repeat (split; [apply np_clip_range|]).
  destruct (ndvi_soil (fvc_params s)).
  - destruct Hf as (c & -> & H1 & H2 & H3).
    repeat split; eapply calculate_fvc_range; eassumption.
  - now rewrite Hf.
Qed.

(** C3, on the code.  Observations whose largest index value is exactly
    zero, logistic algorithm: the clipped primary series is NaN on every
    day, so whenever the pipeline returns a frame its index column, and its
    cover-fraction column if present, hold NaN and not values of [0,1]. *)
Theorem sigmoid_zero_peak_not_in_unit (L : library) (s : analyzer) :
  is_maximum 0 (ndvi_values s) ->
  (forall x_interp,
     exists ys,
       reconstruct L "sigmoid" s x_interp = Ok ys /\
       all_nan (np_clip ys 0 1)) /\
  (forall s' df,
     interpolate_ndvi L "sigmoid" s = Ok (s', df) ->
     all_nan (NDVI_Interpolated df) /\
     List.length (NDVI_Interpolated df)
     = Z.to_nat (harvest_date s - sowing_date s + 1) /\
     match fvc_cols df with
     | Some c => all_nan (FVC_Interpolated c)
     | None => True
     end).
Proof.
  intro Hmax.
  assert (Hrec : forall x_interp,
             reconstruct L "sigmoid" s x_interp
             = Ok (_sigmoid_interpolation L s x_interp)) by reflexivity.
  split.
  - intro x_interp. exists (_sigmoid_interpolation L s x_interp).
    split; [apply Hrec | now apply _sigmoid_interpolation_zero_peak].
  - intros s' df Hrun.
    destruct (interpolate_ndvi_inv _ _ _ _ _ Hrun)
      as (ys & ci & Hys & _ & _ & Hx & Hcol & _ & _ & Hf).
    rewrite Hrec in Hys. inversion Hys; subst ys.
    assert (Hnan : all_nan (NDVI_Interpolated df)).
    { rewrite Hcol. now apply _sigmoid_interpolation_zero_peak. }
    split; [exact Hnan|]. split.
    + rewrite Hcol. unfold np_clip, _sigmoid_interpolation.
      rewrite length_map.
      rewrite blend_fold_length. unfold sigmoid_curve.
      rewrite !length_map. unfold date_range.
      now rewrite !length_map, length_seq.
    + destruct (ndvi_soil (fvc_params s)).
      * destruct Hf as (c & -> & Hc & _).
        now apply (calculate_fvc_nan s (NDVI_Interpolated df)).
      * now rewrite Hf.
Qed.

Lemma sigmoid_zero_peak_not_in_unit_witness :
  let s := set_fvc_params (init 0 300 [mkObs 10 0; mkObs 100 0])
                          (params_of 0.15 0.85) in
  (forall x_interp,
     exists ys,
       reconstruct zero_profile_library "sigmoid" s x_interp = Ok ys /\
       all_nan (np_clip ys 0 1)) /\
  (forall s' df,
     interpolate_ndvi zero_profile_library "sigmoid" s = Ok (s', df) ->
     all_nan (NDVI_Interpolated df) /\
     List.length (NDVI_Interpolated df) = Z.to_nat (300 - 0 + 1) /\
     match fvc_cols df with
     | Some c => all_nan (FVC_Interpolated c)
     | None => True
     end).
Proof.
  intro s.
  apply (sigmoid_zero_peak_not_in_unit zero_profile_library s).
  split.
  - exists 0. split; [simpl; auto | reflexivity].
  - intros x [<-|[<-|[]]]; vm_compute; discriminate.
Defined.

(** ** Stage segmenter *)

Lemma nth_error_zip_with {A B C : Type} (f : A -> B -> C) (xs : list A)
    (ys : list B) (i : nat) (x : A) (y : B) :
  nth_error xs i = Some x -> nth_error ys i = Some y ->
  nth_error (zip_with f xs ys) i = Some (f x y).
Proof.
  revert ys i. induction xs as [|a r IH]; intros [|b q] [|i] Hx Hy;
    simpl in *; try discriminate.
  - now inversion Hx; inversion Hy.
  - now apply IH.
Qed.

Lemma assign_stage_length dates harvest column labels e :
  List.length column = List.length labels ->
  List.length (assign_stage dates harvest column labels e)
  = List.length labels.
Proof.
  intro H. unfold assign_stage. rewrite zip_with_length, length_map. lia.
Qed.

Lemma assign_fold_length dates harvest column items labels :
  List.length column = List.length labels ->
  List.length (fold_left (assign_stage dates harvest column) items labels)
  = List.length labels.
Proof.
  revert labels. induction items as [|e r IH]; intros labels H; simpl;
    [reflexivity|].
  rewrite IH; rewrite assign_stage_length; auto.
Qed.

(** The column-wise loop, read along one row. *)
Lemma assign_fold_row dates harvest column items :
  forall labels i d start,
    nth_error column i = Some d ->
    nth_error labels i = Some start ->
    nth_error (fold_left (assign_stage dates harvest column) items labels) i
    = Some (row_label dates harvest d items start).
Proof.
  induction items as [|e r IH]; intros labels i d start Hd Hl; simpl;
    [exact Hl|].
  apply (IH _ i d); [exact Hd|].
  unfold assign_stage.
  rewrite (nth_error_zip_with _ _ _ i
             (stage_mask dates harvest (fst e) (snd e) d) start);
    [reflexivity | | exact Hl].
  rewrite nth_error_map, Hd. reflexivity.
Qed.

Lemma row_label_last dates harvest d items e start :
  row_label dates harvest d (items ++ [e]) start
  = if stage_mask dates harvest (fst e) (snd e) d then Lab (fst e)
    else row_label dates harvest d items start.
Proof.
  unfold row_label. now rewrite fold_left_app.
Qed.

Lemma row_label_in dates harvest d items start :
  row_label dates harvest d items start = start \/
  exists e, In e items /\
            stage_mask dates harvest (fst e) (snd e) d = true /\
            row_label dates harvest d items start = Lab (fst e).
Proof.
  revert start. induction items as [|e r IH]; intro start;
    [now left|].
  change (row_label dates harvest d (e :: r) start)
    with (row_label dates harvest d r
            (if stage_mask dates harvest (fst e) (snd e) d
             then Lab (fst e) else start)).
  destruct (IH (if stage_mask dates harvest (fst e) (snd e) d
                then Lab (fst e) else start)) as [E | (e' & Hin & Hm & E)].
  - rewrite E.
    destruct (stage_mask dates harvest (fst e) (snd e) d) eqn:M.
    + right. exists e. split; [now left | now split].
    + now left.
  - right. exists e'. split; [now right | now split].
Qed.

Lemma row_label_hit dates harvest d items start :
  (exists e, In e items /\
             stage_mask dates harvest (fst e) (snd e) d = true) ->
  exists e, In e items /\
            stage_mask dates harvest (fst e) (snd e) d = true /\
            row_label dates harvest d items start = Lab (fst e).
Proof.
  revert start. induction items as [|e r IH]; intros start (e0 & Hin & Hm);
    [contradiction|].
  change (row_label dates harvest d (e :: r) start)
    with (row_label dates harvest d r
            (if stage_mask dates harvest (fst e) (snd e) d
             then Lab (fst e) else start)).
  destruct Hin as [<-|Hin].
  - rewrite Hm.
    destruct (row_label_in dates harvest d r (Lab (fst e)))
      as [E | (e' & Hin' & Hm' & E)].
    + exists e. split; [now left | now split].
    + exists e'. split; [now right | now split].
  - destruct (IH (if stage_mask dates harvest (fst e) (snd e) d
                  then Lab (fst e) else start))
      as (e' & Hin' & Hm' & E); [now exists e0|].
    exists e'. split; [now right | now split].
Qed.

Lemma fold_min_spec (r : list Z) (a : Z) :
  (fold_left Z.min r a = a \/ In (fold_left Z.min r a) r) /\
  (fold_left Z.min r a <= a)%Z /\
  forall x, In x r -> (fold_left Z.min r a <= x)%Z.
Proof.
  revert a. induction r as [|b r IH]; intro a; simpl.
  - split; [now left|]. split; [lia | intros x []].
  - destruct (IH (Z.min a b)) as (Hin & Hle & Hall).
    split; [|split].
    + destruct Hin as [E|Hin]; [|now right; right].
      rewrite E. destruct (Z.min_spec a b) as [[_ ->]|[_ ->]]; auto.
    + lia.
    + intros x [<-|Hx]; [lia | now apply Hall].
Qed.

Lemma min_Z_spec (l : list Z) :
  l <> [] -> In (min_Z l) l /\ forall x, In x l -> (min_Z l <= x)%Z.
Proof.
  destruct l as [|a r]; [congruence|]. intros _. unfold min_Z.
  destruct (fold_min_spec r a) as (Hin & Hle & Hall).
  split.
  - destruct Hin as [->|Hin]; [now left | now right].
  - intros x [<-|Hx]; [exact Hle | now apply Hall].
Qed.

(** A mask that holds singles out the latest anchor not after the day. *)
Lemma stage_mask_latest dates harvest st a d :
  is_harvest st = false ->
  stage_mask dates harvest st a d = true ->
  (a <= d)%Z /\
  forall e, In e dates -> (snd e <= d)%Z -> (snd e <= a)%Z.
Proof.
  intros Hst. unfold stage_mask. rewrite Hst. cbn [negb].
  destruct (filter (fun e => (a <? snd e)%Z) dates) as [|e0 next] eqn:F;
    cbv zeta; rewrite andb_true_iff; intros [H1 H2];
    apply Z.leb_le in H1; (split; [exact H1|]); intros e He Hd.
  - destruct (Z.ltb_spec a (snd e)) as [Hlt|Hge]; [|exact Hge].
    assert (Hin : In e (filter (fun e => (a <? snd e)%Z) dates)).
    { apply filter_In. split; [exact He | now apply Z.ltb_lt]. }
    rewrite F in Hin. contradiction.
  - apply Z.ltb_lt in H2.
    destruct (Z.ltb_spec a (snd e)) as [Hlt|Hge]; [|exact Hge].
    assert (Hin : In e (filter (fun e => (a <? snd e)%Z) dates)).
    { apply filter_In. split; [exact He | now apply Z.ltb_lt]. }
    rewrite F in Hin.
    destruct (min_Z_spec (map snd (e0 :: next))) as [_ Hmin];
      [discriminate|].
    specialize (Hmin (snd e) (in_map snd _ _ Hin)). lia.
Qed.

(** The latest anchor not after a day of the season has its mask set. *)
Lemma stage_mask_of_latest dates harvest st a d :
  is_harvest st = false ->
  (a <= d)%Z -> (d <= harvest)%Z ->
  (forall e, In e dates -> (snd e <= d)%Z -> (snd e <= a)%Z) ->
  stage_mask dates harvest st a d = true.
Proof.
  intros Hst Had Hdh Hmax. unfold stage_mask. rewrite Hst. cbn [negb].
  destruct (filter (fun e => (a <? snd e)%Z) dates) as [|e0 next] eqn:F;
    cbv zeta; apply andb_true_iff; split; try (apply Z.leb_le; lia).
  apply Z.ltb_lt.
  destruct (min_Z_spec (map snd (e0 :: next))) as [Hin _]; [discriminate|].
  apply in_map_iff in Hin. destruct Hin as (e & Hsnd & Hin).
  rewrite <- F in Hin. apply filter_In in Hin. destruct Hin as [He Hlt].
  apply Z.ltb_lt in Hlt.
  destruct (Z.lt_ge_cases d (min_Z (map snd (e0 :: next)))) as [|Hge];
    [assumption|].
  rewrite <- Hsnd in Hge. specialize (Hmax e He Hge). lia.
Qed.

Lemma stage_mask_harvest dates harvest a d :
  stage_mask dates harvest Harvest a d = (d =? a)%Z.
Proof. reflexivity. Qed.

Lemma exists_latest (l : list (stage * Z)) (d : Z) :
  (exists e, In e l /\ (snd e <= d)%Z) ->
  exists e, In e l /\ (snd e <= d)%Z /\
            forall e', In e' l -> (snd e' <= d)%Z -> (snd e' <= snd e)%Z.
Proof.
  induction l as [|x r IH]; intros (e0 & Hin & Hle); [contradiction|].
  assert (Hdec : (exists e, In e r /\ (snd e <= d)%Z) \/
                 ~ (exists e, In e r /\ (snd e <= d)%Z)).
  { clear. induction r as [|y q IHq].
    - right. intros (e & [] & _).
    - destruct (Z.le_gt_cases (snd y) d) as [Hy|Hy].
      + left. exists y. split; [now left | exact Hy].
      + destruct IHq as [(e & He & Hd)|Hn].
        * left. exists e. split; [now right | exact Hd].
        * right. intros (e & [<-|He] & Hd); [lia|].
          apply Hn. now exists e. }
  destruct Hdec as [Hr|Hn].
  - destruct (IH Hr) as (e & He & Hd & Hmax).
    destruct (Z.le_gt_cases (snd x) d) as [Hx|Hx].
    + destruct (Z.le_gt_cases (snd x) (snd e)) as [Hxe|Hxe].
      * exists e. split; [now right|]. split; [exact Hd|].
        intros e' [<-|He'] Hd'; [exact Hxe | now apply Hmax].
      * exists x. split; [now left|]. split; [exact Hx|].
        intros e' [<-|He'] Hd'; [lia|]. specialize (Hmax e' He' Hd'). lia.
    + exists e. split; [now right|]. split; [exact Hd|].
      intros e' [<-|He'] Hd'; [lia | now apply Hmax].
  - destruct Hin as [<-|Hin]; [|exfalso; apply Hn; now exists e0].
    exists x. split; [now left|]. split; [exact Hle|].
    intros e' [<-|He'] Hd'; [lia|]. exfalso. apply Hn. now exists e'.
Qed.

(** The rule on one row, for any schedule that ends with the harvest
    entry and has no other harvest entry. *)
Lemma row_label_schedule (body : list (stage * Z)) (harvest d : Z) :
  let dates := body ++ [(Harvest, harvest)] in
  (forall e, In e body -> is_harvest (fst e) = false) ->
  (exists e, In e body /\ (snd e <= d)%Z) ->
  (d <= harvest)%Z ->
  exists e,
    In e dates /\
    row_label dates harvest d dates Unknown = Lab (fst e) /\
    (snd e <= d)%Z /\
    (forall e', In e' dates -> (snd e' <= d)%Z -> (snd e' <= snd e)%Z) /\
    (fst e = Harvest <-> d = harvest).
Proof.
  intros dates Hbody (e0 & Hin0 & Hle0) Hdh.
  assert (Hdates : forall e,
             In e dates <-> In e body \/ e = (Harvest, harvest)).
  { intro e. unfold dates. rewrite in_app_iff. simpl. intuition. }
  unfold dates at 3. rewrite row_label_last. fold dates.
  rewrite stage_mask_harvest. cbn [fst snd].
  destruct (Z.eqb_spec d harvest) as [->|Hne].
  - exists (Harvest, harvest). cbn [fst snd].
    split; [apply Hdates; now right|]. split; [reflexivity|].
    split; [lia|]. split; [|tauto].
    intros e' He' Hd'. exact Hd'.
  - destruct (exists_latest dates d) as (e & He & Hed & Hmax).
    { exists e0. split; [apply Hdates; now left | exact Hle0]. }
    assert (Heb : In e body).
    { apply Hdates in He. destruct He as [He| ->]; [exact He|].
      cbn [snd] in Hed. lia. }
    destruct (row_label_hit dates harvest d body Unknown)
      as (e1 & Hin1 & Hm1 & E1).
    { exists e. split; [exact Heb|].
      apply stage_mask_of_latest; auto. }
    destruct (stage_mask_latest dates harvest (fst e1) (snd e1) d)
      as [Hle1 Hmax1]; [now apply Hbody | exact Hm1 |].
    exists e1. split; [apply Hdates; now left|].
    split; [exact E1|]. split; [exact Hle1|]. split; [exact Hmax1|].
    split; intro H.
    + specialize (Hbody e1 Hin1). rewrite H in Hbody. discriminate.
    + contradiction.
Qed.

Lemma growth_stage_dates_anchor (sowing harvest peak_date : Z) (e : stage * Z) :
  In e (growth_stage_dates sowing harvest peak_date) <->
  snd e = anchor_date sowing harvest peak_date (fst e).
Proof.
  split.
  - intro H. unfold growth_stage_dates in H. simpl in H.
    repeat (destruct H as [<-|H]; [reflexivity|]). contradiction.
  - destruct e as [st a]. cbn [fst snd]. intros ->.
    destruct st; simpl; tauto.
Qed.

Lemma date_range_bounds (first last : Z) (i : nat) (d : Z) :
  nth_error (date_range first last) i = Some d ->
  (first <= d <= last)%Z.
Proof.
  intro H. apply nth_error_In in H. unfold date_range in H.
  apply in_map_iff in H. destruct H as (k & <- & Hk).
  apply in_seq in Hk. lia.
Qed.

(** C5.  The stage segmenter builds the ten anchors of the fixed schedule
    and stores the daily series again with a [Growth_Stage] column, its
    dates and index values as they were.  That column gives every day of
    the series the stage whose anchor is the latest one not after that day;
    the [Harvest] label is on the season-end date and on no other day. *)
Theorem estimate_growth_stages_schedule (s : analyzer) (df : frame)
    (peak_idx : nat) :
  daily_ndvi s = Some df ->
  Date df = date_range (sowing_date s) (harvest_date s) ->
  idxmax (NDVI_Interpolated df) = Some peak_idx ->
  let sowing := sowing_date s in
  let harvest := harvest_date s in
  let peak := nth peak_idx (Date df) 0%Z in
  let anchor := anchor_date sowing harvest peak in
  exists (s' : analyzer) (df' : frame) (labels : list label),
    estimate_growth_stages s
    = Ok (s',
          [ (Sowing, sowing);
            (Emergence, sowing + 10);
            (Tillering, sowing + 45);
            (StemElongation, sowing + 120);
            (Booting, peak - 20);
            (Heading, peak - 10);
            (Flowering, peak);
            (GrainFilling, peak + 15);
            (Maturity, harvest - 25);
            (Harvest, harvest) ]%Z) /\
    s' = set_daily_ndvi s (set_growth_stage df labels) /\
    daily_ndvi s' = Some df' /\
    Growth_Stage df' = Some labels /\
    Date df' = Date df /\
    NDVI_Interpolated df' = NDVI_Interpolated df /\
    List.length labels = List.length (Date df') /\
    forall (i : nat) (d : Z),
      nth_error (Date df') i = Some d ->
      exists st,
        nth_error labels i = Some (Lab st) /\
        (anchor st <= d)%Z /\
        (forall st', (anchor st' <= d)%Z -> (anchor st' <= anchor st)%Z) /\
        (st = Harvest <-> d = harvest).
Proof.
  intros Hdf Hdate Hidx sowing harvest peak anchor.
  unfold estimate_growth_stages. rewrite Hdf, Hidx.
  fold sowing harvest peak.
  set (dates := growth_stage_dates sowing harvest peak).
  set (labels := fold_left (assign_stage dates harvest (Date df)) dates
                           (map (fun _ => Unknown) (Date df))).
  exists (set_daily_ndvi s (set_growth_stage df labels)),
    (set_growth_stage df labels), labels.
  do 6 (split; [reflexivity|]).
  change (Date (set_growth_stage df labels)) with (Date df).
  assert (Hlen : List.length labels = List.length (Date df)).
  { unfold labels. rewrite assign_fold_length; now rewrite length_map. }
  split; [exact Hlen|].
  intros i d Hd.
  assert (Hrow : nth_error labels i
                 = Some (row_label dates harvest d dates Unknown)).
  { unfold labels. apply assign_fold_row; [exact Hd|].
    rewrite nth_error_map, Hd. reflexivity. }
  assert (Hb : (sowing <= d <= harvest)%Z).
  { rewrite Hdate in Hd. exact (date_range_bounds _ _ _ _ Hd). }
  pose (body := removelast dates).
  destruct (row_label_schedule body harvest d)
    as (e & He & Hlab & Hle & Hmax & Hh).
  - intros e He. simpl in He.
    repeat (destruct He as [<-|He]; [reflexivity|]). contradiction.
  - exists (Sowing, sowing). split; [now left | cbn [snd]; lia].
  - lia.
  - change (body ++ [(Harvest, harvest)]) with dates in *.
    pose proof (proj1 (growth_stage_dates_anchor _ _ _ e) He) as Ha.
    fold anchor in Ha.
    exists (fst e). split; [now rewrite Hrow, Hlab|].
    split; [now rewrite <- Ha|]. split; [|exact Hh].
    intros st' Hst'. rewrite <- Ha.
    apply (Hmax (st', anchor st')); [|exact Hst'].
    apply growth_stage_dates_anchor. reflexivity.
Qed.

Lemma estimate_growth_stages_schedule_witness :
  let s := set_daily_ndvi (init 0 300 []) sample_frame in
  let anchor := anchor_date 0 300 240 in
  exists (s' : analyzer) (df' : frame) (labels : list label),
    estimate_growth_stages s
    = Ok (s',
          [ (Sowing, 0); (Emergence, 10); (Tillering, 45);
            (StemElongation, 120); (Booting, 220); (Heading, 230);
            (Flowering, 240); (GrainFilling, 255); (Maturity, 275);
            (Harvest, 300) ]%Z) /\
    s' = set_daily_ndvi s (set_growth_stage sample_frame labels) /\
    daily_ndvi s' = Some df' /\
    Growth_Stage df' = Some labels /\
    Date df' = Date sample_frame /\
    NDVI_Interpolated df' = NDVI_Interpolated sample_frame /\
    List.length labels = List.length (Date df') /\
    forall (i : nat) (d : Z),
      nth_error (Date df') i = Some d ->
      exists st,
        nth_error labels i = Some (Lab st) /\
        (anchor st <= d)%Z /\
        (forall st', (anchor st' <= d)%Z -> (anchor st' <= anchor st)%Z) /\
        (st = Harvest <-> d = 300%Z).
Proof.
  intros s anchor.
  apply (estimate_growth_stages_schedule s sample_frame 240).
  - reflexivity.
  - reflexivity.
  - vm_compute. reflexivity.
Defined.

(** A complete run on such observations: the bootstrap succeeds, the frame
    is returned, and its index and cover-fraction columns are NaN. *)
Lemma sigmoid_zero_peak_run :
  let s := set_fvc_params (init 0 300 [mkObs 10 0; mkObs 100 0])
                          (params_of 0.15 0.85) in
  exists s' df c,
    interpolate_ndvi zero_profile_library "sigmoid" s = Ok (s', df) /\
    NDVI_Interpolated df = repeat NaN 301 /\
    fvc_cols df = Some c /\
    FVC_Interpolated c = repeat NaN 301.
Proof.
  intro s.
  assert (Hok : is_ok (interpolate_ndvi zero_profile_library "sigmoid" s)
                = true) by (vm_compute; reflexivity).
  destruct (interpolate_ndvi zero_profile_library "sigmoid" s)
    as [[s' df]|e] eqn:E; [|discriminate].
  destruct (interpolate_ndvi_inv _ _ _ _ _ E)
    as (ys & ci & Hys & _ & _ & Hx & Hcol & _ & _ & Hf).
  assert (Hmax : is_maximum 0 (ndvi_values s)).
  { split.
    - exists 0. split; [simpl; auto | reflexivity].
    - intros x [<-|[<-|[]]]; vm_compute; discriminate. }
  assert (Hrec : forall x_interp,
             reconstruct zero_profile_library "sigmoid" s x_interp
             = Ok (_sigmoid_interpolation zero_profile_library s x_interp))
    by reflexivity.
  rewrite Hrec in Hys. inversion Hys; subst ys.
  assert (Hnan : all_nan (NDVI_Interpolated df)).
  { rewrite Hcol. now apply _sigmoid_interpolation_zero_peak. }
  assert (Hlen : List.length (NDVI_Interpolated df) = 301%nat).
  { rewrite Hcol. unfold np_clip, _sigmoid_interpolation.
    rewrite length_map, blend_fold_length. unfold sigmoid_curve.
    rewrite !length_map. reflexivity. }
  change (ndvi_soil (fvc_params s)) with (Some (Fin 0.15)) in Hf.
  destruct Hf as (c & Hc & Hf & _).
  exists s', df, c. split; [reflexivity|].
  split; [|split; [exact Hc|]].
  - apply all_nan_repeat in Hnan. now rewrite Hlen in Hnan.
  - pose proof (calculate_fvc_nan s _ _ Hnan Hf) as Hn.
    apply all_nan_repeat in Hn.
    assert (Hl : List.length (FVC_Interpolated c) = 301%nat).
    { unfold calculate_fvc in Hf. simpl in Hf. inversion Hf.
      unfold np_clip. now rewrite !length_map. }
    now rewrite Hl in Hn.
Qed.

(** ** The peak *)

Lemma flt_irrefl (x : npfloat) : flt x x = false.
Proof.
  destruct x as [a| | |]; simpl; try reflexivity.
  apply Qlt_bool_false_iff. lra.
Qed.

Lemma flt_asym (x y : npfloat) : flt x y = true -> flt y x = false.
Proof.
  destruct x as [a| | |], y as [b| | |]; simpl; try discriminate;
    try reflexivity.
  intro H. apply Qlt_bool_iff in H. apply Qlt_bool_false_iff. lra.
Qed.

Lemma flt_trans (x y z : npfloat) :
  flt x y = true -> flt y z = true -> flt x z = true.
Proof.
  destruct x as [a| | |], y as [b| | |], z as [c| | |]; simpl;
    try discriminate; try reflexivity.
  intros H1 H2. apply Qlt_bool_iff in H1, H2. apply Qlt_bool_iff. lra.
Qed.

Lemma flt_le_lt (x y z : npfloat) :
  x <> NaN -> flt y x = false -> flt y z = true -> flt x z = true.
Proof.
  destruct x as [a| | |], y as [b| | |], z as [c| | |]; simpl;
    try discriminate; try reflexivity; try congruence.
  intros _ H1 H2. apply Qlt_bool_false_iff in H1. apply Qlt_bool_iff in H2.
  apply Qlt_bool_iff. lra.
Qed.

Lemma is_nan_false_iff (x : npfloat) : is_nan x = false <-> x <> NaN.
Proof. destruct x; simpl; split; congruence. Qed.

Lemma idxmax_from_spec (l : list npfloat) :
  forall (i : nat) (best : option (nat * npfloat)) (k : nat),
    (forall bi b, best = Some (bi, b) -> b <> NaN) ->
    idxmax_from i best l = Some k ->
    (exists b, best = Some (k, b) /\
               forall j w, nth_error l j = Some w -> w <> NaN ->
                           flt b w = false)
    \/
    (exists v,
        (i <= k)%nat /\ nth_error l (k - i) = Some v /\ v <> NaN /\
        (forall bi b, best = Some (bi, b) -> flt b v = true) /\
        (forall j w, nth_error l j = Some w -> w <> NaN -> flt v w = false) /\
        (forall j w, (j < k - i)%nat -> nth_error l j = Some w -> w <> NaN ->
                     flt w v = true)).
Proof.
  induction l as [|v0 r IH]; intros i best k Hbest H.
  - simpl in H. destruct best as [[bi b]|]; [|discriminate].
    simpl in H. inversion H; subst. left. exists b.
    split; [reflexivity|]. intros [|j] w Hj; discriminate.
  - cbn [idxmax_from] in H.
    destruct (is_nan v0) eqn:Nv.
    + (* the cell is skipped *)
      assert (v0 = NaN) by (destruct v0; simpl in Nv; congruence). subst v0.
      destruct (IH (S i) best k Hbest H)
        as [(b & Eb & Hall) | (v & Hik & Hv & Hn & Hb & Hall & Hfirst)].
      * left. exists b. split; [exact Eb|].
        intros [|j] w Hj Hw; simpl in Hj; [congruence | eauto].
      * right. exists v. split; [lia|].
        replace (k - i)%nat with (S (k - S i)) by lia.
        split; [exact Hv|]. split; [exact Hn|]. split; [exact Hb|].
        split.
        -- intros [|j] w Hj Hw; simpl in Hj; [congruence | eauto].
        -- intros [|j] w Hlt Hj Hw; simpl in Hj; [congruence|].
           apply (Hfirst j w); [lia | exact Hj | exact Hw].
    + apply is_nan_false_iff in Nv.
      assert (Hnew : forall bi b, Some (i, v0) = Some (bi, b) -> b <> NaN)
        by (intros bi b E; inversion E; subst; exact Nv).
      assert (Htake :
                idxmax_from (S i) (Some (i, v0)) r = Some k ->
                exists v,
                  (i <= k)%nat /\
                  nth_error (v0 :: r) (k - i) = Some v /\ v <> NaN /\
                  (v = v0 \/ flt v0 v = true) /\
                  (forall j w, nth_error (v0 :: r) j = Some w -> w <> NaN ->
                               flt v w = false) /\
                  (forall j w, (j < k - i)%nat ->
                               nth_error (v0 :: r) j = Some w -> w <> NaN ->
                               flt w v = true)).
      { intro H'.
        destruct (IH (S i) (Some (i, v0)) k Hnew H')
          as [(b & Eb & Hall) | (v & Hik & Hv & Hn & Hb & Hall & Hfirst)].
        - inversion Eb; subst b k. exists v0.
          split; [lia|]. rewrite Nat.sub_diag.
          split; [reflexivity|]. split; [exact Nv|].
          split; [now left|]. split.
          + intros [|j] w Hj Hw; simpl in Hj.
            * inversion Hj; subst. apply flt_irrefl.
            * eauto.
          + intros j w Hlt. lia.
        - exists v. split; [lia|].
          replace (k - i)%nat with (S (k - S i)) by lia.
          split; [exact Hv|]. split; [exact Hn|].
          pose proof (Hb i v0 eq_refl) as Hlt0.
          split; [now right|]. split.
          + intros [|j] w Hj Hw; simpl in Hj.
            * inversion Hj; subst. now apply flt_asym.
            * eauto.
          + intros [|j] w Hlt Hj Hw; simpl in Hj.
            * inversion Hj; subst. exact Hlt0.
            * apply (Hfirst j w); [lia | exact Hj | exact Hw]. }
      destruct best as [[bi b]|].
      * destruct (flt b v0) eqn:Fb.
        -- right. destruct (Htake H) as (v & Hik & Hv & Hn & Hv0 & Hall & Hf).
           exists v. repeat (split; [assumption|]). split; [|now split].
           intros bi' b' E. inversion E; subst.
           destruct Hv0 as [->|Hlt]; [exact Fb | eapply flt_trans; eauto].
        -- destruct (IH (S i) (Some (bi, b)) k Hbest H)
             as [(b' & Eb & Hall) | (v & Hik & Hv & Hn & Hb & Hall & Hfirst)].
           ++ left. exists b'. split; [exact Eb|].
              inversion Eb; subst.
              intros [|j] w Hj Hw; simpl in Hj.
              ** inversion Hj; subst. exact Fb.
              ** eauto.
           ++ right. exists v. split; [lia|].
              replace (k - i)%nat with (S (k - S i)) by lia.
              split; [exact Hv|]. split; [exact Hn|]. split; [exact Hb|].
              pose proof (Hb bi b eq_refl) as Hbv.
              assert (H0 : flt v0 v = true)
                by (apply (flt_le_lt v0 b v); assumption).
              split.
              ** intros [|j] w Hj Hw; simpl in Hj.
                 --- inversion Hj; subst. now apply flt_asym.
                 --- eauto.
              ** intros [|j] w Hlt Hj Hw; simpl in Hj.
                 --- inversion Hj; subst. exact H0.
                 --- apply (Hfirst j w); [lia | exact Hj | exact Hw].
      * right. destruct (Htake H) as (v & Hik & Hv & Hn & _ & Hall & Hf).
        exists v. repeat (split; [assumption|]). split; [|now split].
        intros bi b E. discriminate.
Qed.

(** [idxmax] picks the first cell that holds the largest value. *)
Lemma idxmax_spec (l : list npfloat) (k : nat) :
  idxmax l = Some k ->
  exists v,
    nth_error l k = Some v /\ v <> NaN /\
    (forall j w, nth_error l j = Some w -> w <> NaN -> flt v w = false) /\
    (forall j w, (j < k)%nat -> nth_error l j = Some w -> w <> NaN ->
                 flt w v = true).
Proof.
  intro H. unfold idxmax in H.
  destruct (idxmax_from_spec l 0 None k)
    as [(b & E & _) | (v & _ & Hv & Hn & _ & Hall & Hfirst)];
    [intros bi b E; discriminate | exact H | discriminate |].
  rewrite Nat.sub_0_r in *. exists v. auto.
Qed.

(** ** A season of exactly 270 days

    The last phase of the guided reconstruction divides by
    [max(x_interp) - maturity_start]; on the last day of a season that
    ends on day 270 this is zero by zero, and the cell is NaN whatever
    the baseline was. *)
Lemma balanced_phase_last_day (L : library) (y : npfloat) :
  balanced_phase L maturity_start maturity_start y = NaN.
Proof.
  unfold balanced_phase, blend. simpl Z.ltb. cbv iota.
  change (progress_of maturity_start maturity_start maturity_start) with NaN.
  cbn [fmul fsub fadd fopp]. apply fadd_nan_r.
Qed.

(** ** The segmenter on concrete seasons *)

(** Season of 300 days, peak on day 240: the first day of each stage. *)
Example stage_labels_regular :
  map (fun i => nth i (stage_labels
                         (set_daily_ndvi (init 0 300 []) sample_frame))
                    Unknown)
      [0; 9; 10; 45; 120; 219; 220; 230; 240; 255; 275; 299; 300]%nat
  = [Lab Sowing; Lab Sowing; Lab Emergence; Lab Tillering;
     Lab StemElongation; Lab StemElongation; Lab Booting; Lab Heading;
     Lab Flowering; Lab GrainFilling; Lab Maturity; Lab Maturity;
     Lab Harvest].
Proof. vm_compute. reflexivity. Qed.

(** Before any reconstruction there is no frame to label. *)
Example estimate_growth_stages_no_frame :
  estimate_growth_stages (init 0 300 [mkObs 121 0.85]) = Raise AttributeError.
Proof. reflexivity. Qed.

(** * Further properties of the code *)

(** ** Parameter estimator *)

Lemma flt_fle (x y : npfloat) : flt x y = true -> fle x y = true.
Proof.
  destruct x as [a| | |], y as [b| | |]; simpl; try discriminate;
    try reflexivity.
  intro H. apply Qlt_bool_iff in H. apply Qle_bool_iff. lra.
Qed.

Lemma py_max_lower (a : Q) (x : npfloat) :
  fle (Fin a) (py_max (Fin a) x) = true.
Proof.
  unfold py_max. destruct (flt (Fin a) x) eqn:E.
  - now apply flt_fle.
  - simpl. apply Qle_bool_iff. lra.
Qed.

Lemma py_min_upper (a : Q) (x : npfloat) :
  fle (py_min (Fin a) x) (Fin a) = true.
Proof.
  unfold py_min. destruct (flt x (Fin a)) eqn:E.
  - now apply flt_fle.
  - simpl. apply Qle_bool_iff. lra.
Qed.

(** X1.  Whatever the policy, the observations and the quantile routine,
    a returned estimate has both parameters set, the soil reference not
    below 0.05 and the vegetation reference not above 0.95; neither is
    NaN. *)
Theorem estimate_fvc_parameters_clamped (L : library) (method : string)
    (s s1 : analyzer) (p : fvc_params_t) :
  estimate_fvc_parameters L method s = Ok (s1, p) ->
  exists soil vegetation,
    ndvi_soil p = Some soil /\
    ndvi_vegetation p = Some vegetation /\
    fle (Fin 0.05) soil = true /\
    fle vegetation (Fin 0.95) = true.
Proof.
  unfold estimate_fvc_parameters.
  destruct (String.eqb method "literature");
    [|destruct (String.eqb method "data_driven");
      [|destruct (String.eqb method "seasonal")]];
    intro H; inversion H; subst; clear H; simpl.
  - exists (Fin 0.15), (Fin 0.85). repeat split; reflexivity.
  - eexists. eexists. split; [reflexivity|]. split; [reflexivity|].
    split; [apply py_max_lower | apply py_min_upper].
  - eexists. eexists. split; [reflexivity|]. split; [reflexivity|].
    split; [apply py_max_lower | apply py_min_upper].
Qed.

Lemma estimate_fvc_parameters_clamped_witness :
  let s := init 0 300 [mkObs 20 0.01; mkObs 200 0.99] in
  let p := {| ndvi_soil := Some (py_max (Fin 0.05) (Fin 0.01 - Fin 0.02)%np);
              ndvi_vegetation :=
                Some (py_min (Fin 0.95) (Fin 0.99 + Fin 0.02)%np) |} in
  exists soil vegetation,
    ndvi_soil p = Some soil /\
    ndvi_vegetation p = Some vegetation /\
    fle (Fin 0.05) soil = true /\
    fle vegetation (Fin 0.95) = true.
Proof.
  intros s p.
  apply (estimate_fvc_parameters_clamped trivial_library "data_driven" s
           (set_fvc_params s p) p).
  reflexivity.
Defined.

(** X2.  The extremal policy on observations with least value [lo] and
    greatest value [hi] returns a pair, whatever the observations.  The
    pair is degenerate (vegetation not above soil) whenever [lo >= 0.97] or
    [hi <= 0.03], where both clamps meet; it is usable (vegetation above
    soil) whenever [lo <= 0.96] and [hi >= 0.04]. *)
Theorem estimate_data_driven_usable (L : library) (s : analyzer) (lo hi : Q) :
  is_minimum lo (ndvi_values s) ->
  is_maximum hi (ndvi_values s) ->
  exists soil vegetation,
    estimate_fvc_parameters L "data_driven" s
      = Ok (set_fvc_params s (params_of soil vegetation),
            params_of soil vegetation) /\
    (0.97 <= lo \/ hi <= 0.03 -> vegetation <= soil) /\
    (lo <= 0.96 /\ 0.04 <= hi -> soil < vegetation).
Proof.
  intros Hlo Hhi.
  assert (Hlohi : lo <= hi).
  { destruct Hlo as [(x & Hx & Ex) Hl]. destruct Hhi as [_ Hh].
    specialize (Hh x Hx). lra. }
  destruct (series_min_is_minimum _ _ Hlo) as (m & Hm & Hmlo).
  destruct (series_max_is_maximum _ _ Hhi) as (M & HM & HMhi).
  destruct (py_max_fin 0.05 (m + Qopp 0.02)) as (soil & Hsoil & Esoil).
  destruct (py_min_fin 0.95 (M + 0.02)) as (veg & Hveg & Eveg).
  exists soil, veg. split.
  - unfold estimate_fvc_parameters. simpl String.eqb. cbv iota.
    rewrite Hm, HM. rewrite fsub_fin. cbn [fadd].
    rewrite Hsoil, Hveg. reflexivity.
  - rewrite Esoil, Eveg.
    destruct (Q.max_spec 0.05 (m + - (0.02))) as [[? ->]|[? ->]];
      destruct (Q.min_spec 0.95 (M + 0.02)) as [[? ->]|[? ->]];
      (split; [intros [H'|H'] | intros [H' H'']]); lra.
Qed.

Lemma estimate_data_driven_usable_witness :
  let s := init 0 300 [mkObs 20 0.98; mkObs 200 1] in
  exists soil vegetation,
    estimate_fvc_parameters trivial_library "data_driven" s
      = Ok (set_fvc_params s (params_of soil vegetation),
            params_of soil vegetation) /\
    (0.97 <= 0.98 \/ 1 <= 0.03 -> vegetation <= soil) /\
    (0.98 <= 0.96 /\ 0.04 <= 1 -> soil < vegetation).
Proof.
  intro s.
  apply (estimate_data_driven_usable trivial_library s 0.98 1).
  - split.
    + exists 0.98. split; [simpl; auto | reflexivity].
    + intros x [<-|[<-|[]]]; vm_compute; discriminate.
  - split.
    + exists 1. split; [simpl; auto | reflexivity].
    + intros x [<-|[<-|[]]]; vm_compute; discriminate.
Defined.

Lemma loc_ndvi_none (s : analyzer) (mask : Z -> bool) :
  (forall o, In o (ndvi_data s) ->
             mask (phenomenonTime o - sowing_date s)%Z = false) ->
  loc_ndvi s mask = [].
Proof.
  unfold loc_ndvi. intro H.
  induction (ndvi_data s) as [|o r IH]; [reflexivity|]. simpl.
  rewrite (H o) by now left. apply IH. intros o' Ho'. apply H. now right.
Qed.

(** X3.  The phenological policy never fails.  Without an observation in
    the first 30 days after sowing (earlier ones included) its soil
    reference is the literature value 0.15; without one between day 60 and
    day 120 its vegetation reference is the literature value 0.85.  The
    extremal policy on an empty table returns 0.05 and 0.95. *)
Theorem estimate_fallbacks (L : library) (s : analyzer) :
  (exists p,
     estimate_fvc_parameters L "seasonal" s = Ok (set_fvc_params s p, p) /\
     ((forall o, In o (ndvi_data s) ->
                 (30 < phenomenonTime o - sowing_date s)%Z) ->
      ndvi_soil p = Some (Fin 0.15)) /\
     ((forall o, In o (ndvi_data s) ->
                 (phenomenonTime o - sowing_date s < 60)%Z \/
                 (120 < phenomenonTime o - sowing_date s)%Z) ->
      ndvi_vegetation p = Some (Fin 0.85))) /\
  (ndvi_data s = [] ->
   estimate_fvc_parameters L "data_driven" s
   = Ok (set_fvc_params s (params_of 0.05 0.95), params_of 0.05 0.95)).
Proof.
  split.
  - eexists. split; [reflexivity|]. simpl. split; intro H.
    + rewrite loc_ndvi_none; [reflexivity|].
      intros o Ho. apply Z.leb_gt. now apply H.
    + rewrite loc_ndvi_none; [reflexivity|].
      intros o Ho. apply andb_false_iff.
      destruct (H o Ho); [left; apply Z.leb_gt | right; apply Z.leb_gt];
        assumption.
  - intro H. unfold estimate_fvc_parameters, ndvi_values. rewrite H.
    reflexivity.
Qed.

(** ** Index normalizer *)

Lemma fvc_cell_fin (soil vegetation v : Q) :
  ~ vegetation == soil ->
  exists c,
    fvc_cell (Fin soil) (Fin vegetation) (Fin v) = Fin c /\
    c == Qmin 1 (Qmax 0 ((v - soil) / (vegetation - soil))).
Proof.
  intro Hne. unfold fvc_cell. rewrite !fsub_fin. simpl.
  assert (Z0 : is_zero (vegetation + - soil) = false)
    by (apply is_zero_false_iff; lra).
  rewrite Z0.
  destruct (clip1_fin ((v + - soil) / (vegetation + - soil))) as (c & Hc & E).
  exists c. split; [exact Hc|]. rewrite E. reflexivity.
Qed.

Lemma Qdiv_bounds (a d : Q) :
  0 < d -> (a <= 0 -> a / d <= 0) /\ (d <= a -> 1 <= a / d) /\
           (0 <= a -> 0 <= a / d) /\ (a <= d -> a / d <= 1).
Proof.
  intro Hd.
  assert (E0 : 0 / d == 0) by (unfold Qdiv; ring).
  assert (E1 : d / d == 1) by (field; lra).
  repeat split; intro H.
  - rewrite <- E0. now apply Qdiv_le_pos.
  - rewrite <- E1. now apply Qdiv_le_pos.
  - rewrite <- E0. now apply Qdiv_le_pos.
  - rewrite <- E1. now apply Qdiv_le_pos.
Qed.

(** X4.  With vegetation above soil, [calculate_fvc] saturates outside the
    two references and is linear between them: an index value at or below
    the soil reference gives 0, one at or above the vegetation reference
    gives 1, and one in between gives
    [(v - soil) / (vegetation - soil)]. *)
Theorem calculate_fvc_saturates (s : analyzer) (soil vegetation v : Q) :
  fvc_params s = params_of soil vegetation ->
  soil < vegetation ->
  exists c,
    calculate_fvc s [Fin v] = Ok [Fin c] /\
    (v <= soil -> c == 0) /\
    (vegetation <= v -> c == 1) /\
    (soil <= v <= vegetation -> c == (v - soil) / (vegetation - soil)).
Proof.
  intros Hp Hlt.
  destruct (fvc_cell_fin soil vegetation v) as (c & Hc & E); [lra|].
  exists c. split.
  - rewrite (calculate_fvc_set s (Fin soil) (Fin vegetation));
      [simpl; now rewrite Hc | rewrite Hp; reflexivity ..].
  - destruct (Qdiv_bounds (v - soil) (vegetation - soil))
      as (B1 & B2 & B3 & B4); [lra|].
    rewrite E. repeat split; intro H.
    + rewrite Q.max_l by (apply B1; lra). rewrite Q.min_r by lra. reflexivity.
    + rewrite Q.max_r by (apply B3; lra).
      rewrite Q.min_l by (apply B2; lra). reflexivity.
    + rewrite Q.max_r by (apply B3; lra).
      rewrite Q.min_r by (apply B4; lra). reflexivity.
Qed.

Lemma calculate_fvc_saturates_witness :
  let s := set_fvc_params (init 0 300 []) (params_of 0.15 0.85) in
  exists c,
    calculate_fvc s [Fin 0.5] = Ok [Fin c] /\
    (0.5 <= 0.15 -> c == 0) /\
    (0.85 <= 0.5 -> c == 1) /\
    (0.15 <= 0.5 <= 0.85 -> c == (0.5 - 0.15) / (0.85 - 0.15)).
Proof.
  intro s.
  apply (calculate_fvc_saturates s 0.15 0.85 0.5); reflexivity.
Defined.

Lemma fvc_cell_unit (soil vegetation : Q) (v : npfloat) :
  ~ vegetation == soil -> v <> NaN ->
  in_unit (fvc_cell (Fin soil) (Fin vegetation) v).
Proof.
  intros Hne Hv. unfold fvc_cell. apply clip1_unit.
  assert (Z0 : is_zero (vegetation + - soil) = false)
    by (apply is_zero_false_iff; lra).
  destruct v as [a| | |]; simpl; rewrite ?Z0; try discriminate;
    try congruence;
    destruct (neg_sign (vegetation + - soil)); discriminate.
Qed.

Lemma percentage_of_unit (y : npfloat) :
  in_unit y -> in_percent (y * Fin 100)%np.
Proof.
  destruct y as [a| | |]; simpl; try contradiction. intros [H0 H1].
  split; lra.
Qed.

(** X5.  With two distinct references of the index scale, both in [0,1],
    [calculate_fvc] maps an array without NaN to an array of the same
    length whose cells all lie in [0,1], infinite inputs included, and
    [calculate_ground_cover_percentage] of it lies in [0,100]. *)
Theorem calculate_fvc_in_range (s : analyzer) (soil vegetation : Q)
    (vs : list npfloat) :
  fvc_params s = params_of soil vegetation ->
  0 <= soil <= 1 ->
  0 <= vegetation <= 1 ->
  ~ vegetation == soil ->
  Forall (fun v => v <> NaN) vs ->
  exists out,
    calculate_fvc s vs = Ok out /\
    List.length out = List.length vs /\
    Forall in_unit out /\
    Forall in_percent (calculate_ground_cover_percentage out).
Proof.
  intros Hp _ _ Hne Hvs.
  exists (map (fvc_cell (Fin soil) (Fin vegetation)) vs).
  split; [apply calculate_fvc_set; rewrite Hp; reflexivity|].
  split; [apply length_map|].
  assert (Hu : Forall in_unit (map (fvc_cell (Fin soil) (Fin vegetation)) vs)).
  { apply Forall_forall. intros y Hy. apply in_map_iff in Hy.
    destruct Hy as (v & <- & Hv). apply fvc_cell_unit; [exact Hne|].
    rewrite Forall_forall in Hvs. now apply Hvs. }
  split; [exact Hu|].
  unfold calculate_ground_cover_percentage.
  apply Forall_forall. intros y Hy. apply in_map_iff in Hy.
  destruct Hy as (f & <- & Hf). apply percentage_of_unit.
  rewrite Forall_forall in Hu. now apply Hu.
Qed.

Lemma calculate_fvc_in_range_witness :
  let s := set_fvc_params (init 0 300 []) (params_of 0.8 0.2) in
  exists out,
    calculate_fvc s [Fin 0.5; PInf; Fin (-3)] = Ok out /\
    List.length out = 3%nat /\
    Forall in_unit out /\
    Forall in_percent (calculate_ground_cover_percentage out).
Proof.
  intro s.
  apply (calculate_fvc_in_range s 0.8 0.2 [Fin 0.5; PInf; Fin (-3)]).
  - reflexivity.
  - split; vm_compute; discriminate.
  - split; vm_compute; discriminate.
  - vm_compute. discriminate.
  - repeat constructor; discriminate.
Defined.

(** ** Pipeline *)

Lemma date_range_length (first last : Z) :
  List.length (date_range first last) = Z.to_nat (last - first + 1).
Proof. unfold date_range. now rewrite length_map, length_seq. Qed.

Lemma date_range_nth (first last : Z) (i : nat) :
  (i < Z.to_nat (last - first + 1))%nat ->
  nth i (date_range first last) 0%Z = (first + Z.of_nat i)%Z.
Proof.
  intro H. unfold date_range.
  set (f := fun k => (first + Z.of_nat k)%Z).
  rewrite (nth_indep _ 0%Z (f O)) by now rewrite length_map, length_seq.
  rewrite map_nth. unfold f. now rewrite seq_nth.
Qed.

Lemma interpolate_ndvi_no_stage (L : library) (method : string)
    (s s' : analyzer) (df : frame) :
  interpolate_ndvi L method s = Ok (s', df) ->
  Growth_Stage df = None /\
  Date df = date_range (sowing_date s) (harvest_date s).
Proof.
  unfold interpolate_ndvi.
  destruct (reconstruct L method s _); [|discriminate]. simpl.
  destruct (_calculate_confidence_intervals L _ _ _ _ _); [|discriminate].
  simpl.
  destruct (ndvi_soil (fvc_params s)).
  - destruct (calculate_fvc s _); [|discriminate]. simpl.
    destruct (calculate_fvc s _); [|discriminate]. simpl.
    destruct (calculate_fvc s _); [|discriminate]. simpl.
    intro H. inversion H; subst. split; reflexivity.
  - simpl. intro H. inversion H; subst. split; reflexivity.
Qed.

(** X6.  A run of [interpolate_ndvi] that returns stores a frame with one
    row per calendar day from sowing to harvest, both included: row [i]
    holds the date [sowing + i] and the day offset [i].  The frame has no
    stage column, it has the cover-fraction columns exactly when the soil
    parameter is set, and the run changes nothing else in the session. *)
Theorem interpolate_ndvi_frame (L : library) (method : string)
    (s s' : analyzer) (df : frame) :
  interpolate_ndvi L method s = Ok (s', df) ->
  let n := Z.to_nat (harvest_date s - sowing_date s + 1) in
  s' = set_daily_ndvi s df /\
  List.length (Date df) = n /\
  List.length (Days_After_Sowing df) = n /\
  (forall i, (i < n)%nat ->
             nth i (Date df) 0%Z = (sowing_date s + Z.of_nat i)%Z /\
             nth i (Days_After_Sowing df) 0%Z = Z.of_nat i) /\
  Growth_Stage df = None /\
  (fvc_cols df = None <-> ndvi_soil (fvc_params s) = None).
Proof.
  intros H n.
  destruct (interpolate_ndvi_inv _ _ _ _ _ H)
    as (ys & ci & _ & _ & Hs & Hx & _ & _ & _ & Hf).
  destruct (interpolate_ndvi_no_stage _ _ _ _ _ H) as [Hg Hd].
  split; [exact Hs|].
  split; [rewrite Hd; apply date_range_length|].
  split; [rewrite Hx, length_map; apply date_range_length|].
  split; [|split; [exact Hg|]].
  - intros i Hi. split; [rewrite Hd; now apply date_range_nth|].
    rewrite Hx.
    set (f := fun d => (d - sowing_date s)%Z).
    rewrite (nth_indep _ 0%Z (f 0%Z))
      by (rewrite length_map, date_range_length; exact Hi).
    rewrite map_nth. unfold f. rewrite date_range_nth by exact Hi. lia.
  - destruct (ndvi_soil (fvc_params s)).
    + destruct Hf as (c & -> & _). split; discriminate.
    + rewrite Hf. tauto.
Qed.

Lemma interpolate_ndvi_frame_witness :
  let s := sample_session in
  let n := Z.to_nat (300 - 0 + 1) in
  fst sample_run = set_daily_ndvi s (snd sample_run) /\
  List.length (Date (snd sample_run)) = n /\
  List.length (Days_After_Sowing (snd sample_run)) = n /\
  (forall i, (i < n)%nat ->
             nth i (Date (snd sample_run)) 0%Z = (0 + Z.of_nat i)%Z /\
             nth i (Days_After_Sowing (snd sample_run)) 0%Z = Z.of_nat i) /\
  Growth_Stage (snd sample_run) = None /\
  (fvc_cols (snd sample_run) = None <-> ndvi_soil (fvc_params s) = None).
Proof.
  intros s n.
  apply (interpolate_ndvi_frame zero_profile_library "physiological" s
           (fst sample_run) (snd sample_run)).
  vm_compute. reflexivity.
Defined.

(** X7.  [interpolate_ndvi] returns exactly when the reconstruction
    returns, at least one bootstrap trial succeeds, and the vegetation
    parameter is set whenever the soil parameter is. *)
Theorem interpolate_ndvi_returns_iff (L : library) (method : string)
    (s : analyzer) :
  let x_interp :=
    map (fun d => (d - sowing_date s)%Z)
        (date_range (sowing_date s) (harvest_date s)) in
  is_ok (interpolate_ndvi L method s) = true <->
  is_ok (reconstruct L method s x_interp) = true /\
  bootstrap_predictions L (x_obs_of s) (y_obs_of s) x_interp method
                        n_bootstrap_default <> [] /\
  (ndvi_soil (fvc_params s) = None \/
   ndvi_vegetation (fvc_params s) <> None).
Proof.
  intro x_interp. unfold interpolate_ndvi. fold x_interp.
  destruct (reconstruct L method s x_interp) as [ys|e]; simpl;
    [|split; [discriminate | intros [H _]; discriminate]].
  unfold _calculate_confidence_intervals.
  destruct (bootstrap_predictions L _ _ x_interp method n_bootstrap_default)
    as [|p preds]; simpl;
    [split; [discriminate | intros (_ & H & _); congruence]|].
  unfold calculate_fvc.
  destruct (ndvi_soil (fvc_params s)) as [soil|];
    destruct (ndvi_vegetation (fvc_params s)) as [veg|]; simpl.
  - split; [intros _|reflexivity].
    split; [reflexivity|]. split; [discriminate|]. right. discriminate.
  - split; [discriminate|].
    intros (_ & _ & [H|H]); [discriminate | congruence].
  - split; [intros _|reflexivity].
    split; [reflexivity|]. split; [discriminate|]. now left.
  - split; [intros _|reflexivity].
    split; [reflexivity|]. split; [discriminate|]. now left.
Qed.

Lemma bootstrap_trial_plain (L : library) (x_obs : list Z) (y_obs : list Q)
    (x_interp : list Z) (method : string) (t : nat) :
  String.eqb method "cubic" = false ->
  String.eqb method "polynomial" = false ->
  bootstrap_trial L x_obs y_obs x_interp method t
  = bootstrap_trial L x_obs y_obs x_interp "linear" t.
Proof.
  intros H1 H2. unfold bootstrap_trial. rewrite H1, H2. reflexivity.
Qed.

Lemma bootstrap_predictions_ext (L : library) (x_obs : list Z)
    (y_obs : list Q) (x_interp : list Z) (m1 m2 : string) (n : nat) :
  (forall t, bootstrap_trial L x_obs y_obs x_interp m1 t
             = bootstrap_trial L x_obs y_obs x_interp m2 t) ->
  bootstrap_predictions L x_obs y_obs x_interp m1 n
  = bootstrap_predictions L x_obs y_obs x_interp m2 n.
Proof.
  intro H. unfold bootstrap_predictions.
  induction (seq 0 n) as [|t r IH]; simpl; [reflexivity|].
  now rewrite H, IH.
Qed.

Lemma confidence_intervals_ext (L : library) (x_obs : list Z)
    (y_obs : list Q) (x_interp : list Z) (m1 m2 : string) (n : nat) :
  (forall t, bootstrap_trial L x_obs y_obs x_interp m1 t
             = bootstrap_trial L x_obs y_obs x_interp m2 t) ->
  _calculate_confidence_intervals L x_obs y_obs x_interp m1 n
  = _calculate_confidence_intervals L x_obs y_obs x_interp m2 n.
Proof.
  intro H. unfold _calculate_confidence_intervals.
  now rewrite (bootstrap_predictions_ext L x_obs y_obs x_interp m1 m2 n H).
Qed.

(** X8.  The confidence band does not depend on the reconstruction
    algorithm unless it is ['cubic'] or ['polynomial']: for every other
    method name, the guided and logistic ones included, the bootstrap
    refits with plain linear interpolation. *)
Theorem confidence_intervals_plain (L : library) (x_obs : list Z)
    (y_obs : list Q) (x_interp : list Z) (method : string) (n : nat) :
  method <> "cubic"%string ->
  method <> "polynomial"%string ->
  _calculate_confidence_intervals L x_obs y_obs x_interp method n
  = _calculate_confidence_intervals L x_obs y_obs x_interp "linear" n.
Proof.
  intros H1 H2. apply confidence_intervals_ext. intro t.
  apply bootstrap_trial_plain; now apply String.eqb_neq.
Qed.

Lemma confidence_intervals_plain_witness :
  _calculate_confidence_intervals zero_profile_library [10; 100]%Z [0; 0]
    (date_range 0 300) "balanced" 1000
  = _calculate_confidence_intervals zero_profile_library [10; 100]%Z [0; 0]
      (date_range 0 300) "linear" 1000.
Proof.
  apply (confidence_intervals_plain zero_profile_library [10; 100]%Z [0; 0]
           (date_range 0 300) "balanced" 1000); discriminate.
Defined.

(** X9.  A method name that is none of the five the code tests for is not
    rejected: [interpolate_ndvi] treats it as ['linear']. *)
Theorem interpolate_ndvi_unknown_method (L : library) (method : string)
    (s : analyzer) :
  method <> "balanced"%string ->
  method <> "physiological"%string ->
  method <> "sigmoid"%string ->
  method <> "cubic"%string ->
  method <> "polynomial"%string ->
  interpolate_ndvi L method s = interpolate_ndvi L "linear" s.
Proof.
  intros H1 H2 H3 H4 H5.
  apply String.eqb_neq in H1, H2, H3, H4, H5.
  unfold interpolate_ndvi, reconstruct.
  rewrite H1, H2, H3, H4, H5. simpl String.eqb. cbv iota.
  rewrite (confidence_intervals_ext L _ _ _ method "linear");
    [reflexivity|].
  intro t. now apply bootstrap_trial_plain.
Qed.

Lemma interpolate_ndvi_unknown_method_witness :
  interpolate_ndvi zero_profile_library "spline"
                   (init 0 300 [mkObs 10 0; mkObs 100 0])
  = interpolate_ndvi zero_profile_library "linear"
                     (init 0 300 [mkObs 10 0; mkObs 100 0]).
Proof.
  apply (interpolate_ndvi_unknown_method zero_profile_library "spline"
           (init 0 300 [mkObs 10 0; mkObs 100 0])); discriminate.
Defined.

Lemma bootstrap_trial_few (L : library) (x_obs : list Z) (y_obs : list Q)
    (x_interp : list Z) (t : nat) :
  ((List.length x_obs < 4)%nat ->
   bootstrap_trial L x_obs y_obs x_interp "cubic" t
   = bootstrap_trial L x_obs y_obs x_interp "linear" t) /\
  ((List.length x_obs < 3)%nat ->
   bootstrap_trial L x_obs y_obs x_interp "polynomial" t
   = bootstrap_trial L x_obs y_obs x_interp "linear" t).
Proof.
  pose proof (x_boot_unique_length L x_obs t) as H. cbv zeta in H.
  split; intro Hn; unfold bootstrap_trial; simpl String.eqb;
    cbv iota; cbn [andb].
  - destruct (Nat.leb_spec 4 (List.length
                (take 0%Z (take 0%Z x_obs
                   (np_random_choice L t (List.length x_obs)))
                 (np_unique_index (take 0%Z x_obs
                   (np_random_choice L t (List.length x_obs)))))));
      [lia | reflexivity].
  - destruct (Nat.leb_spec 3 (List.length
                (take 0%Z (take 0%Z x_obs
                   (np_random_choice L t (List.length x_obs)))
                 (np_unique_index (take 0%Z x_obs
                   (np_random_choice L t (List.length x_obs)))))));
      [lia | reflexivity].
Qed.

(** X10.  With fewer than four observations the band of the ['cubic']
    method is the one of ['linear'], and with fewer than three so is the
    band of ['polynomial']: no resample has enough distinct days for the
    richer fit. *)
Theorem confidence_intervals_few_observations (L : library)
    (x_obs : list Z) (y_obs : list Q) (x_interp : list Z) (n : nat) :
  (List.length x_obs < 4)%nat ->
  _calculate_confidence_intervals L x_obs y_obs x_interp "cubic" n
  = _calculate_confidence_intervals L x_obs y_obs x_interp "linear" n /\
  ((List.length x_obs < 3)%nat ->
   _calculate_confidence_intervals L x_obs y_obs x_interp "polynomial" n
   = _calculate_confidence_intervals L x_obs y_obs x_interp "linear" n).
Proof.
  intro H4. split.
  - apply confidence_intervals_ext. intro t.
    now apply (bootstrap_trial_few L x_obs y_obs x_interp t).
  - intro H3. apply confidence_intervals_ext. intro t.
    now apply (bootstrap_trial_few L x_obs y_obs x_interp t).
Qed.

Lemma confidence_intervals_few_observations_witness :
  _calculate_confidence_intervals zero_profile_library [10; 100]%Z [0; 0]
    (date_range 0 300) "cubic" 1000
  = _calculate_confidence_intervals zero_profile_library [10; 100]%Z [0; 0]
      (date_range 0 300) "linear" 1000 /\
  ((List.length [10; 100]%Z < 3)%nat ->
   _calculate_confidence_intervals zero_profile_library [10; 100]%Z [0; 0]
     (date_range 0 300) "polynomial" 1000
   = _calculate_confidence_intervals zero_profile_library [10; 100]%Z [0; 0]
       (date_range 0 300) "linear" 1000).
Proof.
  apply (confidence_intervals_few_observations zero_profile_library
           [10; 100]%Z [0; 0] (date_range 0 300) 1000).
  simpl. lia.
Defined.

(** ** Uncertainty estimator: the deduplicated resample *)








Lemma nth_map_in {A B : Type} (f : A -> B) (l : list A) (i : nat)
    (d : A) (d' : B) :
  (i < List.length l)%nat -> nth i (map f l) d' = f (nth i l d).
Proof.
  revert i. induction l as [|a r IH]; intros [|i] H; simpl in *;
    try lia; [reflexivity|]. apply IH. lia.
Qed.


(** ** Guided reconstruction: the pull, cell by cell *)

(** X12.  The pull of one observation, cell by cell.  An observation whose
    day is not a reconstructed day changes nothing.  Otherwise its own cell
    becomes [0.9 * observed + 0.1 * old], every other cell less than 50
    days away becomes
    [(1 - 0.5 * e) * old + 0.5 * e * observed] with
    [e = exp(-distance / 15)], and every cell 50 days away or more keeps
    its value. *)
Theorem pull_observation_cells (L : library) (x_interp : list Z)
    (y : list npfloat) (obs_day : Z) (obs_ndvi : Q) :
  List.length y = List.length x_interp ->
  match find_index obs_day x_interp with
  | None => pull_observation L x_interp y (obs_day, obs_ndvi) = y
  | Some idx =>
      forall j, (j < List.length x_interp)%nat ->
        nth j (pull_observation L x_interp y (obs_day, obs_ndvi)) NaN
        = if (j =? idx)%nat
          then (Fin 0.9 * Fin obs_ndvi + Fin 0.1 * nth j y NaN)%np
          else near_value L obs_day obs_ndvi (nth j x_interp 0%Z)
                          (nth j y NaN)
  end.
Proof.
  intro Hlen. unfold pull_observation.
  destruct (find_index obs_day x_interp) as [idx|] eqn:Hf; [|reflexivity].
  intros j Hj.
  pose proof (find_index_bound _ _ _ Hf) as [Hidx _].
  rewrite pull_loop_cell by (try apply seq_NoDup; rewrite upd_length; lia).
  assert (E : existsb (Nat.eqb j) (seq 0 (List.length x_interp)) = true).
  { apply existsb_exists. exists j. split; [apply in_seq; lia|].
    apply Nat.eqb_refl. }
  rewrite E. simpl.
  destruct (Nat.eqb_spec j idx) as [->|Hne]; simpl.
  - apply nth_upd_same. lia.
  - rewrite nth_upd_other by congruence. reflexivity.
Qed.

Lemma pull_observation_cells_witness :
  let x_interp := date_range 0 300 in
  let y := map (fun _ => Fin 0.5) x_interp in
  match find_index 121 x_interp with
  | None => pull_observation trivial_library x_interp y (121%Z, 0.85) = y
  | Some idx =>
      forall j, (j < List.length x_interp)%nat ->
        nth j (pull_observation trivial_library x_interp y (121%Z, 0.85)) NaN
        = if (j =? idx)%nat
          then (Fin 0.9 * Fin 0.85 + Fin 0.1 * nth j y NaN)%np
          else near_value trivial_library 121 0.85 (nth j x_interp 0%Z)
                          (nth j y NaN)
  end.
Proof.
  intros x_interp y.
  apply (pull_observation_cells trivial_library x_interp y 121 0.85).
  reflexivity.
Defined.

(** ** Logistic and physiological reconstruction: observation days *)

Section BlendCells.

Variables w_obs w_curve : Q.
Variable x_interp : list Z.

Lemma blend_observation_length (y : list npfloat) (ob : Z * Q) :
  List.length (blend_observation w_obs w_curve x_interp y ob) = List.length y.
Proof.
  destruct ob as [d v]. unfold blend_observation.
  destruct (find_index d x_interp); [apply upd_length | reflexivity].
Qed.

Lemma blend_observation_other (y : list npfloat) (d : Z) (v : Q) (j : nat) :
  find_index d x_interp <> Some j ->
  nth j (blend_observation w_obs w_curve x_interp y (d, v)) NaN = nth j y NaN.
Proof.
  intro H. unfold blend_observation.
  destruct (find_index d x_interp) as [idx|]; [|reflexivity].
  apply nth_upd_other. congruence.
Qed.

Lemma blend_fold_untouched (obs : list (Z * Q)) (j : nat) :
  (forall d v, In (d, v) obs -> find_index d x_interp <> Some j) ->
  forall y,
    nth j (fold_left (blend_observation w_obs w_curve x_interp) obs y) NaN
    = nth j y NaN.
Proof.
  induction obs as [|[d v] r IH]; intros H y; [reflexivity|].
  cbn [fold_left].
  rewrite IH by (intros d' v' H'; apply (H d' v'); now right).
  apply blend_observation_other. apply (H d v). now left.
Qed.

Lemma blend_fold_hit (obs : list (Z * Q)) (d : Z) (v : Q) (j : nat) :
  NoDup (map fst obs) ->
  In (d, v) obs ->
  find_index d x_interp = Some j ->
  forall y,
    (j < List.length y)%nat ->
    nth j (fold_left (blend_observation w_obs w_curve x_interp) obs y) NaN
    = (Fin w_obs * Fin v + Fin w_curve * nth j y NaN)%np.
Proof.
  intros Hnd Hin Hf.
  assert (Hother : forall d', d' <> d -> find_index d' x_interp <> Some j).
  { intros d' Hne E. apply find_index_bound in E. apply find_index_bound in Hf.
    destruct E as [_ E], Hf as [_ Hf]. congruence. }
  induction obs as [|[d0 v0] r IH]; [contradiction|]. intros y Hj.
  simpl in Hnd. inversion Hnd as [|? ? Hd0 Hr]; subst. cbn [fold_left].
  destruct Hin as [E|Hin].
  - inversion E; subst d0 v0.
    rewrite blend_fold_untouched.
    + unfold blend_observation. rewrite Hf. now apply nth_upd_same.
    + intros d' v' H'. apply Hother. intros ->. apply Hd0.
      apply in_map_iff. now exists (d, v').
  - assert (Hne : d0 <> d).
    { intros ->. apply Hd0. apply in_map_iff. now exists (d, v). }
    rewrite (IH Hr Hin) by (now rewrite blend_observation_length).
    rewrite blend_observation_other by (now apply Hother). reflexivity.
Qed.

End BlendCells.

Lemma map_fst_combine {A B : Type} (a : list A) (b : list B) :
  List.length a = List.length b -> map fst (combine a b) = a.
Proof.
  revert b. induction a as [|x r IH]; intros [|y q] H; simpl in *;
    try discriminate; [reflexivity|]. f_equal. apply IH. lia.
Qed.

Lemma obs_days_nodup (s : analyzer) :
  NoDup (x_obs_of s) ->
  NoDup (map fst (combine (x_obs_of s) (y_obs_of s))).
Proof.
  intro H. rewrite map_fst_combine; [exact H|].
  now rewrite x_obs_of_length, y_obs_of_length.
Qed.

(** X13.  Logistic reconstruction with observations on distinct days: a
    reconstructed day that carries an observation holds
    [0.8 * observed + 0.2 * curve], and a day that carries none holds the
    curve itself. *)
Theorem sigmoid_interpolation_cells (L : library) (s : analyzer)
    (x_interp : list Z) (j : nat) :
  NoDup (x_obs_of s) ->
  let obs := combine (x_obs_of s) (y_obs_of s) in
  let curve := sigmoid_curve L (series_max (ndvi_values s)) x_interp in
  (forall d v, In (d, v) obs -> find_index d x_interp = Some j ->
     nth j (_sigmoid_interpolation L s x_interp) NaN
     = (Fin 0.8 * Fin v + Fin 0.2 * nth j curve NaN)%np) /\
  ((forall d v, In (d, v) obs -> find_index d x_interp <> Some j) ->
   nth j (_sigmoid_interpolation L s x_interp) NaN = nth j curve NaN).
Proof.
  intros Hnd obs curve. unfold _sigmoid_interpolation. fold obs curve.
  split.
  - intros d v Hin Hf.
    apply (blend_fold_hit 0.8 0.2 x_interp obs d v j);
      [now apply obs_days_nodup | exact Hin | exact Hf |].
    unfold curve, sigmoid_curve. rewrite !length_map.
    apply (find_index_bound _ _ _ Hf).
  - intro H. now apply blend_fold_untouched.
Qed.

Lemma sigmoid_interpolation_cells_witness :
  let s := init 0 300 [mkObs 10 0.2; mkObs 100 0.8] in
  let x_interp := date_range 0 300 in
  let obs := combine (x_obs_of s) (y_obs_of s) in
  let curve :=
    sigmoid_curve trivial_library (series_max (ndvi_values s)) x_interp in
  (forall d v, In (d, v) obs -> find_index d x_interp = Some 100%nat ->
     nth 100 (_sigmoid_interpolation trivial_library s x_interp) NaN
     = (Fin 0.8 * Fin v + Fin 0.2 * nth 100 curve NaN)%np) /\
  ((forall d v, In (d, v) obs -> find_index d x_interp <> Some 100%nat) ->
   nth 100 (_sigmoid_interpolation trivial_library s x_interp) NaN
   = nth 100 curve NaN).
Proof.
  intros s x_interp.
  apply (sigmoid_interpolation_cells trivial_library s x_interp 100).
  repeat constructor; simpl; intuition discriminate.
Defined.

(** X14.  Physiological reconstruction with observations on distinct
    days: a reconstructed day that carries an observation holds
    [0.7 * observed + 0.3 * curve], and a day that carries none holds the
    stage curve itself, whatever the observations are. *)
Theorem physiological_interpolation_cells (L : library) (s : analyzer)
    (x_interp : list Z) (j : nat) :
  NoDup (x_obs_of s) ->
  let obs := combine (x_obs_of s) (y_obs_of s) in
  let curve :=
    zip_with (physiological_phase L (max_Z x_interp))
             (seq 0 (List.length x_interp)) x_interp in
  (forall d v, In (d, v) obs -> find_index d x_interp = Some j ->
     nth j (_physiological_interpolation L s x_interp) NaN
     = (Fin 0.7 * Fin v + Fin 0.3 * nth j curve NaN)%np) /\
  ((forall d v, In (d, v) obs -> find_index d x_interp <> Some j) ->
   nth j (_physiological_interpolation L s x_interp) NaN = nth j curve NaN).
Proof.
  intros Hnd obs curve. unfold _physiological_interpolation. fold obs curve.
  split.
  - intros d v Hin Hf.
    apply (blend_fold_hit 0.7 0.3 x_interp obs d v j);
      [now apply obs_days_nodup | exact Hin | exact Hf |].
    unfold curve. rewrite zip_with_length, length_seq, Nat.min_id.
    apply (find_index_bound _ _ _ Hf).
  - intro H. now apply blend_fold_untouched.
Qed.

Lemma physiological_interpolation_cells_witness :
  let s := init 0 300 [mkObs 10 0.2; mkObs 100 0.8] in
  let x_interp := date_range 0 300 in
  let obs := combine (x_obs_of s) (y_obs_of s) in
  let curve :=
    zip_with (physiological_phase trivial_library (max_Z x_interp))
             (seq 0 (List.length x_interp)) x_interp in
  (forall d v, In (d, v) obs -> find_index d x_interp = Some 100%nat ->
     nth 100 (_physiological_interpolation trivial_library s x_interp) NaN
     = (Fin 0.7 * Fin v + Fin 0.3 * nth 100 curve NaN)%np) /\
  ((forall d v, In (d, v) obs -> find_index d x_interp <> Some 100%nat) ->
   nth 100 (_physiological_interpolation trivial_library s x_interp) NaN
   = nth 100 curve NaN).
Proof.
  intros s x_interp.
  apply (physiological_interpolation_cells trivial_library s x_interp 100).
  repeat constructor; simpl; intuition discriminate.
Defined.

(** ** Ranges before clipping *)

Lemma Forall_upd {A : Type} (P : A -> Prop) (l : list A) (i : nat) (v : A) :
  Forall P l -> ((i < List.length l)%nat -> P v) -> Forall P (upd i v l).
Proof.
  intro H. revert i. induction H as [|a r Ha Hr IH]; intros [|i] Hv; simpl.
  - constructor.
  - constructor.
  - constructor; [apply Hv; simpl; lia | exact Hr].
  - constructor; [exact Ha|]. apply IH. intro Hi. apply Hv. simpl. lia.
Qed.

Lemma Forall_nth_unit (l : list npfloat) (i : nat) :
  Forall in_unit l -> (i < List.length l)%nat ->
  exists a, nth i l NaN = Fin a /\ 0 <= a <= 1.
Proof.
  intros H Hi. rewrite Forall_forall in H.
  specialize (H (nth i l NaN) (nth_In l NaN Hi)).
  destruct (nth i l NaN) as [a| | |]; simpl in H; try contradiction.
  now exists a.
Qed.

(** Blending an observation of [0,1] into a series of [0,1] with weights
    that add up to one stays in [0,1]. *)
Lemma blend_fold_unit (w_obs w_curve : Q) (x_interp : list Z)
    (obs : list (Z * Q)) :
  0 <= w_obs -> 0 <= w_curve -> w_obs + w_curve == 1 ->
  (forall d v, In (d, v) obs -> 0 <= v <= 1) ->
  forall y, Forall in_unit y ->
            Forall in_unit
              (fold_left (blend_observation w_obs w_curve x_interp) obs y).
Proof.
  intros H1 H2 H3. induction obs as [|[d v] r IH]; intros Hobs y Hy;
    [exact Hy|].
  cbn [fold_left]. apply IH; [intros d' v' H'; apply (Hobs d' v'); now right|].
  unfold blend_observation.
  destruct (find_index d x_interp) as [idx|]; [|exact Hy].
  apply Forall_upd; [exact Hy|]. intro Hi.
  destruct (Forall_nth_unit y idx Hy Hi) as (a & -> & Ha).
  pose proof (Hobs d v (or_introl eq_refl)) as Hv.
  simpl. split; nra.
Qed.

Lemma sigmoid_cell (L : library) (p : Q) (x : Z) :
  (forall z, 0 < np_exp L z) ->
  ~ p == 0 ->
  exists c,
    (Fin 0.05
     + (Fin p - Fin 0.05)
       * (Fin p / (Fin 1 + fexp L (fopp (Fin 0.02) * of_Z (x - 240))))
       / Fin p)%np = Fin c /\
    c == 0.05 + (p - 0.05) / (1 + np_exp L (Qopp 0.02 * inject_Z (x - 240))) /\
    (0.05 <= p -> 0.05 <= c <= p) /\
    (p <= 0.05 -> p <= c <= 0.05).
Proof.
  intros Hexp Hp.
  cbn [fopp fmul of_Z fexp fadd fsub].
  set (e := np_exp L (- (0.02) * inject_Z (x - 240))).
  assert (He : 0 < e) by apply Hexp.
  assert (Z1 : is_zero (1 + e) = false) by (apply is_zero_false_iff; lra).
  assert (Zp : is_zero p = false) by (now apply is_zero_false_iff).
  cbn [fdiv]. rewrite Z1. cbn [fmul fdiv]. rewrite Zp. cbn [fadd].
  eexists. split; [reflexivity|].
  assert (E : 0.05 + (p + - (0.05)) * (p / (1 + e)) / p
              == 0.05 + (p - 0.05) / (1 + e)) by (field; split; lra).
  split; [exact E|]. rewrite E.
  assert (Hr : 0 < / (1 + e)) by (apply Qinv_lt_0_compat; lra).
  assert (Hr1 : / (1 + e) * (1 + e) == 1) by (field; lra).
  unfold Qdiv. set (r := / (1 + e)) in *.
  split; intro H; split; nra.
Qed.

(** X15.  With a non-zero observed peak [p] (and a positive [exp]) the two
    steps of the logistic curve cancel the division by the peak: the cell
    of day [x] is [0.05 + (p - 0.05) / (1 + exp(-0.02 * (x - 240)))], a
    finite value between the baseline 0.05 and the peak. *)
Theorem sigmoid_curve_closed_form (L : library) (p : Q) (x_interp : list Z)
    (j : nat) :
  (forall z, 0 < np_exp L z) ->
  ~ p == 0 ->
  (j < List.length x_interp)%nat ->
  exists c,
    nth j (sigmoid_curve L (Fin p) x_interp) NaN = Fin c /\
    c == 0.05
         + (p - 0.05)
           / (1 + np_exp L (Qopp 0.02 * inject_Z (nth j x_interp 0%Z - 240))) /\
    (0.05 <= p -> 0.05 <= c <= p) /\
    (p <= 0.05 -> p <= c <= 0.05).
Proof.
  intros Hexp Hp Hj. unfold sigmoid_curve. rewrite map_map.
  rewrite (nth_map_in _ x_interp j 0%Z) by exact Hj.
  now apply sigmoid_cell.
Qed.

Lemma sigmoid_curve_closed_form_witness :
  exists c,
    nth 240 (sigmoid_curve trivial_library (Fin 0.8) (date_range 0 300)) NaN
    = Fin c /\
    c == 0.05
         + (0.8 - 0.05)
           / (1 + np_exp trivial_library
                    (Qopp 0.02
                     * inject_Z (nth 240 (date_range 0 300) 0%Z - 240))) /\
    (0.05 <= 0.8 -> 0.05 <= c <= 0.8) /\
    (0.8 <= 0.05 -> 0.8 <= c <= 0.05).
Proof.
  apply (sigmoid_curve_closed_form trivial_library 0.8 (date_range 0 300) 240).
  - intro z. reflexivity.
  - vm_compute. discriminate.
  - vm_compute. lia.
Defined.

(** X16.  Logistic reconstruction of observations that lie in [0,1], one
    of them above zero: every day of the series is a finite value of
    [0,1] before any clipping. *)
Theorem sigmoid_interpolation_unit (L : library) (s : analyzer)
    (x_interp : list Z) :
  (forall z, 0 < np_exp L z) ->
  unit_observations s ->
  (exists o, In o (ndvi_data s) /\ 0 < NDVI o) ->
  Forall in_unit (_sigmoid_interpolation L s x_interp).
Proof.
  intros Hexp Hunit (o & Ho & Hpos).
  destruct (series_max_spec (ndvi_values s)) as (m & Hm & Hin & Hmax).
  { intro E. unfold ndvi_values in E.
    destruct (ndvi_data s); [contradiction | discriminate]. }
  assert (Hm01 : 0 < m <= 1).
  { unfold ndvi_values in Hin. apply in_map_iff in Hin.
    destruct Hin as (o' & <- & Ho'). split; [|apply (Hunit o' Ho')].
    assert (H := Hmax (NDVI o) (in_map NDVI _ _ Ho)). lra. }
  unfold _sigmoid_interpolation. rewrite Hm.
  apply blend_fold_unit; try lra.
  - intros d v Hdv. apply in_combine_r in Hdv.
    unfold y_obs_of, ndvi_values in Hdv. apply in_map_iff in Hdv.
    destruct Hdv as (o' & <- & Ho'). apply (Hunit o' Ho').
  - unfold sigmoid_curve. rewrite map_map. apply Forall_forall.
    intros y Hy. apply in_map_iff in Hy. destruct Hy as (x & <- & _).
    destruct (sigmoid_cell L m x Hexp) as (c & -> & _ & H1 & H2); [lra|].
    simpl. destruct (Qlt_le_dec m 0.05) as [Hlt|Hge].
    + specialize (H2 (Qlt_le_weak _ _ Hlt)). lra.
    + specialize (H1 Hge). lra.
Qed.

Lemma sigmoid_interpolation_unit_witness :
  Forall in_unit
    (_sigmoid_interpolation trivial_library
       (init 0 300 [mkObs 10 0.2; mkObs 100 0.8]) (date_range 0 300)).
Proof.
  apply (sigmoid_interpolation_unit trivial_library
           (init 0 300 [mkObs 10 0.2; mkObs 100 0.8]) (date_range 0 300)).
  - intro z. reflexivity.
  - intros o [<-|[<-|[]]]; vm_compute; split; discriminate.
  - exists (mkObs 10 0.2). split; [now left | reflexivity].
Defined.

Lemma inject_Z_pos (z : Z) : (0 < z)%Z -> 0 < inject_Z z.
Proof. intro H. change 0 with (inject_Z 0). now rewrite <- Zlt_Qlt. Qed.

Lemma inject_Z_nonneg (z : Z) : (0 <= z)%Z -> 0 <= inject_Z z.
Proof. intro H. change 0 with (inject_Z 0). now rewrite <- Zle_Qle. Qed.

Lemma inject_Z_nonpos (z : Z) : (z <= 0)%Z -> inject_Z z <= 0.
Proof. intro H. change 0 with (inject_Z 0). now rewrite <- Zle_Qle. Qed.

Lemma progress_unit (d a b : Z) :
  (a < b)%Z -> (a <= d <= b)%Z ->
  exists q, progress_of d a b = Fin q /\ 0 <= q <= 1.
Proof.
  intros Hab Hd. unfold progress_of, of_Z. cbn [fdiv].
  assert (Hpos : 0 < inject_Z (b - a)) by (apply inject_Z_pos; lia).
  assert (Z0 : is_zero (inject_Z (b - a)) = false)
    by (apply is_zero_false_iff; lra).
  rewrite Z0. eexists. split; [reflexivity|].
  destruct (Qdiv_bounds (inject_Z (d - a)) (inject_Z (b - a)) Hpos)
    as (_ & _ & B3 & B4).
  split.
  - apply B3. apply inject_Z_nonneg. lia.
  - apply B4. rewrite <- Zle_Qle. lia.
Qed.

Lemma blend_unit (w t a : Q) :
  0 <= w <= 1 -> 0 <= t <= 1 -> 0 <= a <= 1 ->
  exists c, blend (Fin w) (Fin t) (Fin a) = Fin c /\ 0 <= c <= 1.
Proof.
  intros Hw Ht Ha. unfold blend. simpl. eexists. split; [reflexivity|].
  split; nra.
Qed.

Lemma fold_max_ge (r : list Z) (a : Z) :
  (a <= fold_left Z.max r a)%Z /\
  forall x, In x r -> (x <= fold_left Z.max r a)%Z.
Proof.
  revert a. induction r as [|b r IH]; intro a; simpl.
  - split; [lia | intros x []].
  - destruct (IH (Z.max a b)) as [H1 H2]. split; [lia|].
    intros x [<-|Hx]; [lia | now apply H2].
Qed.

Lemma max_Z_ge (l : list Z) (x : Z) : In x l -> (x <= max_Z l)%Z.
Proof.
  destruct l as [|a r]; [contradiction|]. unfold max_Z.
  destruct (fold_max_ge r a) as [H1 H2].
  intros [<-|Hx]; [exact H1 | now apply H2].
Qed.

Lemma np_mean_fin (l : list Z) : l <> [] -> exists m, np_mean l = Fin m.
Proof.
  intro H. unfold np_mean, of_Z. cbn [fdiv].
  assert (Z0 : is_zero (inject_Z (Z.of_nat (List.length l))) = false).
  { apply is_zero_false_iff.
    assert (0 < inject_Z (Z.of_nat (List.length l))).
    { apply inject_Z_pos. destruct l; [congruence | simpl; lia]. }
    lra. }
  rewrite Z0. eexists. reflexivity.
Qed.

Lemma zip_with_map_same {A B C : Type} (f : A -> B -> C) (g : A -> B)
    (xs : list A) :
  zip_with f xs (map g xs) = map (fun x => f x (g x)) xs.
Proof. induction xs as [|x r IH]; simpl; [reflexivity | now rewrite IH]. Qed.

Section GuidedRange.

Variable L : library.
Hypothesis exp_pos : forall z, 0 < np_exp L z.
Hypothesis exp_le_1 : forall z, z <= 0 -> np_exp L z <= 1.

Lemma baseline_unit (peak : Q) (z : Q) :
  0 <= peak <= 1 ->
  exists c,
    (Fin 0.05 + (Fin peak - Fin 0.05) / (Fin 1 + fexp L (Fin z)))%np = Fin c /\
    0 <= c <= 1.
Proof.
  intro Hp. cbn [fexp fadd fsub fopp].
  set (e := np_exp L z). assert (He : 0 < e) by apply exp_pos.
  assert (Z1 : is_zero (1 + e) = false) by (apply is_zero_false_iff; lra).
  cbn [fdiv]. rewrite Z1. cbn [fadd]. eexists. split; [reflexivity|].
  assert (Hr : 0 < / (1 + e)) by (apply Qinv_lt_0_compat; lra).
  assert (Hr1 : / (1 + e) * (1 + e) == 1) by (field; lra).
  unfold Qdiv. set (r := / (1 + e)) in *. split; nra.
Qed.

Lemma balanced_phase_unit (x_max days : Z) (a : Q) :
  0 <= a <= 1 ->
  ((270 <= days)%Z -> (days <= x_max)%Z /\ (270 < x_max)%Z) ->
  exists c, balanced_phase L x_max days (Fin a) = Fin c /\ 0 <= c <= 1.
Proof.
  intros Ha Hlast. unfold balanced_phase.
  unfold emergence_day, tillering_start, stem_elongation_start,
    booting_start, flowering_start, grain_filling_start, maturity_start.
  destruct (Z.ltb_spec days 10).
  { cbn [of_Z fdiv]. change (is_zero 5) with false.
    cbn [fexp fsub fopp fadd fmul].
    set (e := np_exp L (inject_Z (- (10 - days)) / 5)).
    assert (He : 0 < e <= 1).
    { split; [apply exp_pos|]. apply exp_le_1.
      assert (inject_Z (- (10 - days)) <= 0) by (apply inject_Z_nonpos; lia).
      unfold Qdiv. 
      assert (0 < / 5) by reflexivity. nra. }
    eexists. split; [reflexivity|]. split; nra. }
  destruct (Z.ltb_spec days 45).
  { destruct (progress_unit days 10 45) as (q & -> & Hq); try lia.
    cbn [fmul fadd]. apply blend_unit; lra. }
  destruct (Z.ltb_spec days 120).
  { destruct (progress_unit days 45 120) as (q & -> & Hq); try lia.
    cbn [fmul fadd]. apply blend_unit; lra. }
  destruct (Z.ltb_spec days 200).
  { destruct (progress_unit days 120 200) as (q & -> & Hq); try lia.
    cbn [fmul fadd]. apply blend_unit; lra. }
  destruct (Z.ltb_spec days 230).
  { destruct (progress_unit days 200 230) as (q & -> & Hq); try lia.
    cbn [fmul fadd]. apply blend_unit; lra. }
  destruct (Z.ltb_spec days 245).
  { apply blend_unit; lra. }
  destruct (Z.ltb_spec days 270).
  { destruct (progress_unit days 245 270) as (q & -> & Hq); try lia.
    cbn [fmul fadd fsub fopp]. apply blend_unit; lra. }
  destruct Hlast as [Hlast1 Hlast2]; [assumption|].
  destruct (progress_unit days 270 x_max) as (q & -> & Hq); try lia.
  cbn [fmul fadd fsub fopp]. apply blend_unit; lra.
Qed.

Lemma near_value_unit (obs_day : Z) (obs_ndvi : Q) (x : Z) (a : Q) :
  0 <= obs_ndvi <= 1 -> 0 <= a <= 1 ->
  exists c, near_value L obs_day obs_ndvi x (Fin a) = Fin c /\ 0 <= c <= 1.
Proof.
  intros Hv Ha. unfold near_value.
  destruct (Z.abs (x - obs_day) <? 50)%Z; [|now exists a].
  cbn [of_Z fdiv]. change (is_zero 15) with false.
  cbn [fexp fsub fopp fadd fmul].
  set (e := np_exp L (inject_Z (- Z.abs (x - obs_day)) / 15)).
  assert (He : 0 < e <= 1).
  { split; [apply exp_pos|]. apply exp_le_1.
    assert (inject_Z (- Z.abs (x - obs_day)) <= 0)
      by (apply inject_Z_nonpos; lia).
    unfold Qdiv. assert (0 < / 15) by reflexivity. nra. }
  eexists. split; [reflexivity|]. split; nra.
Qed.

Lemma pull_near_unit (x_interp : list Z) idx obs_day obs_ndvi
    (y : list npfloat) (i : nat) :
  0 <= obs_ndvi <= 1 -> Forall in_unit y ->
  Forall in_unit (pull_near L x_interp idx obs_day obs_ndvi y i).
Proof.
  intros Hv Hy. unfold pull_near.
  destruct (i =? idx)%nat; [exact Hy|].
  destruct (Z.abs (nth i x_interp 0%Z - obs_day) <? 50)%Z eqn:E;
    [|exact Hy].
  apply Forall_upd; [exact Hy|]. intro Hi.
  destruct (Forall_nth_unit y i Hy Hi) as (a & Ea & Ha).
  destruct (near_value_unit obs_day obs_ndvi (nth i x_interp 0%Z) a Hv Ha)
    as (c & Hc & Hc01).
  unfold near_value in Hc. rewrite E in Hc. cbv zeta in Hc.
  rewrite Ea, Hc. exact Hc01.
Qed.

Lemma pull_observation_unit (x_interp : list Z) (y : list npfloat)
    (obs_day : Z) (obs_ndvi : Q) :
  0 <= obs_ndvi <= 1 -> Forall in_unit y ->
  Forall in_unit (pull_observation L x_interp y (obs_day, obs_ndvi)).
Proof.
  intros Hv Hy. unfold pull_observation.
  destruct (find_index obs_day x_interp) as [idx|]; [|exact Hy].
  assert (H1 : Forall in_unit
            (upd idx (Fin 0.9 * Fin obs_ndvi + Fin 0.1 * nth idx y NaN)%np y)).
  { apply Forall_upd; [exact Hy|]. intro Hi.
    destruct (Forall_nth_unit y idx Hy Hi) as (a & -> & Ha).
    simpl. split; lra. }
  revert H1. generalize (upd idx (Fin 0.9 * Fin obs_ndvi
                                  + Fin 0.1 * nth idx y NaN)%np y).
  induction (seq 0 (List.length x_interp)) as [|i r IH]; intros y1 H1;
    [exact H1|].
  cbn [fold_left]. apply IH. now apply pull_near_unit.
Qed.

Lemma pull_fold_unit (x_interp : list Z) (obs : list (Z * Q)) :
  (forall d v, In (d, v) obs -> 0 <= v <= 1) ->
  forall y, Forall in_unit y ->
            Forall in_unit (fold_left (pull_observation L x_interp) obs y).
Proof.
  induction obs as [|[d v] r IH]; intros Hobs y Hy; [exact Hy|].
  cbn [fold_left]. apply IH; [intros d' v' H'; apply (Hobs d' v'); now right|].
  apply pull_observation_unit; [apply (Hobs d v); now left | exact Hy].
Qed.

Lemma balanced_constrained_unit (peak : Q) (m : Q) (x_interp : list Z) :
  0 <= peak <= 1 ->
  max_Z x_interp <> 270%Z ->
  Forall in_unit (balanced_constrained L peak (Fin m) x_interp).
Proof.
  intros Hp Hmax. unfold balanced_constrained. cbv zeta.
  rewrite zip_with_map_same. apply Forall_forall. intros y Hy.
  apply in_map_iff in Hy. destruct Hy as (x & <- & Hx).
  cbn [fopp fmul of_Z fsub fadd].
  destruct (baseline_unit peak (- (0.02) * (inject_Z x + - m)) Hp)
    as (b & Hb & Hb01).
  cbn [fexp fadd fsub fopp] in Hb. cbn [fexp]. rewrite Hb.
  destruct (balanced_phase_unit (max_Z x_interp) x b Hb01) as (c & -> & Hc).
  - intro H270. pose proof (max_Z_ge x_interp x Hx). lia.
  - exact Hc.
Qed.

End GuidedRange.

Lemma unit_observation_values (s : analyzer) :
  unit_observations s ->
  forall d v, In (d, v) (combine (x_obs_of s) (y_obs_of s)) -> 0 <= v <= 1.
Proof.
  intros Hunit d v Hdv. apply in_combine_r in Hdv.
  unfold y_obs_of, ndvi_values in Hdv. apply in_map_iff in Hdv.
  destruct Hdv as (o & <- & Ho). now apply Hunit.
Qed.

(** X17.  Guided reconstruction of a non-empty table of observations that
    lie in [0,1], with an [exp] that is positive and at most 1 on
    non-positive arguments, on a series of days whose last day is not day
    270: the series handed to the smoothing filter has one finite value
    of [0,1] per day.  The baseline, the phase blending and the
    observation pull never leave the unit interval. *)
Theorem balanced_interpolation_unit (L : library) (s : analyzer)
    (x_interp : list Z) :
  (forall z, 0 < np_exp L z) ->
  (forall z, z <= 0 -> np_exp L z <= 1) ->
  unit_observations s ->
  ndvi_data s <> [] ->
  max_Z x_interp <> 270%Z ->
  exists ys,
    _balanced_interpolation L s x_interp = Ok (gaussian_filter1d L ys) /\
    List.length ys = List.length x_interp /\
    Forall in_unit ys.
Proof.
  intros Hpos Hle Hunit Hne Hmax.
  destruct (series_max_spec (y_obs_of s)) as (m & Hm & Hin & _).
  { intro E. pose proof (y_obs_of_length s) as Hl. rewrite E in Hl.
    destruct (ndvi_data s); [congruence | discriminate]. }
  assert (Hm01 : 0 <= m <= 1).
  { unfold y_obs_of, ndvi_values in Hin. apply in_map_iff in Hin.
    destruct Hin as (o & <- & Ho). now apply Hunit. }
  destruct (np_mean_fin (x_obs_of s)) as (mu & Hmu).
  { intro E. pose proof (x_obs_of_length s) as Hl. rewrite E in Hl.
    destruct (ndvi_data s); [congruence | discriminate]. }
  unfold _balanced_interpolation, np_max. rewrite Hm. cbn [bind].
  rewrite Hmu. eexists. split; [reflexivity|]. split.
  - rewrite pull_fold_length. apply balanced_constrained_length.
  - apply pull_fold_unit; try assumption.
    + now apply unit_observation_values.
    + now apply balanced_constrained_unit.
Qed.

Lemma balanced_interpolation_unit_witness :
  exists ys,
    _balanced_interpolation trivial_library (init 0 300 [mkObs 121 0.85])
                            (date_range 0 300)
    = Ok (gaussian_filter1d trivial_library ys) /\
    List.length ys = List.length (date_range 0 300) /\
    Forall in_unit ys.
Proof.
  apply (balanced_interpolation_unit trivial_library
           (init 0 300 [mkObs 121 0.85]) (date_range 0 300)).
  - intro z. reflexivity.
  - intros z _. vm_compute. discriminate.
  - intros o [<-|[]]. vm_compute. split; discriminate.
  - discriminate.
  - vm_compute. discriminate.
Defined.

(** The overlap of two pulls does not depend on the library: with any
    [exp] that is positive and at most 1 on non-positive arguments, the
    observations of days 100 and 110 leave the cell of day 100 above
    [0.9 * 0.5 + 0.1 * (its value before the observation pull)]. *)
Lemma balanced_pull_overlap (L : library) :
  (forall z, 0 < np_exp L z) ->
  (forall z, z <= 0 -> np_exp L z <= 1) ->
  let s := init 0 300 [mkObs 100 0.5; mkObs 110 0.9] in
  let x_interp := map (fun d => (d - 0)%Z) (date_range 0 300) in
  exists pre ys after,
    nth_error (balanced_constrained L 0.9 (np_mean (x_obs_of s)) x_interp) 100
    = Some (Fin pre) /\
    _balanced_interpolation L s x_interp = Ok (gaussian_filter1d L ys) /\
    nth_error ys 100 = Some (Fin after) /\
    0.9 * 0.5 + 0.1 * pre < after.
Proof.
  intros Hpos Hle s x_interp.
  set (y0 := balanced_constrained L 0.9 (np_mean (x_obs_of s)) x_interp).
  assert (Hlen0 : List.length y0 = List.length x_interp)
    by apply balanced_constrained_length.
  assert (Hx : List.length x_interp = 301%nat) by (vm_compute; reflexivity).
  assert (Hunit : Forall in_unit y0).
  { unfold y0. change (np_mean (x_obs_of s)) with (Fin (210 / 2)).
    apply balanced_constrained_unit; try assumption.
    - split; [vm_compute; discriminate | vm_compute; discriminate].
    - vm_compute. discriminate. }
  destruct (Forall_nth_unit y0 100 Hunit) as (a & Ha & Ha01); [lia|].
  set (y1 := pull_observation L x_interp y0 (100%Z, 0.5)).
  set (y2 := pull_observation L x_interp y1 (110%Z, 0.9)).
  assert (Hlen1 : List.length y1 = List.length x_interp)
    by (unfold y1; now rewrite pull_observation_length).
  assert (H1 : nth 100 y1 NaN = Fin (0.9 * 0.5 + 0.1 * a)).
  { unfold y1. rewrite (pull_observation_at L x_interp y0 100 0.5 100 Hlen0);
      [now rewrite Ha | vm_compute; reflexivity]. }
  assert (H2 : nth 100 y2 NaN
               = near_value L 110 0.9 100 (Fin (0.9 * 0.5 + 0.1 * a))).
  { unfold y2.
    rewrite (pull_observation_other L x_interp y1 110 0.9 110 100 Hlen1);
      [ | vm_compute; reflexivity | lia | lia].
    rewrite H1. f_equal. }
  unfold near_value in H2.
  change (Z.abs (100 - 110) <? 50)%Z with true in H2. cbv zeta in H2.
  cbn [of_Z fdiv] in H2. change (is_zero 15) with false in H2.
  cbn [fexp fsub fopp fadd fmul] in H2.
  set (e := np_exp L (inject_Z (- Z.abs (100 - 110)) / 15)) in H2.
  assert (He : 0 < e) by apply Hpos.
  exists a. exists y2. eexists.
  split; [rewrite (nth_error_nth' _ NaN) by lia; now rewrite Ha|].
  split; [reflexivity|].
  split.
  - rewrite (nth_error_nth' _ NaN)
      by (unfold y2; rewrite pull_observation_length; lia).
    rewrite H2. reflexivity.
  - nra.
Qed.

Lemma Forall_zip_with {A B C : Type} (P : C -> Prop) (f : A -> B -> C)
    (xs : list A) (ys : list B) :
  (forall a b, In a xs -> In b ys -> P (f a b)) ->
  Forall P (zip_with f xs ys).
Proof.
  revert ys. induction xs as [|x r IH]; intros [|y q] H; simpl;
    try constructor.
  - apply H; now left.
  - apply IH. intros a b Ha Hb. apply H; now right.
Qed.

Lemma physiological_phase_unit (L : library) (x_max : Z) (i : nat)
    (days : Z) :
  0 <= np_random_random L i <= 1 ->
  ((270 <= days)%Z -> (days <= x_max)%Z /\ (270 < x_max)%Z) ->
  exists c, physiological_phase L x_max i days = Fin c /\ 0 <= c <= 1.
Proof.
  intros Hr Hlast. unfold physiological_phase.
  unfold emergence_day, tillering_start, stem_elongation_start,
    booting_start, heading_start, flowering_start, grain_filling_start,
    maturity_start.
  destruct (Z.ltb_spec days 10).
  { cbn [fmul fadd]. eexists. split; [reflexivity|]. lra. }
  destruct (Z.ltb_spec days 45).
  { destruct (progress_unit days 10 45) as (q & -> & Hq); try lia.
    cbn [fmul fadd]. eexists. split; [reflexivity|]. lra. }
  destruct (Z.ltb_spec days 120).
  { destruct (progress_unit days 45 120) as (q & -> & Hq); try lia.
    cbn [fmul fadd]. eexists. split; [reflexivity|]. lra. }
  destruct (Z.ltb_spec days 200).
  { destruct (progress_unit days 120 200) as (q & -> & Hq); try lia.
    cbn [fmul fadd]. eexists. split; [reflexivity|]. lra. }
  destruct (Z.ltb_spec days 220).
  { destruct (progress_unit days 200 220) as (q & -> & Hq); try lia.
    cbn [fmul fadd]. eexists. split; [reflexivity|]. lra. }
  destruct (Z.ltb_spec days 230).
  { destruct (progress_unit days 220 230) as (q & -> & Hq); try lia.
    cbn [fmul fadd]. eexists. split; [reflexivity|]. lra. }
  destruct (Z.ltb_spec days 245).
  { cbn [fmul fadd]. eexists. split; [reflexivity|]. lra. }
  destruct (Z.ltb_spec days 270).
  { destruct (progress_unit days 245 270) as (q & -> & Hq); try lia.
    cbn [fmul fadd fsub fopp]. eexists. split; [reflexivity|]. lra. }
  destruct Hlast as [Hlast1 Hlast2]; [assumption|].
  destruct (progress_unit days 270 x_max) as (q & -> & Hq); try lia.
  cbn [fmul fadd fsub fopp]. eexists. split; [reflexivity|]. lra.
Qed.

(** X18.  Physiological reconstruction of observations that lie in [0,1],
    with random draws in [0,1], on a series of days whose last day is not
    day 270: every day of the series is a finite value of [0,1] before
    any clipping. *)
Theorem physiological_interpolation_unit (L : library) (s : analyzer)
    (x_interp : list Z) :
  (forall k, 0 <= np_random_random L k <= 1) ->
  unit_observations s ->
  max_Z x_interp <> 270%Z ->
  Forall in_unit (_physiological_interpolation L s x_interp).
Proof.
  intros Hr Hunit Hmax. unfold _physiological_interpolation.
  apply blend_fold_unit; try lra.
  - now apply unit_observation_values.
  - apply Forall_zip_with. intros i x _ Hx.
    destruct (physiological_phase_unit L (max_Z x_interp) i x (Hr i))
      as (c & -> & Hc); [|exact Hc].
    intro H270. pose proof (max_Z_ge x_interp x Hx). lia.
Qed.

Lemma physiological_interpolation_unit_witness :
  Forall in_unit
    (_physiological_interpolation trivial_library
       (init 0 300 [mkObs 10 0.2; mkObs 100 0.8]) (date_range 0 300)).
Proof.
  apply (physiological_interpolation_unit trivial_library
           (init 0 300 [mkObs 10 0.2; mkObs 100 0.8]) (date_range 0 300)).
  - intro k. vm_compute. split; discriminate.
  - intros o [<-|[<-|[]]]; vm_compute; split; discriminate.
  - vm_compute. discriminate.
Defined.

(** ** Stage segmenter: the peak, the errors, a second run *)

Lemma idxmax_from_none (l : list npfloat) :
  forall i best,
    idxmax_from i best l = None <-> best = None /\ all_nan l.
Proof.
  unfold all_nan.
  induction l as [|v r IH]; intros i best; cbn [idxmax_from].
  - destruct best as [[bi b]|]; simpl; split.
    + discriminate.
    + intros [H _]. discriminate.
    + intros _. split; [reflexivity | constructor].
    + reflexivity.
  - rewrite IH. destruct v as [a| | |]; cbn [is_nan];
      try (split; [intros [H _]; destruct best as [[? ?]|];
                   [destruct (flt _ _)|]; discriminate
                  | intros [_ H]; inversion H; discriminate]).
    split.
    + intros [H1 H2]. split; [exact H1 | now constructor].
    + intros [H1 H2]. split; [exact H1 | now inversion H2].
Qed.

Lemma idxmax_none_iff (l : list npfloat) : idxmax l = None <-> all_nan l.
Proof.
  unfold idxmax. rewrite idxmax_from_none. tauto.
Qed.

(** X19.  The [Flowering] anchor of a returned schedule is the date of the
    first cell that holds the largest index value of the frame, NaN cells
    left aside: no cell is greater and every earlier one is smaller. *)
Theorem estimate_growth_stages_peak (s s' : analyzer)
    (dates : list (stage * Z)) :
  estimate_growth_stages s = Ok (s', dates) ->
  exists df k v,
    daily_ndvi s = Some df /\
    nth_error (NDVI_Interpolated df) k = Some v /\
    v <> NaN /\
    (forall j w, nth_error (NDVI_Interpolated df) j = Some w -> w <> NaN ->
                 flt v w = false) /\
    (forall j w, (j < k)%nat ->
                 nth_error (NDVI_Interpolated df) j = Some w -> w <> NaN ->
                 flt w v = true) /\
    In (Flowering, nth k (Date df) 0%Z) dates.
Proof.
  unfold estimate_growth_stages.
  destruct (daily_ndvi s) as [df|]; [|discriminate].
  destruct (idxmax (NDVI_Interpolated df)) as [k|] eqn:Hk; [|discriminate].
  intro H. inversion H; subst. clear H.
  destruct (idxmax_spec _ _ Hk) as (v & Hv & Hn & Hall & Hfirst).
  exists df, k, v. repeat (split; [assumption|]).
  simpl. tauto.
Qed.

Lemma estimate_growth_stages_peak_witness :
  let s := set_daily_ndvi (init 0 300 []) sample_frame in
  exists df k v,
    daily_ndvi s = Some df /\
    nth_error (NDVI_Interpolated df) k = Some v /\
    v <> NaN /\
    (forall j w, nth_error (NDVI_Interpolated df) j = Some w -> w <> NaN ->
                 flt v w = false) /\
    (forall j w, (j < k)%nat ->
                 nth_error (NDVI_Interpolated df) j = Some w -> w <> NaN ->
                 flt w v = true) /\
    In (Flowering, nth k (Date df) 0%Z)
       (growth_stage_dates 0 300 240).
Proof.
  intro s.
  apply (estimate_growth_stages_peak s
           (set_daily_ndvi s
              (set_growth_stage sample_frame (stage_labels s)))
           (growth_stage_dates 0 300 240)).
  vm_compute. reflexivity.
Defined.

(** X20.  [estimate_growth_stages] raises [AttributeError] when no frame
    was stored.  With a stored frame it returns exactly when some index
    value of the frame is not NaN: on an empty frame and on a frame of NaN
    cells it fails. *)
Theorem estimate_growth_stages_errors (s : analyzer) :
  match daily_ndvi s with
  | None => estimate_growth_stages s = Raise AttributeError
  | Some df =>
      is_ok (estimate_growth_stages s) = true <->
      ~ all_nan (NDVI_Interpolated df)
  end.
Proof.
  unfold estimate_growth_stages.
  destruct (daily_ndvi s) as [df|]; [|reflexivity].
  destruct (idxmax (NDVI_Interpolated df)) as [k|] eqn:Hk.
  - split; [|reflexivity].
    intros _ H. apply idxmax_none_iff in H. congruence.
  - split; [discriminate|].
    intro H. exfalso. apply H. now apply idxmax_none_iff.
Qed.

(** X21.  A run of the segmenter writes the stage column and nothing
    else, and a second run on the session it leaves returns the same
    schedule and leaves the same session: the labels of an earlier run do
    not influence the next. *)
Theorem estimate_growth_stages_again (s s1 : analyzer)
    (dates : list (stage * Z)) :
  estimate_growth_stages s = Ok (s1, dates) ->
  (exists df labels,
     daily_ndvi s = Some df /\
     s1 = set_daily_ndvi s (set_growth_stage df labels)) /\
  estimate_growth_stages s1 = Ok (s1, dates).
Proof.
  unfold estimate_growth_stages.
  destruct (daily_ndvi s) as [df|] eqn:Hdf; [|discriminate].
  destruct (idxmax (NDVI_Interpolated df)) as [k|] eqn:Hk; [|discriminate].
  intro H. inversion H; subst. clear H. split.
  - eexists. eexists. split; reflexivity.
  - cbn [daily_ndvi set_daily_ndvi set_growth_stage NDVI_Interpolated Date
         sowing_date harvest_date].
    rewrite Hk. reflexivity.
Qed.

Lemma estimate_growth_stages_again_witness :
  let s := set_daily_ndvi (init 0 300 []) sample_frame in
  let s1 := set_daily_ndvi s (set_growth_stage sample_frame (stage_labels s)) in
  (exists df labels,
     daily_ndvi s = Some df /\
     s1 = set_daily_ndvi s (set_growth_stage df labels)) /\
  estimate_growth_stages s1 = Ok (s1, growth_stage_dates 0 300 240).
Proof.
  intros s s1.
  apply (estimate_growth_stages_again s s1 (growth_stage_dates 0 300 240)).
  vm_compute. reflexivity.
Defined.

Lemma estimate_growth_stages_rows (s : analyzer) (df : frame) (k : nat) :
  daily_ndvi s = Some df ->
  idxmax (NDVI_Interpolated df) = Some k ->
  let dates :=
    growth_stage_dates (sowing_date s) (harvest_date s)
                       (nth k (Date df) 0%Z) in
  exists labels,
    estimate_growth_stages s
    = Ok (set_daily_ndvi s (set_growth_stage df labels), dates) /\
    List.length labels = List.length (Date df) /\
    forall i d,
      nth_error (Date df) i = Some d ->
      nth_error labels i
      = Some (row_label dates (harvest_date s) d dates Unknown).
Proof.
  intros Hdf Hk dates. unfold estimate_growth_stages. rewrite Hdf, Hk.
  fold dates. eexists. split; [reflexivity|]. split.
  - rewrite assign_fold_length; now rewrite length_map.
  - intros i d Hd. apply assign_fold_row; [exact Hd|].
    rewrite nth_error_map, Hd. reflexivity.
Qed.

(** X22.  A season whose anchors come in the order of the schedule (stem
    elongation before booting, grain filling before maturity): in the
    [Growth_Stage] column of the frame the segmenter stores, every stage
    labels exactly the days from its anchor up to the day before the next
    anchor, and [Harvest] labels the season-end date alone. *)
Theorem stage_intervals_regular (s : analyzer) (df : frame) (k : nat) :
  daily_ndvi s = Some df ->
  Date df = date_range (sowing_date s) (harvest_date s) ->
  idxmax (NDVI_Interpolated df) = Some k ->
  let sowing := sowing_date s in
  let harvest := harvest_date s in
  let peak := nth k (Date df) 0%Z in
  (sowing + 120 < peak - 20)%Z ->
  (peak + 15 < harvest - 25)%Z ->
  exists (s' : analyzer) (df' : frame) (labels : list label),
    estimate_growth_stages s
    = Ok (s', growth_stage_dates sowing harvest peak) /\
    s' = set_daily_ndvi s (set_growth_stage df labels) /\
    daily_ndvi s' = Some df' /\
    Growth_Stage df' = Some labels /\
    Date df' = Date df /\
    forall (i : nat) (d : Z) (st : stage),
      nth_error (Date df') i = Some d ->
      (nth_error labels i = Some (Lab st) <->
       (anchor_date sowing harvest peak st <= d
        < stage_end sowing harvest peak st)%Z).
Proof.
  intros Hdf Hdate Hk sowing harvest peak H1 H2.
  destruct (estimate_growth_stages_rows s df k Hdf Hk)
    as (labels & Hrun & _ & Hrows).
  fold sowing harvest peak in Hrun, Hrows.
  exists (set_daily_ndvi s (set_growth_stage df labels)),
    (set_growth_stage df labels), labels.
  split; [exact Hrun|]. do 4 (split; [reflexivity|]).
  change (Date (set_growth_stage df labels)) with (Date df).
  intros i d st Hd. rewrite (Hrows i d Hd).
  assert (Hb : (sowing <= d <= harvest)%Z).
  { rewrite Hdate in Hd. exact (date_range_bounds _ _ _ _ Hd). }
  set (dates := growth_stage_dates sowing harvest peak).
  destruct (row_label_schedule (removelast dates) harvest d)
    as (e & He & Hlab & Hle & Hmax & Hh).
  - intros e He. simpl in He.
    repeat (destruct He as [<-|He]; [reflexivity|]). contradiction.
  - exists (Sowing, sowing). split; [now left | cbn [snd]; lia].
  - lia.
  - change (removelast dates ++ [(Harvest, harvest)]) with dates in *.
    rewrite Hlab.
    pose proof (proj1 (growth_stage_dates_anchor _ _ _ e) He) as Ha.
    assert (Hall : forall st',
               (anchor_date sowing harvest peak st' <= d)%Z ->
               (anchor_date sowing harvest peak st' <= snd e)%Z).
    { intros st' Hst'.
      apply (Hmax (st', anchor_date sowing harvest peak st'));
        [|exact Hst'].
      apply growth_stage_dates_anchor. reflexivity. }
    destruct e as [st0 a0]. cbn [fst snd] in *. subst a0.
    split.
    + intro E. inversion E; subst st0. clear E. split; [exact Hle|].
      pose proof (Hall (next_stage st)) as Hn.
      destruct st; cbn [stage_end next_stage anchor_date] in *; lia.
    + intros [Hlo Hhi]. f_equal. f_equal.
      pose proof (Hall st Hlo) as Hn.
      destruct st, st0; cbn [stage_end next_stage anchor_date] in *;
        try reflexivity; exfalso; try lia;
        destruct Hh as [Hh1 Hh2]; try (specialize (Hh1 eq_refl)); lia.
Qed.

Lemma stage_intervals_regular_witness :
  let s := set_daily_ndvi (init 0 300 []) sample_frame in
  exists (s' : analyzer) (df' : frame) (labels : list label),
    estimate_growth_stages s = Ok (s', growth_stage_dates 0 300 240) /\
    s' = set_daily_ndvi s (set_growth_stage sample_frame labels) /\
    daily_ndvi s' = Some df' /\
    Growth_Stage df' = Some labels /\
    Date df' = Date sample_frame /\
    forall (i : nat) (d : Z) (st : stage),
      nth_error (Date df') i = Some d ->
      (nth_error labels i = Some (Lab st) <->
       (anchor_date 0 300 240 st <= d < stage_end 0 300 240 st)%Z).
Proof.
  intro s.
  apply (stage_intervals_regular s sample_frame 240).
  - reflexivity.
  - reflexivity.
  - vm_compute. reflexivity.
  - vm_compute. reflexivity.
  - vm_compute. reflexivity.
Defined.

(** ** Saving the results *)

Lemma save_results_labelled (s : analyzer) (df : frame) (labels : list label) :
  daily_ndvi s = Some df ->
  Growth_Stage df = Some labels ->
  exists t,
    save_results s = Saved t /\
    map fst t
    = base_names
      ++ (match fvc_cols df with Some _ => cover_names | None => [] end)
      ++ tail_names /\
    (forall name col, In (name, col) (frame_table df) -> In (name, col) t) /\
    In ("Sowing_Date"%string,
        DateColumn (repeat (sowing_date s) (List.length (Date df)))) t /\
    In ("Harvest_Date"%string,
        DateColumn (repeat (harvest_date s) (List.length (Date df)))) t.
Proof.
  intros Hdf Hg. unfold save_results, frame_table. rewrite Hdf, Hg.
  destruct (fvc_cols df) as [c|]; vm_compute;
    (eexists; split; [reflexivity|]; split; [reflexivity|]; split;
     [intros name col H; tauto | tauto]).
Qed.

(** X23.  [save_results] raises [AttributeError] when no frame was stored
    and [KeyError] when the stored frame has no stage column.  Otherwise
    the frame it returns keeps every column of the stored frame, adds the
    two season dates on every row, and orders the columns: the five index
    columns, the six cover columns when the frame has them, then the
    stage and the two season dates. *)
Theorem save_results_columns (s : analyzer) :
  match daily_ndvi s with
  | None => save_results s = SaveAttributeError
  | Some df =>
      match Growth_Stage df with
      | None => save_results s = SaveKeyError
      | Some labels =>
          exists t,
            save_results s = Saved t /\
            map fst t
            = base_names
              ++ (match fvc_cols df with
                  | Some _ => cover_names
                  | None => []
                  end)
              ++ tail_names /\
            (forall name col,
               In (name, col) (frame_table df) -> In (name, col) t) /\
            In ("Sowing_Date"%string,
                DateColumn (repeat (sowing_date s) (List.length (Date df))))
               t /\
            In ("Harvest_Date"%string,
                DateColumn (repeat (harvest_date s) (List.length (Date df))))
               t
      end
  end.
Proof.
  destruct (daily_ndvi s) as [df|] eqn:Hdf.
  - destruct (Growth_Stage df) as [labels|] eqn:Hg.
    + now apply (save_results_labelled s df labels).
    + unfold save_results, frame_table. rewrite Hdf, Hg.
      destruct (fvc_cols df); reflexivity.
  - unfold save_results. now rewrite Hdf.
Qed.

(** X24.  Right after a run of [interpolate_ndvi] the results cannot be
    saved: the frame it stores has no stage column, also when an earlier
    frame had one, and [save_results] raises [KeyError].  Once
    [estimate_growth_stages] has run on that session, [save_results]
    returns a frame of 14 columns when the parameters were set and of 8
    when they were not. *)
Theorem save_results_after_interpolate (L : library) (method : string)
    (s s1 : analyzer) (df : frame) :
  interpolate_ndvi L method s = Ok (s1, df) ->
  save_results s1 = SaveKeyError /\
  forall s2 dates,
    estimate_growth_stages s1 = Ok (s2, dates) ->
    exists t,
      save_results s2 = Saved t /\
      List.length t
      = match ndvi_soil (fvc_params s) with
        | Some _ => 14%nat
        | None => 8%nat
        end.
Proof.
  intro H.
  destruct (interpolate_ndvi_no_stage _ _ _ _ _ H) as [Hg _].
  destruct (interpolate_ndvi_inv _ _ _ _ _ H)
    as (ys & ci & _ & _ & Hs & _ & _ & _ & _ & Hf).
  assert (Hdf : daily_ndvi s1 = Some df) by (now rewrite Hs).
  split.
  - unfold save_results, frame_table. rewrite Hdf, Hg.
    destruct (fvc_cols df); reflexivity.
  - intros s2 dates Hs2.
    unfold estimate_growth_stages in Hs2. rewrite Hdf in Hs2.
    destruct (idxmax (NDVI_Interpolated df)); [|discriminate].
    inversion Hs2; subst s2 dates. clear Hs2.
    match goal with
    | |- exists t, save_results ?S = _ /\ _ =>
        destruct (save_results_labelled S _ _ eq_refl eq_refl)
          as (t & Ht & Hnames & _)
    end.
    exists t. split; [exact Ht|].
    rewrite <- (length_map fst t), Hnames.
    cbn [fvc_cols set_growth_stage].
    destruct (ndvi_soil (fvc_params s)).
    + destruct Hf as (c & -> & _). reflexivity.
    + rewrite Hf. reflexivity.
Qed.

Lemma save_results_after_interpolate_witness :
  let s := sample_session in
  save_results (fst sample_run) = SaveKeyError /\
  forall s2 dates,
    estimate_growth_stages (fst sample_run) = Ok (s2, dates) ->
    exists t,
      save_results s2 = Saved t /\
      List.length t
      = match ndvi_soil (fvc_params s) with
        | Some _ => 14%nat
        | None => 8%nat
        end.
Proof.
  intro s.
  apply (save_results_after_interpolate zero_profile_library "physiological"
           s (fst sample_run) (snd sample_run)).
  vm_compute. reflexivity.
Defined.

(** ** A season that ends on day 270 *)

Lemma near_value_nan (L : library) (obs_day : Z) (obs_ndvi : Q) (x : Z) :
  near_value L obs_day obs_ndvi x NaN = NaN.
Proof.
  unfold near_value. destruct (Z.abs (x - obs_day) <? 50)%Z; [|reflexivity].
  cbv zeta. now rewrite fmul_nan_r.
Qed.

Lemma pull_observation_keeps_nan (L : library) (x_interp : list Z)
    (y : list npfloat) (ob : Z * Q) (j : nat) :
  List.length y = List.length x_interp ->
  (j < List.length x_interp)%nat ->
  nth j y NaN = NaN ->
  nth j (pull_observation L x_interp y ob) NaN = NaN.
Proof.
  intros Hlen Hj Hnan. destruct ob as [d v]. unfold pull_observation.
  destruct (find_index d x_interp) as [idx|] eqn:Hf; [|exact Hnan].
  pose proof (find_index_bound _ _ _ Hf) as [Hidx _].
  rewrite pull_loop_cell by (try apply seq_NoDup; rewrite upd_length; lia).
  destruct (Nat.eqb_spec j idx) as [->|Hne].
  - rewrite andb_false_r. rewrite nth_upd_same by lia.
    rewrite Hnan. reflexivity.
  - rewrite nth_upd_other by congruence. rewrite Hnan.
    rewrite near_value_nan. now destruct (existsb _ _ && _).
Qed.

Lemma pull_fold_keeps_nan (L : library) (x_interp : list Z)
    (obs : list (Z * Q)) (j : nat) :
  (j < List.length x_interp)%nat ->
  forall y, List.length y = List.length x_interp ->
            nth j y NaN = NaN ->
            nth j (fold_left (pull_observation L x_interp) obs y) NaN = NaN.
Proof.
  intro Hj. induction obs as [|ob r IH]; intros y Hlen Hnan; [exact Hnan|].
  cbn [fold_left]. apply IH.
  - now rewrite pull_observation_length.
  - now apply pull_observation_keeps_nan.
Qed.

(** X25.  Guided reconstruction of a series whose last day is day 270:
    the last phase divides zero by zero on that day, no observation pull
    repairs the cell, and the series handed to the smoothing filter holds
    NaN there, for every table of observations that is not empty. *)
Theorem balanced_interpolation_day_270 (L : library) (s : analyzer)
    (x_interp : list Z) (j : nat) :
  ndvi_data s <> [] ->
  max_Z x_interp = 270%Z ->
  find_index 270 x_interp = Some j ->
  exists ys,
    _balanced_interpolation L s x_interp = Ok (gaussian_filter1d L ys) /\
    List.length ys = List.length x_interp /\
    nth j ys (Fin 0) = NaN.
Proof.
  intros Hne Hmax Hf.
  destruct (series_max_spec (y_obs_of s)) as (m & Hm & _).
  { intro E. pose proof (y_obs_of_length s) as Hl. rewrite E in Hl.
    destruct (ndvi_data s); [congruence | discriminate]. }
  destruct (find_index_bound _ _ _ Hf) as [Hj Hx].
  unfold _balanced_interpolation, np_max. rewrite Hm. cbn [bind].
  eexists. split; [reflexivity|].
  assert (Hlen : List.length
                   (fold_left (pull_observation L x_interp)
                      (combine (x_obs_of s) (y_obs_of s))
                      (balanced_constrained L m (np_mean (x_obs_of s))
                         x_interp))
                 = List.length x_interp)
    by (rewrite pull_fold_length; apply balanced_constrained_length).
  split; [exact Hlen|].
  rewrite (nth_indep _ (Fin 0) NaN) by (rewrite Hlen; exact Hj).
  apply pull_fold_keeps_nan;
    [exact Hj | apply balanced_constrained_length |].
  unfold balanced_constrained. cbv zeta. rewrite zip_with_map_same.
  rewrite (nth_map_in _ x_interp j 0%Z) by exact Hj.
  rewrite Hx, Hmax. apply balanced_phase_last_day.
Qed.

Lemma balanced_interpolation_day_270_witness :
  exists ys,
    _balanced_interpolation trivial_library (init 0 270 [mkObs 121 0.85])
                            (date_range 0 270)
    = Ok (gaussian_filter1d trivial_library ys) /\
    List.length ys = List.length (date_range 0 270) /\
    nth 270 ys (Fin 0) = NaN.
Proof.
  apply (balanced_interpolation_day_270 trivial_library
           (init 0 270 [mkObs 121 0.85]) (date_range 0 270) 270).
  - discriminate.
  - vm_compute. reflexivity.
  - vm_compute. reflexivity.
Defined.

(** ** Range of a returned frame *)

Lemma interpolate_ndvi_cover_inv (L : library) (method : string)
    (s s' : analyzer) (df : frame) :
  interpolate_ndvi L method s = Ok (s', df) ->
  match fvc_cols df with
  | Some c =>
      Ground_Cover_Percentage c
      = calculate_ground_cover_percentage (FVC_Interpolated c) /\
      Ground_Cover_Lower_CI c
      = calculate_ground_cover_percentage (FVC_Lower_CI c) /\
      Ground_Cover_Upper_CI c
      = calculate_ground_cover_percentage (FVC_Upper_CI c)
  | None => True
  end.
Proof.
  unfold interpolate_ndvi.
  destruct (reconstruct L method s _); [|discriminate]. simpl.
  destruct (_calculate_confidence_intervals L _ _ _ _ _); [|discriminate].
  simpl.
  destruct (ndvi_soil (fvc_params s)).
  - destruct (calculate_fvc s _); [|discriminate]. simpl.
    destruct (calculate_fvc s _); [|discriminate]. simpl.
    destruct (calculate_fvc s _); [|discriminate]. simpl.
    intro H. inversion H; subst. simpl. repeat split; reflexivity.
  - simpl. intro H. inversion H; subst. exact I.
Qed.

Lemma percentage_range (fs : list npfloat) :
  Forall nan_or_unit fs ->
  Forall nan_or_percent (calculate_ground_cover_percentage fs).
Proof.
  intro H. unfold calculate_ground_cover_percentage.
  apply Forall_forall. intros y Hy. apply in_map_iff in Hy.
  destruct Hy as (f & <- & Hf). rewrite Forall_forall in H.
  destruct (H f Hf) as [->|Hu]; [now left|].
  right. now apply percentage_of_unit.
Qed.

(** X26.  In a frame that [interpolate_ndvi] returns, every cell of the
    index column, of the two bound columns and of the three
    cover-fraction columns lies in [0,1] or is NaN, and every cell of the
    three ground-cover columns lies in [0,100] or is NaN: clipping is the
    last step on each of them, and it lets NaN through. *)
Theorem interpolate_ndvi_cells_clipped (L : library) (method : string)
    (s s' : analyzer) (df : frame) :
  interpolate_ndvi L method s = Ok (s', df) ->
  Forall nan_or_unit (NDVI_Interpolated df) /\
  Forall nan_or_unit (NDVI_Lower_CI df) /\
  Forall nan_or_unit (NDVI_Upper_CI df) /\
  match fvc_cols df with
  | Some c =>
      Forall nan_or_unit (FVC_Interpolated c) /\
      Forall nan_or_unit (FVC_Lower_CI c) /\
      Forall nan_or_unit (FVC_Upper_CI c) /\
      Forall nan_or_percent (Ground_Cover_Percentage c) /\
      Forall nan_or_percent (Ground_Cover_Lower_CI c) /\
      Forall nan_or_percent (Ground_Cover_Upper_CI c)
  | None => True
  end.
Proof.
  intro H.
  destruct (interpolate_ndvi_inv _ _ _ _ _ H)
    as (ys & ci & _ & _ & _ & _ & Hy & Hl & Hu & Hf).
  pose proof (interpolate_ndvi_cover_inv _ _ _ _ _ H) as Hg.
  rewrite Hy, Hl, Hu.
  repeat (split; [apply np_clip_range|]).
  destruct (ndvi_soil (fvc_params s)).
  - destruct Hf as (c & Hc & H1 & H2 & H3). rewrite Hc in *.
    destruct Hg as (G1 & G2 & G3). rewrite G1, G2, G3.
    pose proof (calculate_fvc_range _ _ _ H1).
    pose proof (calculate_fvc_range _ _ _ H2).
    pose proof (calculate_fvc_range _ _ _ H3).
    repeat split; try assumption; now apply percentage_range.
  - now rewrite Hf.
Qed.

Lemma interpolate_ndvi_cells_clipped_witness :
  Forall nan_or_unit (NDVI_Interpolated (snd sample_run)) /\
  Forall nan_or_unit (NDVI_Lower_CI (snd sample_run)) /\
  Forall nan_or_unit (NDVI_Upper_CI (snd sample_run)) /\
  match fvc_cols (snd sample_run) with
  | Some c =>
      Forall nan_or_unit (FVC_Interpolated c) /\
      Forall nan_or_unit (FVC_Lower_CI c) /\
      Forall nan_or_unit (FVC_Upper_CI c) /\
      Forall nan_or_percent (Ground_Cover_Percentage c) /\
      Forall nan_or_percent (Ground_Cover_Lower_CI c) /\
      Forall nan_or_percent (Ground_Cover_Upper_CI c)
  | None => True
  end.
Proof.
  apply (interpolate_ndvi_cells_clipped zero_profile_library "physiological"
           sample_session (fst sample_run) (snd sample_run)).
  vm_compute. reflexivity.
Defined.
